(** * Senate Lobbying Disclosure client: model and properties

    A shallow embedding of [lda_api.py] (transport, query builder, pager,
    normalizer, CSV exporter) and of the [build_csv] helper of
    [streamlit_app.py], followed by the properties proved about them.

    Conventions of the embedding.
    - A Python value that can come out of a JSON document is a [value].
      JSON numbers are integers ([Z]); floating-point numbers are outside the
      model.
    - A Python [str] is a [string]; each [ascii] stands for the code point of
      the same number (0..255).  Code points above 255 are outside the model.
    - A Python [dict] is an association list in insertion order whose keys are
      pairwise distinct ([wf_dict]); [dict_set] updates in place or appends,
      as assignment to a dict does.
    - A call that may raise returns a [result]; code that talks to the network
      threads a [World] that scripts the outcomes of [Session.get] and logs
      what was called.  Durations (timeout, pause) are whole seconds.
    - A loop of the source is a [Fixpoint] on a fuel argument; [None] means
      that the fuel ran out, never that the program stopped. *)

From Stdlib Require Import String Ascii List ZArith Lia Bool.
From Stdlib Require Import DecimalString DecimalZ DecimalPos.
Import ListNotations.
Set Warnings "-register-all".
Open Scope string_scope.
Open Scope Z_scope.

(** ** Python values *)

Inductive value : Type :=
| VNone
| VBool (b : bool)
| VInt (n : Z)
| VStr (s : string)
| VList (l : list value)
| VDict (d : list (string * value)).

Definition dict : Type := list (string * value).

Inductive exn : Type :=
| ValueError (msg : string)
| RuntimeError (msg : string)
| TypeError
| AttributeError
| JSONDecodeError
| RequestException (name : string).

Inductive result (A : Type) : Type :=
| Ok (a : A)
| Raise (e : exn).

Arguments Ok {A} a.
Arguments Raise {A} e.

Definition bind {A B : Type} (m : result A) (k : A -> result B) : result B :=
  match m with
  | Ok a => k a
  | Raise e => Raise e
  end.

Notation "x <- m ;; k" := (bind m (fun x => k))
  (at level 61, m at next level, right associativity).

(** [bool(v)] *)
Definition truthy (v : value) : bool :=
  match v with
  | VNone => false
  | VBool b => b
  | VInt n => negb (n =? 0)
  | VStr s => negb (String.eqb s "")
  | VList l => match l with [] => false | _ => true end
  | VDict d => match d with [] => false | _ => true end
  end.

(** [a or b]; the right operand is only evaluated when [a] is falsy. *)
Definition por (a : value) (b : result value) : result value :=
  if truthy a then Ok a else b.

(** ** Dictionaries *)

Fixpoint dict_lookup (k : string) (d : dict) : option value :=
  match d with
  | [] => None
  | (k', v) :: d' => if String.eqb k k' then Some v else dict_lookup k d'
  end.

(** [k in d] *)
Definition dict_has (k : string) (d : dict) : bool :=
  match dict_lookup k d with Some _ => true | None => false end.

(** [d.get(k, default)] *)
Definition dict_get_default (k : string) (default : value) (d : dict) : value :=
  match dict_lookup k d with Some v => v | None => default end.

(** [d.get(k)] *)
Definition dict_get (k : string) (d : dict) : value :=
  dict_get_default k VNone d.

(** [d[k] = v] *)
Fixpoint dict_set (k : string) (v : value) (d : dict) : dict :=
  match d with
  | [] => [(k, v)]
  | (k', v') :: d' =>
      if String.eqb k k' then (k', v) :: d' else (k', v') :: dict_set k v d'
  end.

(** [d.update(other)] *)
Definition dict_update (d other : dict) : dict :=
  fold_left (fun acc kv => dict_set (fst kv) (snd kv) acc) other d.

Definition dict_keys (d : dict) : list string := map fst d.

Definition wf_dict (d : dict) : Prop := NoDup (dict_keys d).

(** [v.get(k)] on an arbitrary value: only a dict has the method. *)
Definition attr_get (v : value) (k : string) : result value :=
  match v with
  | VDict d => Ok (dict_get k d)
  | _ => Raise AttributeError
  end.

(** [v.get(k, default)] *)
Definition attr_get_default (v : value) (k : string) (default : value)
  : result value :=
  match v with
  | VDict d => Ok (dict_get_default k default d)
  | _ => Raise AttributeError
  end.

Definition char_str (c : ascii) : string := String c EmptyString.

Fixpoint chars_of (s : string) : list value :=
  match s with
  | EmptyString => []
  | String c s' => VStr (char_str c) :: chars_of s'
  end.

(** The elements [for x in v] goes through: the items of a list, the
    characters of a string, the keys of a dict; anything else is not
    iterable. *)
Definition py_iter (v : value) : result (list value) :=
  match v with
  | VList l => Ok l
  | VStr s => Ok (chars_of s)
  | VDict d => Ok (map (fun kv => VStr (fst kv)) d)
  | _ => Raise TypeError
  end.

(** ** Strings *)

Definition quote : ascii := ascii_of_nat 34.
Definition apostrophe : ascii := ascii_of_nat 39.
Definition backslash : ascii := ascii_of_nat 92.

(** [str.isspace] on one character of the range 0..255. *)
Definition isspace (c : ascii) : bool :=
  let n := nat_of_ascii c in
  ((9 <=? n) && (n <=? 13) || (28 <=? n) && (n <=? 32)
   || (n =? 133) || (n =? 160))%nat.

Definition flush (cur : list ascii) : list string :=
  match cur with
  | [] => []
  | _ => [string_of_list_ascii (rev cur)]
  end.

(** [s.split()]: the maximal runs of non-whitespace characters; [cur] holds
    the run being read, last character first. *)
Fixpoint split_from (cur : list ascii) (s : string) : list string :=
  match s with
  | EmptyString => flush cur
  | String c s' =>
      if isspace c then (flush cur ++ split_from [] s')%list
      else split_from (c :: cur) s'
  end.

Definition split (s : string) : list string := split_from [] s.

(** [sep.join(parts)] *)
Definition join (sep : string) (parts : list string) : string :=
  String.concat sep parts.

Fixpoint drop_while (p : ascii -> bool) (l : list ascii) : list ascii :=
  match l with
  | [] => []
  | c :: l' => if p c then drop_while p l' else l
  end.

Definition lstrip_by (p : ascii -> bool) (s : string) : string :=
  string_of_list_ascii (drop_while p (list_ascii_of_string s)).

Definition rstrip_by (p : ascii -> bool) (s : string) : string :=
  string_of_list_ascii (rev (drop_while p (rev (list_ascii_of_string s)))).

(** [s.strip()] *)
Definition strip (s : string) : string := lstrip_by isspace (rstrip_by isspace s).

Definition is_slash (c : ascii) : bool := Ascii.eqb c "/"%char.

(** [str(n)] for an integer. *)
Definition str_of_Z (n : Z) : string := NilZero.string_of_int (Z.to_int n).

Definition hex_digit (n : nat) : ascii :=
  nth n (list_ascii_of_string "0123456789abcdef") "0"%char.

Definition hex2 (c : ascii) : string :=
  let n := nat_of_ascii c in
  String (hex_digit (n / 16)) (String (hex_digit (n mod 16)) EmptyString).

Fixpoint contains_char (c : ascii) (s : string) : bool :=
  match s with
  | EmptyString => false
  | String c' s' => Ascii.eqb c c' || contains_char c s'
  end.

(** [str.isprintable] on one character of the range 0..255. *)
Definition isprintable (c : ascii) : bool :=
  let n := nat_of_ascii c in
  ((32 <=? n) && (n <=? 126) || (161 <=? n) && negb (n =? 173))%nat.

Definition repr_char (q : ascii) (c : ascii) : string :=
  if Ascii.eqb c backslash then String backslash (char_str backslash)
  else if Ascii.eqb c q then String backslash (char_str q)
  else if Ascii.eqb c (ascii_of_nat 9) then String backslash "t"
  else if Ascii.eqb c (ascii_of_nat 10) then String backslash "n"
  else if Ascii.eqb c (ascii_of_nat 13) then String backslash "r"
  else if isprintable c then char_str c
  else String backslash (String "x" (hex2 c)).

Fixpoint repr_chars (q : ascii) (s : string) : string :=
  match s with
  | EmptyString => EmptyString
  | String c s' => repr_char q c ++ repr_chars q s'
  end.

(** [repr(s)] for a string: single quotes unless the string holds a single
    quote and no double quote. *)
Definition repr_str (s : string) : string :=
  let q := if contains_char apostrophe s && negb (contains_char quote s)
           then quote else apostrophe in
  String q (repr_chars q s ++ char_str q).

(** [repr(v)] *)
Fixpoint py_repr (v : value) : string :=
  match v with
  | VNone => "None"
  | VBool true => "True"
  | VBool false => "False"
  | VInt n => str_of_Z n
  | VStr s => repr_str s
  | VList l => "[" ++ join ", " (map py_repr l) ++ "]"
  | VDict d =>
      "{" ++ join ", " (map (fun kv => repr_str (fst kv) ++ ": " ++ py_repr (snd kv)) d)
          ++ "}"
  end.

(** [str(v)] *)
Definition py_str (v : value) : string :=
  match v with
  | VStr s => s
  | _ => py_repr v
  end.

(** [sep.join(parts)] where the parts are arbitrary values: every part must
    be a string. *)
Fixpoint strs_of (parts : list value) : result (list string) :=
  match parts with
  | [] => Ok []
  | VStr s :: rest => ss <- strs_of rest ;; Ok (s :: ss)
  | _ :: _ => Raise TypeError
  end.

Definition join_values (sep : string) (parts : list value) : result string :=
  ss <- strs_of parts ;; Ok (join sep ss).

(** ** Transport *)

Definition BASE_API_URL : string := "https://lda.senate.gov/api/v1".

Record Response : Type := {
  status_code : Z;
  text : string;
  (** what [response.json()] gives; [None] when the body is not JSON *)
  json_body : option value
}.

(** What one call of [Session.get] does: it times out, it fails with another
    exception of [requests] (named), or it brings a response. *)
Inductive outcome : Type :=
| TimedOut
| Failed (name : string)
| Responded (r : Response).

Record GetCall : Type := {
  get_url : string;
  get_params : option dict;
  get_timeout : Z
}.

Record World : Type := {
  (** outcome of the n-th call of [Session.get], counted from 0 *)
  net : nat -> outcome;
  (** calls of [Session.get] so far, oldest first *)
  gets : list GetCall;
  (** arguments of [time.sleep] so far, oldest first *)
  sleeps : list Z;
  (** calls of [_request] so far, oldest first *)
  requests : list (string * option dict)
}.

Definition session_get (url : string) (params : option dict) (timeout : Z)
  (w : World) : outcome * World :=
  (net w (length (gets w)),
   {| net := net w;
      gets := (gets w ++ [{| get_url := url; get_params := params;
                             get_timeout := timeout |}])%list;
      sleeps := sleeps w;
      requests := requests w |}).

Definition sleep (seconds : Z) (w : World) : World :=
  {| net := net w; gets := gets w; sleeps := (sleeps w ++ [seconds])%list;
     requests := requests w |}.

Definition note_request (path : string) (params : option dict) (w : World)
  : World :=
  {| net := net w; gets := gets w; sleeps := sleeps w;
     requests := (requests w ++ [(path, params)])%list |}.

Record LDAClient : Type := {
  token : string;
  base_url : string;
  timeout : Z
}.

(** [LDAClient.__init__] *)
Definition new_client (token : string) (base_url : string) (timeout : Z)
  : result LDAClient :=
  if String.eqb token "" then Raise (ValueError "API token is required.")
  else Ok {| token := token;
             base_url := rstrip_by is_slash base_url;
             timeout := timeout |}.

Definition timed_out_message (url : string) (timeout : Z) : string :=
  "Request to " ++ url ++ " timed out after " ++ str_of_Z timeout ++ " seconds.".

Definition request_failed_message (r : Response) : string :=
  "Request failed: " ++ str_of_Z (status_code r) ++ " " ++ text r.

(** The [while True] loop of [_request]: one round per unit of fuel. *)
Fixpoint get_loop (fuel : nat) (self : LDAClient) (url : string)
  (params : option dict) (attempts : Z) (w : World)
  : option (result Response * World) :=
  match fuel with
  | O => None
  | S fuel' =>
      let attempts := attempts + 1 in
      match session_get url params (timeout self) w with
      | (Responded response, w1) => Some (Ok response, w1)
      | (Failed name, w1) => Some (Raise (RequestException name), w1)
      | (TimedOut, w1) =>
          if attempts >=? 2
          then Some (Raise (RuntimeError (timed_out_message url (timeout self))), w1)
          else get_loop fuel' self url params attempts (sleep 1 w1)
      end
  end.

(** [Response.raise_for_status] raises for the statuses 400..599 only. *)
Definition is_http_error (r : Response) : bool :=
  (400 <=? status_code r) && (status_code r <? 600).

(** [Response.json] *)
Definition response_json (r : Response) : result value :=
  match json_body r with
  | Some v => Ok v
  | None => Raise JSONDecodeError
  end.

(** What [_request] does with the response once it has one. *)
Definition read_response (response : Response) : result value :=
  if is_http_error response
  then Raise (RuntimeError (request_failed_message response))
  else response_json response.

Definition request_url (self : LDAClient) (path : string) : string :=
  base_url self ++ "/" ++ lstrip_by is_slash path.

(** [LDAClient._request]; a timeout is met at most twice, so two rounds of
    the loop are all it can take ([request_returns]). *)
Definition _request (self : LDAClient) (path : string) (params : option dict)
  (w : World) : option (result value * World) :=
  let url := request_url self path in
  match get_loop 2 self url params 0 (note_request path params w) with
  | None => None
  | Some (Raise e, w1) => Some (Raise e, w1)
  | Some (Ok response, w1) => Some (read_response response, w1)
  end.

(** ** Query builder *)

Record Filters : Type := {
  client_id : option Z;
  client_name : option string;
  lobbyist_id : option Z;
  lobbyist_name : option string;
  additional_filters : option dict
}.

Definition set_if_not_none (k : string) (v : option Z) (d : dict) : dict :=
  match v with
  | Some n => dict_set k (VInt n) d
  | None => d
  end.

Definition set_if_truthy (k : string) (v : option string) (d : dict) : dict :=
  match v with
  | Some s => if truthy (VStr s) then dict_set k (VStr s) d else d
  | None => d
  end.

Definition update_if_truthy (other : option dict) (d : dict) : dict :=
  match other with
  | Some o => if truthy (VDict o) then dict_update d o else d
  | None => d
  end.

(** The filter set [list_filings] assembles. *)
Definition build_filters (q : Filters) (page page_size : Z) : dict :=
  let filters := [("page", VInt page); ("page_size", VInt page_size)] in
  let filters := set_if_not_none "client_id" (client_id q) filters in
  let filters := set_if_truthy "client_name" (client_name q) filters in
  let filters := set_if_not_none "lobbyist_id" (lobbyist_id q) filters in
  let filters := set_if_truthy "lobbyist_name" (lobbyist_name q) filters in
  update_if_truthy (additional_filters q) filters.

Definition identifying_keys : list string :=
  ["client_id"; "client_name"; "lobbyist_id"; "lobbyist_name"].

Definition has_filter (filters : dict) : bool :=
  existsb (fun key => dict_has key filters) identifying_keys.

Definition invalid_query_message : string :=
  "The API requires at least one filter when requesting page > 1.".

(** [LDAClient.list_filings] *)
Definition list_filings (self : LDAClient) (q : Filters) (page page_size : Z)
  (w : World) : option (result value * World) :=
  let filters := build_filters q page page_size in
  if (page >? 1) && negb (has_filter filters)
  then Some (Raise (ValueError invalid_query_message), w)
  else _request self "filings/" (Some filters) w.



(** ** Pager *)

(** [dict(v)] for the values that reach it here. *)
Definition to_dict (v : value) : result dict :=
  match v with
  | VDict d => Ok d
  | _ => Raise TypeError
  end.

(** What one round of the loop of [list_all_filings] reads from the page it
    fetched: the accumulator extended with the page's results, and whether
    [next] is truthy. *)
Definition take_page (response : value) (all_results : list value)
  : result (list value * bool) :=
  results <- attr_get_default response "results" (VList []) ;;
  items <- py_iter results ;;
  next <- attr_get response "next" ;;
  Ok ((all_results ++ items)%list, truthy next).

Definition reached_cap (max_pages : option Z) (page : Z) : bool :=
  match max_pages with
  | Some m => page >=? m
  | None => false
  end.

Definition merge_result (first_response : value) (all_results : list value)
  (page : Z) : result value :=
  merged <- to_dict first_response ;;
  let merged := dict_set "results" (VList all_results) merged in
  let merged := dict_set "fetched_pages" (VInt page) merged in
  Ok (VDict merged).

Definition pause (pause_seconds : Z) (w : World) : World :=
  if pause_seconds >? 0 then sleep pause_seconds w else w.

(** The [while True] loop of [list_all_filings]: one page per unit of fuel. *)
Fixpoint pages_loop (fuel : nat) (self : LDAClient) (q : Filters)
  (page_size pause_seconds : Z) (max_pages : option Z)
  (all_results : list value) (first_response : option value) (page : Z)
  (w : World) : option (result value * World) :=
  match fuel with
  | O => None
  | S fuel' =>
      match list_filings self q page page_size w with
      | None => None
      | Some (Raise e, w1) => Some (Raise e, w1)
      | Some (Ok response, w1) =>
          let first_response :=
            match first_response with
            | None => response
            | Some first => first
            end in
          match take_page response all_results with
          | Raise e => Some (Raise e, w1)
          | Ok (all_results, next_page_exists) =>
              let next_page_exists :=
                if reached_cap max_pages page then false else next_page_exists in
              if negb next_page_exists
              then Some (merge_result first_response all_results page, w1)
              else pages_loop fuel' self q page_size pause_seconds max_pages
                     all_results (Some first_response) (page + 1)
                     (pause pause_seconds w1)
          end
      end
  end.

(** [LDAClient.list_all_filings] *)
Definition list_all_filings (fuel : nat) (self : LDAClient) (q : Filters)
  (page_size pause_seconds : Z) (max_pages : option Z) (w : World)
  : option (result value * World) :=
  pages_loop fuel self q page_size pause_seconds max_pages [] None 1 w.

(** ** JSON text: [json.dumps] and [json.loads] *)

(** [ESCAPE_DCT] of the encoder with [ensure_ascii=False]: the double quote,
    the backslash and the control characters below 32 are escaped, everything
    else is written as it is. *)
Definition escape_char (c : ascii) : string :=
  if Ascii.eqb c quote then String backslash (char_str quote)
  else if Ascii.eqb c backslash then String backslash (char_str backslash)
  else if Ascii.eqb c (ascii_of_nat 8) then String backslash "b"
  else if Ascii.eqb c (ascii_of_nat 12) then String backslash "f"
  else if Ascii.eqb c (ascii_of_nat 10) then String backslash "n"
  else if Ascii.eqb c (ascii_of_nat 13) then String backslash "r"
  else if Ascii.eqb c (ascii_of_nat 9) then String backslash "t"
  else if (nat_of_ascii c <? 32)%nat
       then String backslash (String "u" (String "0" (String "0" (hex2 c))))
  else char_str c.

Fixpoint escape (s : string) : string :=
  match s with
  | EmptyString => EmptyString
  | String c s' => escape_char c ++ escape s'
  end.

Definition dumps_str (s : string) : string :=
  String quote (escape s ++ char_str quote).

(** [json.dumps(v, ensure_ascii=False)], with the default separators. *)
Fixpoint dumps (v : value) : string :=
  match v with
  | VNone => "null"
  | VBool true => "true"
  | VBool false => "false"
  | VInt n => str_of_Z n
  | VStr s => dumps_str s
  | VList l => "[" ++ join ", " (map dumps l) ++ "]"
  | VDict d =>
      "{" ++ join ", " (map (fun kv => dumps_str (fst kv) ++ ": " ++ dumps (snd kv)) d)
          ++ "}"
  end.

Definition is_json_ws (c : ascii) : bool :=
  Ascii.eqb c " " || Ascii.eqb c (ascii_of_nat 9)
  || Ascii.eqb c (ascii_of_nat 10) || Ascii.eqb c (ascii_of_nat 13).

Fixpoint skip_ws (s : string) : string :=
  match s with
  | EmptyString => EmptyString
  | String c s' => if is_json_ws c then skip_ws s' else s
  end.

Fixpoint strip_prefix (p s : string) : option string :=
  match p with
  | EmptyString => Some s
  | String c p' =>
      match s with
      | EmptyString => None
      | String c' s' => if Ascii.eqb c c' then strip_prefix p' s' else None
      end
  end.

Definition digit_of (c : ascii) : option (Decimal.uint -> Decimal.uint) :=
  if Ascii.eqb c "0" then Some Decimal.D0
  else if Ascii.eqb c "1" then Some Decimal.D1
  else if Ascii.eqb c "2" then Some Decimal.D2
  else if Ascii.eqb c "3" then Some Decimal.D3
  else if Ascii.eqb c "4" then Some Decimal.D4
  else if Ascii.eqb c "5" then Some Decimal.D5
  else if Ascii.eqb c "6" then Some Decimal.D6
  else if Ascii.eqb c "7" then Some Decimal.D7
  else if Ascii.eqb c "8" then Some Decimal.D8
  else if Ascii.eqb c "9" then Some Decimal.D9
  else None.

Definition is_digit (c : ascii) : bool :=
  match digit_of c with Some _ => true | None => false end.

(** The longest run of digits at the head of [s]. *)
Fixpoint scan_digits (s : string) : Decimal.uint * string :=
  match s with
  | EmptyString => (Decimal.Nil, s)
  | String c s' =>
      match digit_of c with
      | Some d => let (u, r) := scan_digits s' in (d u, r)
      | None => (Decimal.Nil, s)
      end
  end.

(** The integer part of [NUMBER_RE]: [0|[1-9][0-9]*]. *)
Definition scan_int (s : string) : option (Decimal.uint * string) :=
  match s with
  | EmptyString => None
  | String c s' =>
      if Ascii.eqb c "0" then Some (Decimal.D0 Decimal.Nil, s')
      else match digit_of c with
           | Some d => let (u, r) := scan_digits s' in Some (d u, r)
           | None => None
           end
  end.

(** Does a fraction [\.[0-9]+] start here? *)
Definition starts_frac (s : string) : bool :=
  match s with
  | String c (String c' _) => Ascii.eqb c "." && is_digit c'
  | _ => false
  end.

(** Does an exponent [[eE][-+]?[0-9]+] start here? *)
Definition starts_exp (s : string) : bool :=
  match s with
  | String e r =>
      (Ascii.eqb e "e" || Ascii.eqb e "E")
      && match r with
         | String c r' =>
             is_digit c
             || ((Ascii.eqb c "-" || Ascii.eqb c "+")
                 && match r' with String c' _ => is_digit c' | _ => false end)
         | EmptyString => false
         end
  | EmptyString => false
  end.

(** A number; one with a fraction or an exponent is a float, which the model
    has no value for. *)
Definition parse_number (s : string) : option (value * string) :=
  let (negative, s1) :=
    match s with
    | String c s' => if Ascii.eqb c "-" then (true, s') else (false, s)
    | EmptyString => (false, s)
    end in
  match scan_int s1 with
  | None => None
  | Some (u, r) =>
      if starts_frac r || starts_exp r then None
      else Some (VInt (Z.of_int (if negative then Decimal.Neg u else Decimal.Pos u)), r)
  end.

Definition hex_val (c : ascii) : option nat :=
  let n := nat_of_ascii c in
  if ((48 <=? n) && (n <=? 57))%nat then Some (n - 48)%nat
  else if ((97 <=? n) && (n <=? 102))%nat then Some (n - 87)%nat
  else if ((65 <=? n) && (n <=? 70))%nat then Some (n - 55)%nat
  else None.

Definition hex4 (a b c d : ascii) : option nat :=
  match hex_val a, hex_val b, hex_val c, hex_val d with
  | Some x, Some y, Some z, Some t => Some (((x * 16 + y) * 16 + z) * 16 + t)%nat
  | _, _, _, _ => None
  end.

(** [BACKSLASH] of the decoder. *)
Definition unescape (e : ascii) : option ascii :=
  if Ascii.eqb e quote then Some quote
  else if Ascii.eqb e backslash then Some backslash
  else if Ascii.eqb e "/" then Some "/"%char
  else if Ascii.eqb e "b" then Some (ascii_of_nat 8)
  else if Ascii.eqb e "f" then Some (ascii_of_nat 12)
  else if Ascii.eqb e "n" then Some (ascii_of_nat 10)
  else if Ascii.eqb e "r" then Some (ascii_of_nat 13)
  else if Ascii.eqb e "t" then Some (ascii_of_nat 9)
  else None.

Definition cons_char (c : ascii) (r : option (string * string))
  : option (string * string) :=
  match r with
  | Some (s, rest) => Some (String c s, rest)
  | None => None
  end.

(** [scanstring] in strict mode, from just after the opening quote: the
    string read and what follows its closing quote.  A [\u] escape above 255
    has no character in the model. *)
Fixpoint scanstring (s : string) : option (string * string) :=
  match s with
  | EmptyString => None
  | String c s' =>
      if Ascii.eqb c quote then Some (EmptyString, s')
      else if Ascii.eqb c backslash then
        match s' with
        | EmptyString => None
        | String e s'' =>
            match unescape e with
            | Some c' => cons_char c' (scanstring s'')
            | None =>
                if Ascii.eqb e "u" then
                  match s'' with
                  | String h1 (String h2 (String h3 (String h4 s3))) =>
                      match hex4 h1 h2 h3 h4 with
                      | Some n =>
                          if (n <? 256)%nat
                          then cons_char (ascii_of_nat n) (scanstring s3)
                          else None
                      | None => None
                      end
                  | _ => None
                  end
                else None
            end
        end
      else if (nat_of_ascii c <? 32)%nat then None
      else cons_char c (scanstring s')
  end.

(** [JSONArray], from the first element on: [n] bounds the number of
    elements. *)
Fixpoint parse_elems (scan_once : string -> option (value * string))
  (n : nat) (s : string) : option (list value * string) :=
  match n with
  | O => None
  | S n' =>
      match scan_once s with
      | None => None
      | Some (v, r) =>
          match skip_ws r with
          | EmptyString => None
          | String c r' =>
              if Ascii.eqb c "]" then Some ([v], r')
              else if Ascii.eqb c "," then
                match parse_elems scan_once n' (skip_ws r') with
                | Some (vs, r'') => Some (v :: vs, r'')
                | None => None
                end
              else None
          end
      end
  end.

(** [JSONObject], from just after the opening quote of a key on. *)
Fixpoint parse_members (scan_once : string -> option (value * string))
  (n : nat) (s : string) : option (list (string * value) * string) :=
  match n with
  | O => None
  | S n' =>
      match scanstring s with
      | None => None
      | Some (key, r) =>
          match skip_ws r with
          | EmptyString => None
          | String c r1 =>
              if Ascii.eqb c ":" then
                match scan_once (skip_ws r1) with
                | None => None
                | Some (v, r2) =>
                    match skip_ws r2 with
                    | EmptyString => None
                    | String c' r3 =>
                        if Ascii.eqb c' "}" then Some ([(key, v)], r3)
                        else if Ascii.eqb c' "," then
                          match skip_ws r3 with
                          | EmptyString => None
                          | String q r4 =>
                              if Ascii.eqb q quote then
                                match parse_members scan_once n' r4 with
                                | Some (kvs, r5) => Some ((key, v) :: kvs, r5)
                                | None => None
                                end
                              else None
                          end
                        else None
                    end
                end
              else None
          end
      end
  end.

(** [scan_once] of the decoder. *)
Fixpoint scan_once (fuel : nat) (s : string) : option (value * string) :=
  match fuel with
  | O => None
  | S fuel' =>
      match s with
      | EmptyString => None
      | String c rest =>
          if Ascii.eqb c quote then
            match scanstring rest with
            | Some (str, r) => Some (VStr str, r)
            | None => None
            end
          else if Ascii.eqb c "{" then
            match skip_ws rest with
            | EmptyString => None
            | String c' r =>
                if Ascii.eqb c' "}" then Some (VDict [], r)
                else if Ascii.eqb c' quote then
                  match parse_members (scan_once fuel') fuel' r with
                  | Some (pairs, r') => Some (VDict (dict_update [] pairs), r')
                  | None => None
                  end
                else None
            end
          else if Ascii.eqb c "[" then
            match skip_ws rest with
            | EmptyString => None
            | String c' r =>
                if Ascii.eqb c' "]" then Some (VList [], r)
                else
                  match parse_elems (scan_once fuel') fuel' (String c' r) with
                  | Some (vs, r') => Some (VList vs, r')
                  | None => None
                  end
            end
          else if Ascii.eqb c "n" then
            match strip_prefix "ull" rest with
            | Some r => Some (VNone, r)
            | None => None
            end
          else if Ascii.eqb c "t" then
            match strip_prefix "rue" rest with
            | Some r => Some (VBool true, r)
            | None => None
            end
          else if Ascii.eqb c "f" then
            match strip_prefix "alse" rest with
            | Some r => Some (VBool false, r)
            | None => None
            end
          else parse_number s
      end
  end.

(** [json.loads]: [None] stands for [JSONDecodeError] and for a document
    that holds a value outside the model (a float, a character above 255).
    A document of [n] characters nests fewer than [n] values. *)
Definition loads (s : string) : option value :=
  match scan_once (String.length s) (skip_ws s) with
  | Some (v, r) =>
      match skip_ws r with
      | EmptyString => Some v
      | String _ _ => None
      end
  | None => None
  end.

(** ** Normalizer: flatten *)

(** [f"{prefix}{sep}{key}" if prefix else str(key)] *)
Definition new_key_of (prefix sep key : string) : string :=
  if truthy (VStr prefix) then prefix ++ sep ++ key else key.

(** One round of the loop of [_flatten_record]: what the entry
    [key, value] does to [items], [new_key] being its dotted key. *)
Fixpoint flatten_entry (sep : string) (value : value) (new_key : string)
  (items : dict) {struct value} : dict :=
  match value with
  | VDict d =>
      dict_update items
        (fold_left
           (fun inner kv =>
              flatten_entry sep (snd kv) (new_key_of new_key sep (fst kv)) inner)
           d [])
  | VList _ => dict_set new_key (VStr (dumps value)) items
  | _ => dict_set new_key value items
  end.

(** [_flatten_record] *)
Definition _flatten_record (record : dict) (prefix sep : string) : dict :=
  fold_left
    (fun items kv =>
       flatten_entry sep (snd kv) (new_key_of prefix sep (fst kv)) items)
    record [].

(** ** Normalizer: simplify *)

Definition SIMPLE_CSV_FIELDS : list string :=
  ["registrant_name"; "registrant_address"; "registrant_contact";
   "registrant_phone"; "senate_id"; "client_name"; "filing_information";
   "income"; "expenses"; "expenses_method"; "dt_posted"; "description";
   "government_entities"; "filing_uuid"; "filing_document_url"].

(** A generator expression, run to its end: the values it yields, and the
    exception that stops it if one does. *)
Definition generator : Type := (list value * option exn)%type.

(** Only [None], booleans, integers and strings can be put in a set. *)
Definition hashable (v : value) : bool :=
  match v with
  | VList _ | VDict _ => false
  | _ => true
  end.

Definition as_number (v : value) : option Z :=
  match v with
  | VBool true => Some 1
  | VBool false => Some 0
  | VInt n => Some n
  | _ => None
  end.

(** [a == b] on hashable values; [True == 1] and [False == 0] hold. *)
Definition py_eqb (a b : value) : bool :=
  match a, b with
  | VNone, VNone => true
  | VStr s, VStr t => String.eqb s t
  | _, _ =>
      match as_number a, as_number b with
      | Some x, Some y => x =? y
      | _, _ => false
      end
  end.

(** [value in seen] *)
Definition set_mem (v : value) (seen : list value) : bool :=
  existsb (py_eqb v) seen.

(** The loop of [_unique] over what the generator yields. *)
Fixpoint unique_loop (values : list value) (stop : option exn)
  (seen ordered : list value) : result (list value) :=
  match values with
  | [] =>
      match stop with
      | Some e => Raise e
      | None => Ok ordered
      end
  | value :: rest =>
      if negb (truthy value) then unique_loop rest stop seen ordered
      else if negb (hashable value) then Raise TypeError
      else if set_mem value seen then unique_loop rest stop seen ordered
      else unique_loop rest stop (value :: seen) (ordered ++ [value])%list
  end.

(** [_unique] *)
Definition _unique (values : generator) : result (list value) :=
  unique_loop (fst values) (snd values) [] [].

(** [_normalize_text] *)
Definition _normalize_text (v : value) : string :=
  match v with
  | VNone => ""
  | _ => join " " (split (py_str v))
  end.

(** [_format_address] *)
Definition _format_address (parts : list value) : string :=
  join ", "
    (map (fun part => strip (py_str part))
       (filter (fun part => truthy part && truthy (VStr (strip (py_str part))))
          parts)).

(** [a or b] where [a] may raise too. *)
Definition por_r (a b : result value) : result value :=
  x <- a ;; por x b.

(** [entity.get("name") for entity in entities] *)
Fixpoint gen_names (entities : list value) : generator :=
  match entities with
  | [] => ([], None)
  | entity :: rest =>
      match attr_get entity "name" with
      | Raise e => ([], Some e)
      | Ok name => let (ys, stop) := gen_names rest in (name :: ys, stop)
      end
  end.

(** [entity.get("name") for activity in activities
       for entity in activity.get("government_entities", [])] *)
Fixpoint gen_entity_names (activities : list value) : generator :=
  match activities with
  | [] => ([], None)
  | activity :: rest =>
      match (entities <- attr_get_default activity "government_entities" (VList []) ;;
             py_iter entities) with
      | Raise e => ([], Some e)
      | Ok entities =>
          match gen_names entities with
          | (ys, Some e) => (ys, Some e)
          | (ys, None) =>
              let (zs, stop) := gen_entity_names rest in ((ys ++ zs)%list, stop)
          end
      end
  end.

(** [_normalize_text(activity.get("description")) for activity in activities] *)
Fixpoint gen_descriptions (activities : list value) : generator :=
  match activities with
  | [] => ([], None)
  | activity :: rest =>
      match attr_get activity "description" with
      | Raise e => ([], Some e)
      | Ok d =>
          let (ys, stop) := gen_descriptions rest in
          (VStr (_normalize_text d) :: ys, stop)
      end
  end.

Definition format_senate_id (registrant_id client_legacy_id : value) : value :=
  if truthy registrant_id && truthy client_legacy_id
  then VStr (py_str registrant_id ++ "-" ++ py_str client_legacy_id)
  else VNone.

(** [_simplified_row] *)
Definition _simplified_row (record : dict) : result dict :=
  registrant <- por (dict_get "registrant" record) (Ok (VDict [])) ;;
  client <- por (dict_get "client" record) (Ok (VDict [])) ;;

  addr_line_1 <- por (dict_get "registrant_address_1" record)
                     (attr_get registrant "address_1") ;;
  addr_line_2 <- por (dict_get "registrant_address_2" record)
                     (attr_get registrant "address_2") ;;
  city <- por (dict_get "registrant_city" record) (attr_get registrant "city") ;;
  state <- por (dict_get "registrant_state" record)
               (por_r (attr_get registrant "state_display")
                      (attr_get registrant "state")) ;;
  postal <- por (dict_get "registrant_zip" record) (attr_get registrant "zip") ;;
  country <- por (dict_get "registrant_country" record)
                 (por_r (attr_get registrant "country_display")
                        (attr_get registrant "country")) ;;

  let registrant_address :=
    _format_address [addr_line_1; addr_line_2; city; state; postal; country] in

  client_state <- por_r (attr_get client "state_display") (attr_get client "state") ;;
  client_country <- por_r (attr_get client "country_display")
                          (attr_get client "country") ;;
  let client_location := _format_address [client_state; client_country] in

  ppb_state <- por_r (attr_get client "ppb_state_display")
                     (attr_get client "ppb_state") ;;
  ppb_country <- por_r (attr_get client "ppb_country_display")
                       (attr_get client "ppb_country") ;;
  let client_ppb_location := _format_address [ppb_state; ppb_country] in

  activities <- py_iter (dict_get_default "lobbying_activities" (VList []) record) ;;
  government_entities <- _unique (gen_entity_names activities) ;;

  activities <- py_iter (dict_get_default "lobbying_activities" (VList []) record) ;;
  activity_descriptions <- _unique (gen_descriptions activities) ;;

  registrant_id <- attr_get registrant "id" ;;
  client_legacy_id <- por_r (attr_get client "client_id") (attr_get client "id") ;;
  let senate_id := format_senate_id registrant_id client_legacy_id in

  registrant_name <- attr_get registrant "name" ;;
  registrant_contact <- attr_get registrant "contact_name" ;;
  registrant_phone <- attr_get registrant "contact_telephone" ;;
  client_name <- attr_get client "name" ;;
  filing_period <- por (dict_get "filing_period_display" record)
                       (Ok (dict_get "filing_period" record)) ;;
  filing_type <- por (dict_get "filing_type_display" record)
                     (Ok (dict_get "filing_type" record)) ;;
  filing_information <-
    join_values " | "
      (filter truthy
         [VStr (py_str (dict_get "filing_year" record)); filing_period; filing_type]) ;;
  expenses_method <- por (dict_get "expenses_method_display" record)
                         (Ok (dict_get "expenses_method" record)) ;;
  description <- join_values "; " activity_descriptions ;;
  government_entities <- join_values "; " government_entities ;;
  Ok [("registrant_name", registrant_name);
      ("registrant_address", VStr registrant_address);
      ("registrant_contact", registrant_contact);
      ("registrant_phone", registrant_phone);
      ("senate_id", senate_id);
      ("client_name", client_name);
      ("filing_information", VStr filing_information);
      ("income", dict_get "income" record);
      ("expenses", dict_get "expenses" record);
      ("expenses_method", expenses_method);
      ("dt_posted", dict_get "dt_posted" record);
      ("description", VStr description);
      ("government_entities", VStr government_entities);
      ("filing_uuid", dict_get "filing_uuid" record);
      ("filing_document_url", dict_get "filing_document_url" record)].

(** ** Exporters *)

Definition CR : ascii := ascii_of_nat 13.
Definition LF : ascii := ascii_of_nat 10.
Definition CRLF : string := String CR (char_str LF).

(** [QUOTE_MINIMAL] of the [excel] dialect: a field is quoted when it holds
    the delimiter, the quote character or a line break. *)
Definition needs_quotes (s : string) : bool :=
  contains_char "," s || contains_char quote s
  || contains_char CR s || contains_char LF s.

Fixpoint double_quotes (s : string) : string :=
  match s with
  | EmptyString => EmptyString
  | String c s' =>
      if Ascii.eqb c quote then String quote (String quote (double_quotes s'))
      else String c (double_quotes s')
  end.

Definition csv_field (s : string) : string :=
  if needs_quotes s then String quote (double_quotes s ++ char_str quote) else s.

(** What the writer makes of one cell: [None] is written as nothing, a
    string as it is, anything else through [str]. *)
Definition csv_cell (v : value) : string :=
  match v with
  | VNone => ""
  | _ => py_str v
  end.

(** [csv.writer.writerow]: a record of a single empty field is written as a
    pair of quotes. *)
Definition csv_line (cells : list value) : string :=
  match map csv_cell cells with
  | [EmptyString] => String quote (char_str quote) ++ CRLF
  | fields => join "," (map csv_field fields) ++ CRLF
  end.

Inductive extras_action : Type :=
| ExtrasRaise
| ExtrasIgnore.

Record DictWriter : Type := {
  fieldnames : list string;
  restval : value;
  extrasaction : extras_action
}.

Definition wrong_fields (self : DictWriter) (rowdict : dict) : list string :=
  filter (fun k => negb (existsb (String.eqb k) (fieldnames self)))
    (dict_keys rowdict).

(** [DictWriter._dict_to_list]; the fields named by the error are listed in
    the order of the row. *)
Definition _dict_to_list (self : DictWriter) (rowdict : dict)
  : result (list value) :=
  match extrasaction self, wrong_fields self rowdict with
  | ExtrasRaise, _ :: _ =>
      Raise (ValueError ("dict contains fields not in fieldnames: "
                         ++ join ", " (map repr_str (wrong_fields self rowdict))))
  | _, _ =>
      Ok (map (fun key => dict_get_default key (restval self) rowdict)
            (fieldnames self))
  end.

(** [DictWriter.writerow]: the text appended to the file. *)
Definition writerow (self : DictWriter) (rowdict : dict) : result string :=
  cells <- _dict_to_list self rowdict ;;
  Ok (csv_line cells).

(** [DictWriter.writeheader] *)
Definition writeheader (self : DictWriter) : result string :=
  writerow self (dict_update [] (map (fun k => (k, VStr k)) (fieldnames self))).

(** The loop over the rows: the text written so far goes to the file even
    when a row raises. *)
Fixpoint write_rows (self : DictWriter) (rows : list dict) (written : string)
  : result unit * string :=
  match rows with
  | [] => (Ok tt, written)
  | row :: rest =>
      match writerow self row with
      | Raise e => (Raise e, written)
      | Ok line => write_rows self rest (written ++ line)
      end
  end.

Definition write_table (self : DictWriter) (rows : list dict)
  : result unit * string :=
  match writeheader self with
  | Raise e => (Raise e, "")
  | Ok header => write_rows self rows header
  end.

(** Insertion of a key into a sorted list without repetition. *)
Fixpoint insert_sorted (k : string) (l : list string) : list string :=
  match l with
  | [] => [k]
  | k' :: l' =>
      if String.eqb k k' then l
      else if String.ltb k k' then k :: l
      else k' :: insert_sorted k l'
  end.

(** [sorted({key for row in rows for key in row})] *)
Definition sorted_keys (rows : list dict) : list string :=
  fold_left (fun acc row => fold_left (fun acc k => insert_sorted k acc) (dict_keys row) acc)
    rows [].

Definition resolve_fields (fieldnames : option (list string)) (rows : list dict)
  : list string :=
  match fieldnames with
  | Some names => names
  | None => sorted_keys rows
  end.

(** The files written, by path; the latest write of a path comes first. *)
Definition FileSystem : Type := list (string * string).

(** [_write_csv] of [lda_api.py]: the writer is built with its defaults,
    [restval=""] and [extrasaction="raise"]. *)
Definition _write_csv (path : string) (rows : list dict)
  (fieldnames : option (list string)) (fs : FileSystem)
  : result unit * FileSystem :=
  let flattened_rows := rows in
  let resolved_fields := resolve_fields fieldnames flattened_rows in
  let writer := {| fieldnames := resolved_fields; restval := VStr "";
                   extrasaction := ExtrasRaise |} in
  let (r, written) := write_table writer flattened_rows in
  (r, (path, written) :: fs).

(** [build_csv] of [streamlit_app.py]: the same writer with
    [extrasaction="ignore"], into a buffer. *)
Definition build_csv (rows : list dict) (fieldnames : option (list string))
  : result string :=
  let resolved_fieldnames := resolve_fields fieldnames rows in
  let writer := {| fieldnames := resolved_fieldnames; restval := VStr "";
                   extrasaction := ExtrasIgnore |} in
  match write_table writer rows with
  | (Ok _, buffer) => Ok buffer
  | (Raise e, _) => Raise e
  end.

(** ** Stub transport *)

Definition ok_response (body : value) : Response :=
  {| status_code := 200; text := dumps body; json_body := Some body |}.

(** A stub transport that plays the given outcomes, one per call of
    [Session.get], and refuses any further call. *)
Definition script (outcomes : list outcome) : World :=
  {| net := fun n => nth n outcomes (Failed "ConnectionError");
     gets := []; sleeps := []; requests := [] |}.

(** A stub transport that serves the given pages in turn. *)
Definition serve (pages : list value) : World :=
  script (map (fun body => Responded (ok_response body)) pages).

(** ** Specification vocabulary *)

Definition get_call (self : LDAClient) (path : string) (params : option dict)
  : GetCall :=
  {| get_url := request_url self path; get_params := params;
     get_timeout := timeout self |}.

(** What the caller of [_request] gets when [o] is the outcome of the last
    call of [Session.get] it makes. *)
Definition settle (self : LDAClient) (path : string) (o : outcome)
  : result value :=
  match o with
  | TimedOut =>
      Raise (RuntimeError (timed_out_message (request_url self path) (timeout self)))
  | Failed name => Raise (RequestException name)
  | Responded r => read_response r
  end.

(** [w'] is [w] after one more call of [_request] that called [Session.get]
    [k] times and slept for [slept]. *)
Definition after_request (self : LDAClient) (path : string)
  (params : option dict) (k : nat) (slept : list Z) (w w' : World) : Prop :=
  net w' = net w
  /\ gets w' = (gets w ++ repeat (get_call self path params) k)%list
  /\ sleeps w' = (sleeps w ++ slept)%list
  /\ requests w' = (requests w ++ [(path, params)])%list.

(** The claim that every response outside 200..299 is turned into the
    HTTP failure error. *)
Definition fails_outside_2xx (self : LDAClient) (path : string)
  (params : option dict) (w : World) : Prop :=
  forall r,
    net w (length (gets w)) = Responded r ->
    ~ (200 <= status_code r < 300) ->
    exists w',
      _request self path params w
      = Some (Raise (RuntimeError (request_failed_message r)), w').

Definition is_some {A : Type} (o : option A) : bool :=
  match o with Some _ => true | None => false end.

Definition nonempty (o : option string) : bool :=
  match o with Some s => truthy (VStr s) | None => false end.

(** Does the caller name an identifying filter, through a named parameter
    or through [additional_filters]? *)
Definition names_filter (q : Filters) : bool :=
  is_some (client_id q) || nonempty (client_name q)
  || is_some (lobbyist_id q) || nonempty (lobbyist_name q)
  || match additional_filters q with
     | Some other => existsb (fun key => dict_has key other) identifying_keys
     | None => false
     end.

(** A page response as the server sends it: a JSON object whose [results],
    when present, is a list. *)
Definition is_page (page : value) : Prop :=
  match page with
  | VDict d =>
      match dict_get_default "results" (VList []) d with
      | VList _ => True
      | _ => False
      end
  | _ => False
  end.

Definition results_of (page : value) : list value :=
  match page with
  | VDict d =>
      match dict_get_default "results" (VList []) d with
      | VList l => l
      | _ => []
      end
  | _ => []
  end.

Definition next_of (page : value) : value :=
  match page with
  | VDict d => dict_get "next" d
  | _ => VNone
  end.

(** The server's cursor is finite: [next] is set on every page but the
    last one. *)
Fixpoint last_page_ends (pages : list value) : Prop :=
  match pages with
  | [] => False
  | [page] => truthy (next_of page) = false
  | page :: rest => truthy (next_of page) = true /\ last_page_ends rest
  end.

(** The pages the pager asks for, [page] being the number of the first of
    [pages]: it stops after a page without [next] and after page
    [max_pages]. *)
Fixpoint fetched (max_pages : option Z) (page : Z) (pages : list value)
  : list value :=
  match pages with
  | [] => []
  | p :: rest =>
      p :: (if reached_cap max_pages page || negb (truthy (next_of p))
            then []
            else fetched max_pages (page + 1) rest)
  end.

(** The next calls of [Session.get] bring these pages, in turn. *)
Definition serves (w : World) (pages : list value) : Prop :=
  forall i body,
    nth_error pages i = Some body ->
    exists r,
      net w (length (gets w) + i) = Responded r
      /\ is_http_error r = false
      /\ json_body r = Some body.

(** The requests of pages [page], [page + 1], ... *)
Fixpoint page_requests (q : Filters) (page_size page : Z) (count : nat)
  : list (string * option dict) :=
  match count with
  | O => []
  | S count' =>
      ("filings/", Some (build_filters q page page_size))
      :: page_requests q page_size (page + 1) count'
  end.

(** The aggregated result: the first page with [results] and
    [fetched_pages] set. *)
Definition aggregate (first : value) (all_results : list value) (pages : Z)
  : value :=
  match first with
  | VDict d =>
      VDict (dict_set "fetched_pages" (VInt pages)
               (dict_set "results" (VList all_results) d))
  | _ => VNone
  end.

(** The number of pages fetched: [min(N, max_pages)]. *)
Definition pages_to_fetch (max_pages : option Z) (n : nat) : nat :=
  match max_pages with
  | Some m => Nat.min n (Z.to_nat m)
  | None => n
  end.

(** The claim that the pager fetches [min(N, max_pages)] pages of any
    finite page sequence, whatever the filters. *)
Definition fetches_all_pages (self : LDAClient) (q : Filters)
  (page_size pause_seconds : Z) (max_pages : option Z) (pages : list value)
  : Prop :=
  last_page_ends pages ->
  Forall is_page pages ->
  match max_pages with Some m => 1 <= m | None => True end ->
  exists fuel merged w',
    list_all_filings fuel self q page_size pause_seconds max_pages (serve pages)
    = Some (Ok merged, w')
    /\ length (requests w') = pages_to_fetch max_pages (length pages).

(** A value with no structure below it. *)
Definition is_scalar (v : value) : bool :=
  match v with
  | VList _ | VDict _ => false
  | _ => true
  end.

(** A record with no nested structure. *)
Definition flat_record (record : dict) : Prop :=
  Forall (fun kv => is_scalar (snd kv) = true) record.

(** Every dict inside the value has pairwise distinct keys. *)
Fixpoint wf_value (v : value) : Prop :=
  match v with
  | VList l =>
      (fix all (l : list value) : Prop :=
         match l with
         | [] => True
         | x :: l' => wf_value x /\ all l'
         end) l
  | VDict d =>
      NoDup (map fst d)
      /\ (fix all (d : list (string * value)) : Prop :=
            match d with
            | [] => True
            | kv :: d' => wf_value (snd kv) /\ all d'
            end) d
  | _ => True
  end.

(** The number of values in a value, itself included. *)
Fixpoint weight (v : value) : nat :=
  match v with
  | VList l => S (fold_right (fun x n => (weight x + n)%nat) 0%nat l)
  | VDict d => S (fold_right (fun kv n => (weight (snd kv) + n)%nat) 0%nat d)
  | _ => 1%nat
  end.

(** What may follow a value in a document that [dumps] writes: nothing, a
    comma, or a closing bracket or brace. *)
Definition closing (rest : string) : Prop :=
  match rest with
  | EmptyString => True
  | String c _ => c = ","%char \/ c = "]"%char \/ c = "}"%char
  end.

Definition number_head (c : ascii) : bool := is_digit c || Ascii.eqb c "-".

(** What [scan_once] has to do on the text of [v]. *)
Definition reads_back (v : value) : Prop :=
  wf_value v ->
  forall fuel rest,
    (weight v <= fuel)%nat ->
    closing rest ->
    scan_once fuel (dumps v ++ rest) = Some (v, rest).

(** The text [dumps] writes for one member of an object. *)
Definition member_text (kv : string * value) : string :=
  dumps_str (fst kv) ++ ": " ++ dumps (snd kv).

(** The text of the members of an object from just after the opening quote
    of the first key, [k], to the closing brace, followed by [rest]. *)
Fixpoint members_tail (k : string) (v : value) (d : dict) (rest : string)
  {struct d} : string :=
  escape k
  ++ String quote
       (": " ++ dumps v
        ++ match d with
           | [] => String "}" rest
           | kv :: d' =>
               ", " ++ String quote (members_tail (fst kv) (snd kv) d' rest)
           end).

(** The claim that the dotted key of every list-valued key of a record
    holds, after flattening, a string that parses back to the list. *)
Definition list_survives_flatten (record : dict) : Prop :=
  wf_value (VDict record) ->
  forall key l,
    dict_lookup key record = Some (VList l) ->
    exists s,
      dict_lookup key (_flatten_record record "" ".") = Some (VStr s)
      /\ loads s = Some (VList l).

(** [v[k]] read the tolerant way: [None] when [v] is not a mapping or has
    no such key. *)
Definition field_of (v : value) (k : string) : value :=
  match v with
  | VDict d => dict_get k d
  | _ => VNone
  end.

(** The lobbying activities of a record. *)
Definition activities_of (record : dict) : list value :=
  match py_iter (dict_get_default "lobbying_activities" (VList []) record) with
  | Ok l => l
  | Raise _ => []
  end.

(** A list without its repetitions, each value at its first place. *)
Fixpoint first_occurrences (l : list string) : list string :=
  match l with
  | [] => []
  | x :: rest =>
      x :: filter (fun y => negb (String.eqb x y)) (first_occurrences rest)
  end.

Definition is_nonempty (s : string) : bool := negb (String.eqb s "").

(** The description column as the specification words it: the normalized
    descriptions of the activities, the empty ones left out, each kept at
    its first place, joined by ["; "]. *)
Definition description_spec (record : dict) : string :=
  join "; "
    (first_occurrences
       (filter is_nonempty
          (map (fun activity => _normalize_text (field_of activity "description"))
             (activities_of record)))).

(** The three identifiers [senate_id] is made of. *)
Definition registrant_id_of (record : dict) : value :=
  field_of (dict_get "registrant" record) "id".

Definition client_id_of (record : dict) : value :=
  field_of (dict_get "client" record) "client_id".

Definition client_fallback_id_of (record : dict) : value :=
  field_of (dict_get "client" record) "id".

(** "Present" read as: the key is there and its value is not null. *)
Definition present (v : value) : Prop := v <> VNone.

Definition is_empty (v : value) : Prop := v = VNone \/ v = VStr "".

(** The claim on [senate_id], with "present" read as above. *)
Definition senate_id_from_present_ids (record : dict) : Prop :=
  forall row,
    _simplified_row record = Ok row ->
    let rid := registrant_id_of record in
    let cid := client_id_of record in
    let cid' := client_fallback_id_of record in
    (present rid -> present cid ->
     dict_lookup "senate_id" row = Some (VStr (py_str rid ++ "-" ++ py_str cid)))
    /\ (present rid -> ~ present cid -> present cid' ->
        dict_lookup "senate_id" row = Some (VStr (py_str rid ++ "-" ++ py_str cid')))
    /\ (~ present rid \/ (~ present cid /\ ~ present cid') ->
        exists v, dict_lookup "senate_id" row = Some v /\ is_empty v).

(** The claim on the scenario record: the columns the record does not set
    hold the empty string. *)
Definition unset_columns_are_empty_strings (record : dict) : Prop :=
  exists row,
    _simplified_row record = Ok row
    /\ forall column,
         In column SIMPLE_CSV_FIELDS ->
         ~ In column ["registrant_name"; "client_name"; "filing_information";
                      "income"; "filing_uuid"] ->
         dict_lookup column row = Some (VStr "").

(** The line of a row under the given columns: a missing key gives an empty
    cell, a key outside the columns gives nothing. *)
Definition row_line (names : list string) (row : dict) : string :=
  csv_line (map (fun key => dict_get_default key (VStr "") row) names).

(** The table the specification describes: the header, then one line per
    row. *)
Definition table_text (names : list string) (rows : list dict) : string :=
  csv_line (map VStr names)
  ++ fold_right (fun row text => row_line names row ++ text) "" rows.

(** No key of the row is outside the columns. *)
Definition within (names : list string) (row : dict) : Prop :=
  forall k, In k (dict_keys row) -> In k names.

(** ** Fixtures *)

Definition row_with_extra_key : dict := [("a", VStr "1"); ("b", VStr "2")].


Definition scenario_record : dict :=
  [("filing_uuid", VStr "abc"); ("registrant", VDict [("name", VStr "R")]);
   ("client", VDict [("name", VStr "C")]); ("filing_year", VInt 2024);
   ("income", VInt 1000)].

(** The writer [_write_csv] builds for the simplified export. *)
Definition simple_writer : DictWriter :=
  {| fieldnames := SIMPLE_CSV_FIELDS; restval := VStr "";
     extrasaction := ExtrasRaise |}.

Definition activity (description : value) : value :=
  VDict [("description", description)].

Definition repeated_descriptions : dict :=
  [("lobbying_activities",
    VList [activity (VStr "A"); activity (VStr "A"); activity (VStr "B");
           activity (VStr "")])].

Definition ids_record (registrant client : dict) : dict :=
  [("registrant", VDict registrant); ("client", VDict client)].


Definition with_list : dict :=
  [("filing_uuid", VStr "abc");
   ("lobbying_activities",
    VList [VDict [("description", VStr "Tax [reform], \n 2024");
                  ("government_entities", VList [VDict [("id", VInt (-1))]])]]);
   ("registrant", VDict [("name", VStr "R")])].

Definition shadowed_list : dict :=
  [("a.b", VList [VInt 1]); ("a", VDict [("b", VInt 2)])].



Definition multiple_choices : Response :=
  {| status_code := 300; text := "{}"; json_body := Some (VDict []) |}.

Definition bad_request : Response :=
  {| status_code := 400; text := "bad page"; json_body := None |}.


Definition test_client : LDAClient :=
  {| token := "t"; base_url := BASE_API_URL; timeout := 60 |}.

Definition no_filters : Filters :=
  {| client_id := None; client_name := None; lobbyist_id := None;
     lobbyist_name := None; additional_filters := None |}.

Definition by_client (id : Z) : Filters :=
  {| client_id := Some id; client_name := None; lobbyist_id := None;
     lobbyist_name := None; additional_filters := None |}.

Definition page_of (next : value) (results : list value) : value :=
  VDict [("count", VInt 4); ("next", next); ("previous", VNone);
         ("results", VList results)].

Definition filing (uuid : string) : value := VDict [("filing_uuid", VStr uuid)].

(** Four pages, [next] set on the first three. *)
Definition four_pages : list value :=
  [page_of (VStr "https://lda.senate.gov/api/v1/filings/?page=2") [filing "a"];
   page_of (VStr "https://lda.senate.gov/api/v1/filings/?page=3") [filing "b"];
   page_of (VStr "https://lda.senate.gov/api/v1/filings/?page=4") [filing "c"];
   page_of VNone [filing "d"]].

(** ** Tactics *)

(** Case analysis on the 256 characters. *)
Ltac each_char c :=
  destruct c as [[] [] [] [] [] [] [] []].

(** Inversion of one step of a chain of [bind]s that ends in [Ok]. *)
Ltac inv_bind H :=
  match type of H with
  | bind ?m _ = Ok _ =>
      let E := fresh "E" in
      destruct m eqn:E; [cbn [bind] in H | discriminate H]
  end.


(** ** More of the code: person names *)

(** [a or b] when neither operand can raise. *)
Definition por_v (a b : value) : value := if truthy a then a else b.

(** [sep.join(str(part).strip() for part in parts
             if part and str(part).strip())], the body shared by
    [_format_address] and [_format_person_name]. *)
Definition join_nonblank (sep : string) (parts : list value) : string :=
  join sep
    (map (fun part => strip (py_str part))
       (filter (fun part => truthy part && truthy (VStr (strip (py_str part))))
          parts)).

(** [_format_person_name] *)
Definition _format_person_name (data : dict) : string :=
  let parts :=
    [por_v (dict_get "prefix_display" data) (dict_get "prefix" data);
     dict_get "first_name" data;
     dict_get "middle_name" data;
     dict_get "last_name" data;
     por_v (dict_get "suffix_display" data) (dict_get "suffix" data)] in
  join_nonblank " " parts.

(** ** More of the code: the dashboard *)






(** [name or None] *)
Definition or_none (name : option string) : option string :=
  match name with
  | Some s => if truthy (VStr s) then Some s else None
  | None => None
  end.



(** ** More vocabulary *)

Definition last_char (s : string) : option ascii :=
  match rev (list_ascii_of_string s) with
  | c :: _ => Some c
  | [] => None
  end.

Definition first_char (s : string) : option ascii :=
  match s with
  | String c _ => Some c
  | EmptyString => None
  end.

(** The pages the pager goes past: page responses with [next] set, none of
    them at the cap; [page] is the number of the first. *)
Fixpoint keeps_going (max_pages : option Z) (page : Z) (pages : list value)
  : Prop :=
  match pages with
  | [] => True
  | p :: rest =>
      is_page p /\ truthy (next_of p) = true
      /\ reached_cap max_pages page = false
      /\ keeps_going max_pages (page + 1) rest
  end.

(** A transport that never runs out of pages: every further call of
    [Session.get] brings a page response with [next] set. *)
Definition endless (w : World) : Prop :=
  forall n,
    exists r p,
      net w n = Responded r
      /\ is_http_error r = false
      /\ json_body r = Some p
      /\ is_page p
      /\ truthy (next_of p) = true.

(** The stub of such a transport. *)
Definition serve_forever (page : value) : World :=
  {| net := fun _ => Responded (ok_response page);
     gets := []; sleeps := []; requests := [] |}.

(** The sleeps of the pager between [count] pages. *)
Definition pauses (pause_seconds : Z) (count : nat) : list Z :=
  if pause_seconds >? 0 then repeat pause_seconds (count - 1) else [].

(** What the named parameters of [list_filings] put under [key]: the page
    and the page size always, an id when it is given, a name when it is
    given and not empty. *)
Definition named_filter (q : Filters) (page page_size : Z) (key : string)
  : option value :=
  if String.eqb key "page" then Some (VInt page)
  else if String.eqb key "page_size" then Some (VInt page_size)
  else if String.eqb key "client_id" then option_map VInt (client_id q)
  else if String.eqb key "client_name" then option_map VStr (or_none (client_name q))
  else if String.eqb key "lobbyist_id" then option_map VInt (lobbyist_id q)
  else if String.eqb key "lobbyist_name"
       then option_map VStr (or_none (lobbyist_name q))
  else None.

(** [additional_filters] says nothing about [key]. *)
Definition extras_lack (q : Filters) (key : string) : Prop :=
  match additional_filters q with
  | Some other => dict_lookup key other = None
  | None => True
  end.

(** The members of a mapping with their keys put under [prefix]. *)
Definition dotted (prefix sep : string) (d : dict) : dict :=
  map (fun kv => (prefix ++ sep ++ fst kv, snd kv)) d.

(** What one entry leaves of a flat record with distinct keys. *)
Definition keeps_flat (sep : string) (v : value) : Prop :=
  forall new_key items,
    wf_dict items -> flat_record items ->
    wf_dict (flatten_entry sep v new_key items)
    /\ flat_record (flatten_entry sep v new_key items).


(** [x] is below the first element of [l], if there is one. *)
Definition below_head (x : string) (l : list string) : Prop :=
  match l with
  | [] => True
  | y :: _ => String.ltb x y = true
  end.

(** Strictly ascending, in the order of the code points. *)
Fixpoint ascending (l : list string) : Prop :=
  match l with
  | [] => True
  | x :: rest => below_head x rest /\ ascending rest
  end.

(** A list of values without its repetitions under [==], each value at its
    first place. *)
Fixpoint first_values (l : list value) : list value :=
  match l with
  | [] => []
  | x :: rest => x :: filter (fun y => negb (py_eqb x y)) (first_values rest)
  end.

(** A word: not empty, no white space in it. *)
Definition is_word (w : string) : Prop :=
  w <> "" /\ Forall (fun c => isspace c = false) (list_ascii_of_string w).

(** A part that [_format_address] and [_format_person_name] leave out. *)
Definition blank (part : value) : Prop :=
  truthy part = false \/ strip (py_str part) = "".

(** The six parts of the registrant's address, each from the record first
    and from the [registrant] mapping second, the display form of state and
    country before the code. *)
Definition address_parts (record : dict) : list value :=
  let registrant := dict_get "registrant" record in
  [por_v (dict_get "registrant_address_1" record) (field_of registrant "address_1");
   por_v (dict_get "registrant_address_2" record) (field_of registrant "address_2");
   por_v (dict_get "registrant_city" record) (field_of registrant "city");
   por_v (dict_get "registrant_state" record)
     (por_v (field_of registrant "state_display") (field_of registrant "state"));
   por_v (dict_get "registrant_zip" record) (field_of registrant "zip");
   por_v (dict_get "registrant_country" record)
     (por_v (field_of registrant "country_display")
        (field_of registrant "country"))].

(** The parts of [filing_information] before the falsy ones are dropped. *)
Definition filing_parts (record : dict) : list value :=
  [VStr (py_str (dict_get "filing_year" record));
   por_v (dict_get "filing_period_display" record) (dict_get "filing_period" record);
   por_v (dict_get "filing_type_display" record) (dict_get "filing_type" record)].

(** The names of the government entities of all activities, in order. *)
Definition entity_names (record : dict) : list value :=
  flat_map
    (fun activity =>
       match py_iter (field_of activity "government_entities") with
       | Ok entities => map (fun entity => field_of entity "name") entities
       | Raise _ => []
       end)
    (activities_of record).

(** The text of a value that is a string, nothing for any other value. *)
Definition text_of (v : value) : string :=
  match v with
  | VStr s => s
  | _ => ""
  end.

Definition starts_with (p s : string) : Prop := exists rest, s = p ++ rest.

Definition is_str (v : value) : Prop := exists s, v = VStr s.

(** The government entities column as the specification words it: the
    names of the entities of all activities, the empty ones left out, each
    kept at its first place, joined by ["; "]. *)
Definition government_entities_spec (record : dict) : string :=
  join "; "
    (first_occurrences
       (filter is_nonempty (map text_of (entity_names record)))).
(** * Properties *)

(** ** Dictionaries *)

Lemma dict_lookup_set_same (k : string) (v : value) (d : dict) :
  dict_lookup k (dict_set k v d) = Some v.
Proof.
  induction d as [|[k' v'] d IH]; simpl.
  - now rewrite String.eqb_refl.
  - destruct (String.eqb k k') eqn:E; simpl; rewrite E; auto.
Qed.

Lemma dict_lookup_set_other (k k' : string) (v : value) (d : dict) :
  k <> k' -> dict_lookup k (dict_set k' v d) = dict_lookup k d.
Proof.
  intros Hne. induction d as [|[k0 v0] d IH]; simpl.
  - destruct (String.eqb_spec k k'); congruence.
  - destruct (String.eqb_spec k' k0); simpl.
    + subst. destruct (String.eqb_spec k k0); congruence.
    + destruct (String.eqb_spec k k0); auto.
Qed.

Lemma dict_has_set (k k' : string) (v : value) (d : dict) :
  dict_has k (dict_set k' v d) = String.eqb k k' || dict_has k d.
Proof.
  unfold dict_has. destruct (String.eqb_spec k k').
  - subst. now rewrite dict_lookup_set_same.
  - now rewrite dict_lookup_set_other.
Qed.

Lemma dict_has_update (k : string) (other d : dict) :
  dict_has k (dict_update d other) = dict_has k d || dict_has k other.
Proof.
  unfold dict_update. revert d.
  induction other as [|[k' v'] other IH]; intros d; simpl.
  - unfold dict_has at 3. simpl. now rewrite orb_false_r.
  - rewrite IH, dict_has_set. unfold dict_has at 4. simpl.
    destruct (String.eqb k k'); simpl.
    + now rewrite orb_true_r.
    + reflexivity.
Qed.

(** ** Transport *)

Lemma request_unfold (self : LDAClient) (path : string) (params : option dict)
  (w : World) :
  exists w',
    _request self path params w
    = Some (match net w (length (gets w)) with
            | TimedOut => settle self path (net w (S (length (gets w))))
            | o => settle self path o
            end, w')
    /\ match net w (length (gets w)) with
       | TimedOut => after_request self path params 2 [1] w w'
       | _ => after_request self path params 1 [] w w'
       end.
Proof.
  unfold _request, get_loop, session_get, note_request, sleep; simpl.
  destruct (net w (length (gets w))) eqn:E1; simpl.
  - rewrite length_app; simpl. rewrite Nat.add_1_r.
    destruct (net w (S (length (gets w)))) eqn:E2; simpl;
      (eexists; split; [reflexivity|]);
      unfold after_request, get_call; simpl; rewrite <- app_assoc; simpl; auto.
  - eexists; split; [reflexivity|].
    unfold after_request, get_call; simpl. rewrite app_nil_r. auto.
  - eexists; split; [reflexivity|].
    unfold after_request, get_call; simpl. rewrite app_nil_r. auto.
Qed.

(** [_request] always returns or raises: two rounds of its loop suffice. *)
Lemma request_returns (self : LDAClient) (path : string) (params : option dict)
  (w : World) :
  exists r w', _request self path params w = Some (r, w').
Proof.
  destruct (request_unfold self path params w) as [w' [H _]]. eauto.
Qed.

Lemma settle_not_value_error (self : LDAClient) (path : string) (o : outcome)
  (msg : string) :
  settle self path o <> Raise (ValueError msg).
Proof.
  destruct o as [| name | r]; simpl; try discriminate.
  unfold read_response, response_json.
  destruct (is_http_error r); [discriminate|].
  destruct (json_body r); discriminate.
Qed.

(** C9, as the code has it.  A timeout of the first GET is followed by one
    sleep of a second and exactly one more GET, whose outcome settles the
    call; two timeouts give the timeout error, which names the URL and the
    configured timeout.  Any other failure of the GET propagates at once.  A
    response whose status is in 400..599 gives the HTTP failure error, which
    carries the status and the body text, with no retry.  A response of any
    other status, 2xx included, gives what [response.json()] gives. *)
Theorem request_policy (self : LDAClient) (path : string)
  (params : option dict) (w : World) :
  let n := length (gets w) in
  (net w n = TimedOut ->
     exists w',
       _request self path params w = Some (settle self path (net w (S n)), w')
       /\ after_request self path params 2 [1] w w')
  /\ (net w n = TimedOut -> net w (S n) = TimedOut ->
      exists w',
        _request self path params w
        = Some (Raise (RuntimeError
                         (timed_out_message (request_url self path) (timeout self))),
                w')
        /\ after_request self path params 2 [1] w w')
  /\ (forall name, net w n = Failed name ->
      exists w',
        _request self path params w = Some (Raise (RequestException name), w')
        /\ after_request self path params 1 [] w w')
  /\ (forall r, net w n = Responded r -> is_http_error r = true ->
      exists w',
        _request self path params w
        = Some (Raise (RuntimeError (request_failed_message r)), w')
        /\ after_request self path params 1 [] w w')
  /\ (forall r, net w n = Responded r -> is_http_error r = false ->
      exists w',
        _request self path params w = Some (response_json r, w')
        /\ after_request self path params 1 [] w w')
  /\ (forall r v, net w n = Responded r -> 200 <= status_code r < 300 ->
      json_body r = Some v ->
      exists w',
        _request self path params w = Some (Ok v, w')
        /\ after_request self path params 1 [] w w').
Proof.
  intros n. subst n.
  destruct (request_unfold self path params w) as [w' [Hr Ha]].
  repeat split.
  - intros E. rewrite E in Hr, Ha. eauto.
  - intros E1 E2. rewrite E1 in Hr, Ha. rewrite E2 in Hr. simpl in Hr. eauto.
  - intros name E. rewrite E in Hr, Ha. simpl in Hr. eauto.
  - intros r E Hs. rewrite E in Hr, Ha. simpl in Hr.
    unfold read_response in Hr. rewrite Hs in Hr. eauto.
  - intros r E Hs. rewrite E in Hr, Ha. simpl in Hr.
    unfold read_response in Hr. rewrite Hs in Hr. eauto.
  - intros r v E Hs Hj. rewrite E in Hr, Ha. simpl in Hr.
    unfold read_response, response_json, is_http_error in Hr.
    replace (400 <=? status_code r) with false in Hr by (symmetry; apply Z.leb_gt; lia).
    simpl in Hr. rewrite Hj in Hr. eauto.
Qed.

Lemma request_policy_witness :
  (exists w',
     _request test_client "filings/" None (script [TimedOut; TimedOut])
     = Some (Raise (RuntimeError
          "Request to https://lda.senate.gov/api/v1/filings/ timed out after 60 seconds."),
             w')
     /\ length (gets w') = 2%nat /\ sleeps w' = [1])
  /\ (exists w',
        _request test_client "filings/" None
          (script [TimedOut; Responded (ok_response (VDict []))])
        = Some (Ok (VDict []), w')
        /\ length (gets w') = 2%nat)
  /\ (exists w',
        _request test_client "filings/" None (script [Failed "ConnectionError"])
        = Some (Raise (RequestException "ConnectionError"), w')
        /\ length (gets w') = 1%nat /\ sleeps w' = [])
  /\ (exists w',
        _request test_client "filings/" None (script [Responded bad_request])
        = Some (Raise (RuntimeError "Request failed: 400 bad page"), w')
        /\ length (gets w') = 1%nat /\ sleeps w' = [])
  /\ (exists w',
        _request test_client "filings/" None (script [Responded multiple_choices])
        = Some (Ok (VDict []), w')
        /\ length (gets w') = 1%nat)
  /\ (exists w',
        _request test_client "filings/" None
          (script [Responded (ok_response (VList [VInt 1]))])
        = Some (Ok (VList [VInt 1]), w')
        /\ length (gets w') = 1%nat).
Proof.
  repeat split.
  - destruct (request_policy test_client "filings/" None
                (script [TimedOut; TimedOut])) as (_ & H & _).
    destruct (H eq_refl eq_refl) as (w' & Hr & _ & Hg & Hs & _).
    exists w'. rewrite Hr, Hg, Hs. repeat split.
  - destruct (request_policy test_client "filings/" None
                (script [TimedOut; Responded (ok_response (VDict []))]))
      as (H & _).
    destruct (H eq_refl) as (w' & Hr & _ & Hg & _).
    exists w'. rewrite Hr, Hg. repeat split.
  - destruct (request_policy test_client "filings/" None
                (script [Failed "ConnectionError"])) as (_ & _ & H & _).
    destruct (H _ eq_refl) as (w' & Hr & _ & Hg & Hs & _).
    exists w'. rewrite Hr, Hg, Hs. repeat split.
  - destruct (request_policy test_client "filings/" None
                (script [Responded bad_request])) as (_ & _ & _ & H & _).
    destruct (H _ eq_refl eq_refl) as (w' & Hr & _ & Hg & Hs & _).
    exists w'. rewrite Hr, Hg, Hs. repeat split.
  - destruct (request_policy test_client "filings/" None
                (script [Responded multiple_choices])) as (_ & _ & _ & _ & H & _).
    destruct (H _ eq_refl eq_refl) as (w' & Hr & _ & Hg & _).
    exists w'. rewrite Hr, Hg. repeat split.
  - destruct (request_policy test_client "filings/" None
                (script [Responded (ok_response (VList [VInt 1]))]))
      as (_ & _ & _ & _ & _ & H).
    destruct (H _ (VList [VInt 1]) eq_refl ltac:(simpl; lia) eq_refl)
      as (w' & Hr & _ & Hg & _).
    exists w'. rewrite Hr, Hg. repeat split.
Defined.

(** C9, counterexample: a response with status 300 is outside 200..299, and
    [_request] returns its parsed body instead of failing. *)
Lemma status_300_is_returned :
  ~ fails_outside_2xx test_client "filings/" None
      (script [Responded multiple_choices]).
Proof.
  intros H.
  destruct (H multiple_choices eq_refl) as [w' Hw].
  - simpl. lia.
  - vm_compute in Hw. discriminate Hw.
Qed.

(** ** Query builder *)

Lemma dict_has_set_if_not_none (k key : string) (v : option Z) (d : dict) :
  dict_has k (set_if_not_none key v d)
  = (is_some v && String.eqb k key) || dict_has k d.
Proof.
  destruct v; simpl; [apply dict_has_set | reflexivity].
Qed.

Lemma dict_has_set_if_truthy (k key : string) (v : option string) (d : dict) :
  dict_has k (set_if_truthy key v d)
  = (nonempty v && String.eqb k key) || dict_has k d.
Proof.
  destruct v as [s|]; simpl; [|reflexivity].
  destruct (negb (String.eqb s "")); simpl; [apply dict_has_set | reflexivity].
Qed.

Lemma dict_has_update_if_truthy (k : string) (other : option dict) (d : dict) :
  dict_has k (update_if_truthy other d)
  = dict_has k d
    || match other with Some o => dict_has k o | None => false end.
Proof.
  destruct other as [[|kv o]|]; unfold update_if_truthy, truthy.
  - unfold dict_has at 3. simpl. now rewrite orb_false_r.
  - apply dict_has_update.
  - now rewrite orb_false_r.
Qed.

Lemma dict_has_build_filters (k : string) (q : Filters) (page page_size : Z) :
  dict_has k (build_filters q page page_size)
  = (String.eqb k "page" || String.eqb k "page_size")
    || (is_some (client_id q) && String.eqb k "client_id")
    || (nonempty (client_name q) && String.eqb k "client_name")
    || (is_some (lobbyist_id q) && String.eqb k "lobbyist_id")
    || (nonempty (lobbyist_name q) && String.eqb k "lobbyist_name")
    || match additional_filters q with
       | Some o => dict_has k o
       | None => false
       end.
Proof.
  unfold build_filters.
  rewrite dict_has_update_if_truthy, dict_has_set_if_truthy,
    dict_has_set_if_not_none, dict_has_set_if_truthy, dict_has_set_if_not_none.
  unfold dict_has at 1. simpl.
  destruct (String.eqb k "page"), (String.eqb k "page_size"),
    (is_some (client_id q) && String.eqb k "client_id"),
    (nonempty (client_name q) && String.eqb k "client_name"),
    (is_some (lobbyist_id q) && String.eqb k "lobbyist_id"),
    (nonempty (lobbyist_name q) && String.eqb k "lobbyist_name");
    reflexivity.
Qed.

(** An identifying key is in the assembled filter set exactly when the
    caller names one: through a named parameter that is given (and, for a
    name, not empty) or through [additional_filters]. *)
Lemma has_filter_names (q : Filters) (page page_size : Z) :
  has_filter (build_filters q page page_size) = names_filter q.
Proof.
  unfold has_filter, names_filter, identifying_keys, existsb.
  rewrite !dict_has_build_filters. simpl.
  destruct (additional_filters q) as [o|];
    destruct (is_some (client_id q)), (nonempty (client_name q)),
      (is_some (lobbyist_id q)), (nonempty (lobbyist_name q)); simpl;
    try reflexivity;
    destruct (dict_has "client_id" o), (dict_has "client_name" o),
      (dict_has "lobbyist_id" o), (dict_has "lobbyist_name" o); reflexivity.
Qed.

Lemma has_filter_false (filters : dict) :
  (forall key, In key identifying_keys -> dict_lookup key filters = None) ->
  has_filter filters = false.
Proof.
  intros H. unfold has_filter, identifying_keys, existsb, dict_has.
  rewrite !H; simpl; auto 10.
Qed.

Lemma has_filter_true (filters : dict) :
  (exists key, In key identifying_keys /\ dict_lookup key filters <> None) ->
  has_filter filters = true.
Proof.
  intros (key & Hin & Hl). unfold has_filter. apply existsb_exists.
  exists key. split; [exact Hin|]. unfold dict_has.
  destruct (dict_lookup key filters); congruence.
Qed.

(** C2.  With [page > 1] and none of the four identifying keys in the
    assembled filter set, [list_filings] raises the invalid-query
    [ValueError] and the world is as it was: nothing was requested.  With
    [page <= 1] or one of the keys in the set, that error is not raised and
    [_request] is called exactly once, with the assembled filters. *)
Theorem page_gate (self : LDAClient) (q : Filters) (page page_size : Z)
  (w : World) :
  let filters := build_filters q page page_size in
  (page > 1 ->
   (forall key, In key identifying_keys -> dict_lookup key filters = None) ->
   list_filings self q page page_size w
   = Some (Raise (ValueError invalid_query_message), w))
  /\ (page <= 1
      \/ (exists key, In key identifying_keys /\ dict_lookup key filters <> None) ->
      exists r w',
        list_filings self q page page_size w = Some (r, w')
        /\ r <> Raise (ValueError invalid_query_message)
        /\ requests w' = (requests w ++ [("filings/", Some filters)])%list).
Proof.
  intros filters. split.
  - intros Hp Hk. unfold list_filings. fold filters.
    rewrite (has_filter_false filters Hk).
    replace (page >? 1) with true by (symmetry; apply Z.gtb_lt; lia).
    reflexivity.
  - intros Hc. unfold list_filings. fold filters.
    assert (Hg : (page >? 1) && negb (has_filter filters) = false).
    { destruct Hc as [Hp | Hk].
      - replace (page >? 1) with false; [reflexivity|].
        symmetry. rewrite Z.gtb_ltb. apply Z.ltb_ge. lia.
      - rewrite (has_filter_true filters Hk). apply andb_false_r. }
    rewrite Hg.
    destruct (request_unfold self "filings/" (Some filters) w) as [w' [Hr Ha]].
    eexists. exists w'. split; [exact Hr|]. split.
    + destruct (net w (length (gets w))); apply settle_not_value_error.
    + destruct (net w (length (gets w))); apply Ha.
Qed.

Lemma page_gate_witness :
  list_filings test_client no_filters 2 25 (serve four_pages)
  = Some (Raise (ValueError invalid_query_message), serve four_pages)
  /\ (exists r w',
        list_filings test_client (by_client 7) 2 25 (serve four_pages)
        = Some (r, w')
        /\ r <> Raise (ValueError invalid_query_message)
        /\ length (requests w') = 1%nat)
  /\ (exists r w',
        list_filings test_client no_filters 1 25 (serve four_pages)
        = Some (r, w')
        /\ r <> Raise (ValueError invalid_query_message)
        /\ length (requests w') = 1%nat).
Proof.
  split; [|split].
  - apply (page_gate test_client no_filters 2 25 (serve four_pages)).
    + lia.
    + intros key Hin. simpl in Hin.
      destruct Hin as [<-|[<-|[<-|[<-|[]]]]]; reflexivity.
  - destruct (page_gate test_client (by_client 7) 2 25 (serve four_pages))
      as [_ H].
    destruct H as (r & w' & Hr & Hn & Hq).
    + right. exists "client_id". split; [simpl; auto | discriminate].
    + exists r, w'. rewrite Hq. repeat split; assumption.
  - destruct (page_gate test_client no_filters 1 25 (serve four_pages))
      as [_ H].
    destruct H as (r & w' & Hr & Hn & Hq).
    + left. lia.
    + exists r, w'. rewrite Hq. repeat split; assumption.
Defined.

(** ** Pager *)

Lemma take_page_ok (page : value) (all_results : list value) :
  is_page page ->
  take_page page all_results
  = Ok ((all_results ++ results_of page)%list, truthy (next_of page)).
Proof.
  destruct page as [| | | | |d]; simpl; try contradiction.
  unfold take_page, attr_get_default, attr_get, bind.
  destruct (dict_get_default "results" (VList []) d); simpl; try contradiction.
  reflexivity.
Qed.

Lemma merge_result_ok (first : value) (all_results : list value) (page : Z) :
  is_page first ->
  merge_result first all_results page = Ok (aggregate first all_results page).
Proof.
  destruct first; simpl; try contradiction. reflexivity.
Qed.

Lemma list_filings_ok (self : LDAClient) (q : Filters) (page page_size : Z)
  (w : World) (r : Response) (body : value) :
  names_filter q = true \/ page <= 1 ->
  net w (length (gets w)) = Responded r ->
  is_http_error r = false ->
  json_body r = Some body ->
  exists w',
    list_filings self q page page_size w = Some (Ok body, w')
    /\ after_request self "filings/" (Some (build_filters q page page_size))
         1 [] w w'.
Proof.
  intros Hg Hn He Hj. unfold list_filings.
  rewrite has_filter_names.
  assert (Hgate : (page >? 1) && negb (names_filter q) = false).
  { destruct Hg as [-> | Hp]; [apply andb_false_r|].
    replace (page >? 1) with false; [reflexivity|].
    symmetry. rewrite Z.gtb_ltb. apply Z.ltb_ge. lia. }
  rewrite Hgate.
  destruct (request_unfold self "filings/"
              (Some (build_filters q page page_size)) w) as [w' [Hr Ha]].
  rewrite Hn in Hr, Ha. simpl in Hr.
  unfold read_response, response_json in Hr. rewrite He, Hj in Hr.
  exists w'. auto.
Qed.

Lemma serves_next (self : LDAClient) (path : string) (params : option dict)
  (pause_seconds : Z) (w w' : World) (page : value) (rest : list value) :
  serves w (page :: rest) ->
  after_request self path params 1 [] w w' ->
  serves (pause pause_seconds w') rest.
Proof.
  intros Hs (Hnet & Hgets & _) i body Hi.
  destruct (Hs (S i) body Hi) as (r & Hr & He & Hj).
  exists r. split; [|auto].
  assert (Hp : net (pause pause_seconds w') = net w'
               /\ gets (pause pause_seconds w') = gets w').
  { unfold pause. destruct (pause_seconds >? 0); simpl; auto. }
  destruct Hp as [-> ->]. rewrite Hnet, Hgets, length_app. simpl.
  rewrite <- Hr. f_equal. lia.
Qed.

Lemma fetched_nonempty (m : option Z) (page : Z) (p : value) (rest : list value) :
  exists tail, fetched m page (p :: rest) = p :: tail.
Proof. simpl. eauto. Qed.

Lemma requests_pause (pause_seconds : Z) (w : World) :
  requests (pause pause_seconds w) = requests w
  /\ gets (pause pause_seconds w) = gets w.
Proof. unfold pause. destruct (pause_seconds >? 0); simpl; auto. Qed.

(** The loop of the pager, from any of its states: it fetches the pages
    [fetched] names, one request each, and returns the aggregate. *)
Lemma pages_loop_fetches (self : LDAClient) (q : Filters)
  (page_size pause_seconds : Z) (m : option Z) (pages : list value) :
  forall (fuel : nat) (acc : list value) (first : option value) (page : Z)
         (w : World),
    last_page_ends pages ->
    Forall is_page pages ->
    match first with Some f => is_page f | None => True end ->
    serves w pages ->
    (length (fetched m page pages) <= fuel)%nat ->
    names_filter q = true
    \/ (page <= 1 /\ length (fetched m page pages) = 1%nat) ->
    exists w',
      pages_loop fuel self q page_size pause_seconds m acc first page w
      = Some (Ok (aggregate
                    (match first with Some f => f | None => hd VNone pages end)
                    (acc ++ flat_map results_of (fetched m page pages))%list
                    (page + Z.of_nat (length (fetched m page pages)) - 1)),
              w')
      /\ requests w'
         = (requests w
            ++ page_requests q page_size page (length (fetched m page pages)))%list
      /\ length (gets w')
         = (length (gets w) + length (fetched m page pages))%nat.
Proof.
  induction pages as [|p rest IH]; intros fuel acc first page w Hend Hpages Hfirst
    Hserves Hfuel Hgate; [contradiction|].
  assert (Hp : is_page p) by (inversion Hpages; assumption).
  assert (Hrest : Forall is_page rest) by (inversion Hpages; assumption).
  destruct (Hserves 0%nat p eq_refl) as (r & Hr & He & Hj).
  rewrite Nat.add_0_r in Hr.
  destruct fuel as [|fuel]; [simpl in Hfuel; lia|].
  destruct (list_filings_ok self q page page_size w r p) as (w1 & Hl & Ha); auto.
  { destruct Hgate as [?|[? _]]; auto. }
  cbn [pages_loop]. rewrite Hl, (take_page_ok p acc Hp).
  set (first' := match first with Some f => f | None => p end).
  assert (Hfirst' : is_page first').
  { unfold first'. destruct first; assumption. }
  assert (Hstop : negb (if reached_cap m page then false else truthy (next_of p))
                  = reached_cap m page || negb (truthy (next_of p))).
  { destruct (reached_cap m page); reflexivity. }
  rewrite Hstop. cbn [fetched] in *.
  destruct Ha as (Hnet & Hgets & Hsleeps & Hreqs).
  destruct (reached_cap m page || negb (truthy (next_of p))) eqn:Estop.
  - exists w1. cbn [length flat_map page_requests hd].
    rewrite merge_result_ok by assumption.
    rewrite app_nil_r. replace (page + Z.of_nat 1 - 1) with page by lia.
    fold first'. rewrite Hreqs, Hgets, length_app. simpl. auto.
  - apply orb_false_elim in Estop. destruct Estop as [Ecap Enext].
    apply negb_false_iff in Enext.
    assert (Hend' : last_page_ends rest).
    { destruct rest as [|p' rest']; simpl in Hend; [congruence|tauto]. }
    destruct rest as [|p' rest']; [contradiction|].
    assert (Hnames : names_filter q = true).
    { destruct Hgate as [?|[_ Hone]]; [assumption|].
      destruct (fetched_nonempty m (page + 1) p' rest') as [tail Ht].
      rewrite Ht in Hone. simpl in Hone. lia. }
    destruct (IH fuel (acc ++ results_of p)%list (Some first') (page + 1)
                (pause pause_seconds w1)) as (w' & Hloop & Hq & Hg); auto.
    + eapply serves_next; [exact Hserves|].
      repeat split; eassumption.
    + cbn [length] in Hfuel. lia.
    + exists w'. rewrite Hloop. cbn [length flat_map page_requests hd].
      fold first'. split; [|split].
      * rewrite <- app_assoc.
        replace (page + 1 + Z.of_nat (length (fetched m (page + 1) (p' :: rest'))) - 1)
          with (page + Z.of_nat (S (length (fetched m (page + 1) (p' :: rest')))) - 1)
          by lia.
        reflexivity.
      * destruct (requests_pause pause_seconds w1) as [Hq1 Hg1].
        rewrite Hq, Hq1, Hreqs, <- app_assoc. reflexivity.
      * destruct (requests_pause pause_seconds w1) as [Hq1 Hg1].
        rewrite Hg, Hg1, Hgets, length_app. simpl. lia.
Qed.

Lemma fetched_all (page : Z) (pages : list value) :
  last_page_ends pages -> fetched None page pages = pages.
Proof.
  revert page. induction pages as [|p rest IH]; intros page Hend; [reflexivity|].
  cbn [fetched reached_cap orb].
  destruct rest as [|p' rest'].
  - simpl in Hend. now rewrite Hend.
  - destruct Hend as [Hnext Hend]. rewrite Hnext. cbn [negb].
    now rewrite IH.
Qed.

Lemma fetched_capped (m page : Z) (pages : list value) :
  last_page_ends pages ->
  page <= m ->
  fetched (Some m) page pages = firstn (Z.to_nat (m - page + 1)) pages.
Proof.
  revert page. induction pages as [|p rest IH]; intros page Hend Hle;
    [contradiction|].
  replace (Z.to_nat (m - page + 1)) with (S (Z.to_nat (m - page))) by lia.
  cbn [fetched reached_cap firstn]. f_equal.
  destruct (Z.geb_spec page m) as [Hge|Hlt].
  - replace (m - page) with 0 by lia. reflexivity.
  - cbn [orb]. destruct rest as [|p' rest'].
    + simpl in Hend. rewrite Hend. now rewrite firstn_nil.
    + destruct Hend as [Hnext Hend]. rewrite Hnext. cbn [negb].
      rewrite IH by (auto; lia). f_equal. lia.
Qed.

Lemma firstn_min {A : Type} (n : nat) (l : list A) :
  firstn (Nat.min (length l) n) l = firstn n l.
Proof.
  destruct (Nat.le_ge_cases n (length l)) as [H|H].
  - now rewrite Nat.min_r.
  - rewrite Nat.min_l by assumption.
    now rewrite firstn_all, firstn_all2.
Qed.

Lemma fetched_prefix (max_pages : option Z) (pages : list value) :
  last_page_ends pages ->
  match max_pages with Some m => 1 <= m | None => True end ->
  fetched max_pages 1 pages
  = firstn (pages_to_fetch max_pages (length pages)) pages.
Proof.
  intros Hend Hm. destruct max_pages as [m|]; unfold pages_to_fetch.
  - rewrite fetched_capped by assumption.
    replace (m - 1 + 1) with m by lia.
    now rewrite firstn_min.
  - rewrite fetched_all by assumption. now rewrite firstn_all.
Qed.

Lemma serves_serve (pages : list value) : serves (serve pages) pages.
Proof.
  intros i body Hi. exists (ok_response body).
  split; [|split; reflexivity].
  unfold serve, script. cbn [net gets length Nat.add].
  apply nth_error_nth.
  now apply (map_nth_error (fun body => Responded (ok_response body))).
Qed.

Lemma aggregate_lookup (first : dict) (all_results : list value) (pages : Z) :
  exists merged,
    aggregate (VDict first) all_results pages = VDict merged
    /\ dict_lookup "results" merged = Some (VList all_results)
    /\ dict_lookup "fetched_pages" merged = Some (VInt pages)
    /\ (forall key, key <> "results" -> key <> "fetched_pages" ->
        dict_lookup key merged = dict_lookup key first).
Proof.
  eexists. split; [reflexivity|]. split; [|split].
  - rewrite dict_lookup_set_other by discriminate. apply dict_lookup_set_same.
  - apply dict_lookup_set_same.
  - intros key H1 H2. now rewrite !dict_lookup_set_other.
Qed.

Lemma four_pages_end : last_page_ends four_pages.
Proof. simpl. auto. Qed.

Lemma four_pages_are_pages : Forall is_page four_pages.
Proof. repeat constructor. Qed.

Lemma length_page_requests (q : Filters) (page_size page : Z) (count : nat) :
  length (page_requests q page_size page count) = count.
Proof.
  revert page. induction count as [|count IH]; intros page; simpl; auto.
Qed.

(** C1, as the code has it.  Let the next calls of the transport bring the
    pages [p1 .. pN], each a page response, with [next] truthy on all but the
    last and falsy on the last.  Let [max_pages] be absent or at least 1, and
    [k = min(N, max_pages)].  If the filter set holds an identifying key, or
    [k = 1], then [list_all_filings] makes exactly [k] requests, for the
    pages 1 to [k], and returns the first page with [results] replaced by the
    results of the [k] pages in page order, [fetched_pages] set to [k], and
    every other key as the first page has it.  For the stub of four pages it
    makes 4 requests and [fetched_pages] is 4; with [max_pages = 2] it makes
    2 requests although [next] is set on the second page. *)
Theorem list_all_filings_fetches (self : LDAClient) (q : Filters)
  (page_size pause_seconds : Z) (max_pages : option Z) (pages : list value)
  (w : World) (fuel : nat) :
  (last_page_ends pages ->
   Forall is_page pages ->
   serves w pages ->
   match max_pages with Some m => 1 <= m | None => True end ->
   let k := pages_to_fetch max_pages (length pages) in
   names_filter q = true \/ k = 1%nat ->
   (k <= fuel)%nat ->
   exists first merged w',
     hd_error pages = Some (VDict first)
     /\ list_all_filings fuel self q page_size pause_seconds max_pages w
        = Some (Ok (VDict merged), w')
     /\ requests w' = (requests w ++ page_requests q page_size 1 k)%list
     /\ length (gets w') = (length (gets w) + k)%nat
     /\ dict_lookup "results" merged
        = Some (VList (flat_map results_of (firstn k pages)))
     /\ dict_lookup "fetched_pages" merged = Some (VInt (Z.of_nat k))
     /\ (forall key, key <> "results" -> key <> "fetched_pages" ->
         dict_lookup key merged = dict_lookup key first))
  /\ (exists merged w',
        list_all_filings 4 test_client (by_client 7) 25 0 None (serve four_pages)
        = Some (Ok (VDict merged), w')
        /\ length (requests w') = 4%nat
        /\ length (gets w') = 4%nat
        /\ dict_lookup "fetched_pages" merged = Some (VInt 4))
  /\ (exists merged w',
        list_all_filings 4 test_client (by_client 7) 25 0 (Some 2)
          (serve four_pages)
        = Some (Ok (VDict merged), w')
        /\ length (requests w') = 2%nat
        /\ length (gets w') = 2%nat
        /\ dict_lookup "fetched_pages" merged = Some (VInt 2)).
Proof.
  split; [|split].
  - intros Hend Hpages Hserves Hm k Hgate Hfuel.
    assert (Hf : fetched max_pages 1 pages = firstn k pages)
      by (apply fetched_prefix; assumption).
    assert (Hk : length (firstn k pages) = k).
    { apply firstn_length_le. unfold k, pages_to_fetch.
      destruct max_pages; lia. }
    destruct pages as [|p rest]; [contradiction|].
    assert (Hp : is_page p) by (inversion Hpages; assumption).
    destruct p as [| | | | |first]; try contradiction.
    destruct (pages_loop_fetches self q page_size pause_seconds max_pages
                (VDict first :: rest) fuel [] None 1 w)
      as (w' & Hloop & Hq & Hg); auto.
    + rewrite Hf, Hk. exact Hfuel.
    + rewrite Hf, Hk. destruct Hgate; [left|right]; auto. split; [lia|auto].
    + rewrite Hf, Hk in Hloop, Hq, Hg. cbn [hd app] in Hloop.
      replace (1 + Z.of_nat k - 1) with (Z.of_nat k) in Hloop by lia.
      destruct (aggregate_lookup first (flat_map results_of
                  (firstn k (VDict first :: rest))) (Z.of_nat k))
        as (merged & Hagg & Hres & Hcount & Hkeep).
      rewrite Hagg in Hloop.
      exists first, merged, w'. unfold list_all_filings. auto 10.
  - eexists. eexists. split; [vm_compute; reflexivity|].
    repeat split.
  - eexists. eexists. split; [vm_compute; reflexivity|].
    repeat split.
Qed.

Lemma list_all_filings_fetches_witness :
  exists merged w',
    list_all_filings 3 test_client (by_client 7) 25 0 (Some 3) (serve four_pages)
    = Some (Ok (VDict merged), w')
    /\ length (requests w') = 3%nat
    /\ dict_lookup "results" merged
       = Some (VList [filing "a"; filing "b"; filing "c"])
    /\ dict_lookup "fetched_pages" merged = Some (VInt 3)
    /\ dict_lookup "count" merged = Some (VInt 4).
Proof.
  destruct (list_all_filings_fetches test_client (by_client 7) 25 0 (Some 3)
              four_pages (serve four_pages) 3) as [H _].
  destruct (H four_pages_end four_pages_are_pages (serves_serve four_pages))
    as (first & merged & w' & Hfirst & Hrun & Hq & _ & Hres & Hcount & Hkeep).
  - lia.
  - left. reflexivity.
  - simpl. lia.
  - exists merged, w'. split; [exact Hrun|].
    split; [rewrite Hq; reflexivity|].
    split; [exact Hres|]. split; [exact Hcount|].
    rewrite Hkeep by discriminate.
    injection Hfirst as <-. reflexivity.
Defined.

(** C1, counterexample: with no identifying filter the request of page 2 is
    refused by [list_filings], so the four pages are never fetched. *)
Lemma no_filter_stops_at_page_2 :
  ~ fetches_all_pages test_client no_filters 25 0 None four_pages.
Proof.
  intros H.
  destruct (H four_pages_end four_pages_are_pages I)
    as (fuel & merged & w' & Hrun & _).
  destruct fuel as [|[|fuel]]; vm_compute in Hrun; discriminate Hrun.
Qed.

(** What the pager does there: one request, then the invalid-query error. *)
Lemma no_filter_raises_at_page_2 :
  exists w',
    list_all_filings 4 test_client no_filters 25 0 None (serve four_pages)
    = Some (Raise (ValueError invalid_query_message), w')
    /\ length (requests w') = 1%nat.
Proof.
  eexists. split; [vm_compute; reflexivity | reflexivity].
Qed.

Lemma request_logged (self : LDAClient) (path : string) (params : option dict)
  (w w' : World) (r : result value) :
  _request self path params w = Some (r, w') ->
  requests w' = (requests w ++ [(path, params)])%list.
Proof.
  intros H. destruct (request_unfold self path params w) as (w1 & Hr & Ha).
  rewrite H in Hr. injection Hr as _ <-.
  destruct (net w (length (gets w))); apply Ha.
Qed.

(** C10.  With [max_pages <= 1] (zero and negative values included), when
    the request of page 1 returns a page response, [list_all_filings] makes
    exactly that one request and returns with [fetched_pages] equal to 1,
    whatever [next] is. *)
Theorem cap_below_two_fetches_one_page (self : LDAClient) (q : Filters)
  (page_size pause_seconds : Z) (m : Z) (w w1 : World) (fuel : nat)
  (first : dict) :
  m <= 1 ->
  is_page (VDict first) ->
  _request self "filings/" (Some (build_filters q 1 page_size)) w
  = Some (Ok (VDict first), w1) ->
  exists merged,
    list_all_filings (S fuel) self q page_size pause_seconds (Some m) w
    = Some (Ok (VDict merged), w1)
    /\ requests w1
       = (requests w ++ [("filings/", Some (build_filters q 1 page_size))])%list
    /\ dict_lookup "fetched_pages" merged = Some (VInt 1)
    /\ dict_lookup "results" merged = Some (VList (results_of (VDict first)))
    /\ (forall key, key <> "results" -> key <> "fetched_pages" ->
        dict_lookup key merged = dict_lookup key first).
Proof.
  intros Hm Hp Hreq.
  destruct (aggregate_lookup first (results_of (VDict first)) 1)
    as (merged & Hagg & Hres & Hcount & Hkeep).
  exists merged.
  unfold list_all_filings. cbn [pages_loop].
  unfold list_filings.
  replace (1 >? 1) with false by reflexivity. cbn [andb].
  rewrite Hreq, (take_page_ok _ [] Hp). cbn [reached_cap app].
  replace (1 >=? m) with true by (symmetry; apply Z.geb_le; lia).
  cbn [negb]. rewrite merge_result_ok by assumption. rewrite Hagg.
  rewrite (request_logged _ _ _ _ _ _ Hreq). auto.
Qed.

Lemma cap_below_two_fetches_one_page_witness :
  exists merged w',
    list_all_filings 1 test_client no_filters 25 0 (Some (-3))
      (script [TimedOut;
               Responded (ok_response
                 (page_of (VStr "https://lda.senate.gov/api/v1/filings/?page=2")
                    [filing "a"]))])
    = Some (Ok (VDict merged), w')
    /\ length (requests w') = 1%nat
    /\ length (gets w') = 2%nat
    /\ dict_lookup "fetched_pages" merged = Some (VInt 1).
Proof.
  destruct (cap_below_two_fetches_one_page test_client no_filters 25 0 (-3)
              (script [TimedOut;
                       Responded (ok_response
                         (page_of (VStr "https://lda.senate.gov/api/v1/filings/?page=2")
                            [filing "a"]))])
              _ 0
              [("count", VInt 4);
               ("next", VStr "https://lda.senate.gov/api/v1/filings/?page=2");
               ("previous", VNone); ("results", VList [filing "a"])]
              ltac:(lia) I eq_refl)
    as (merged & Hrun & Hq & Hcount & _).
  exists merged. eexists. split; [exact Hrun|].
  split; [rewrite Hq; reflexivity|]. split; [reflexivity | exact Hcount].
Defined.

(** ** Flatten *)

Lemma dict_lookup_none (k : string) (d : dict) :
  dict_lookup k d = None <-> ~ In k (dict_keys d).
Proof.
  induction d as [|[k' v'] d IH]; simpl; [tauto|].
  destruct (String.eqb_spec k k') as [->|Hne].
  - split; [discriminate | intros H; exfalso; auto].
  - rewrite IH. split; [intros H [H'|H']; congruence | tauto].
Qed.

Lemma dict_set_fresh (k : string) (v : value) (d : dict) :
  ~ In k (dict_keys d) -> dict_set k v d = (d ++ [(k, v)])%list.
Proof.
  induction d as [|[k' v'] d IH]; simpl; intros Hn; [reflexivity|].
  destruct (String.eqb_spec k k') as [->|Hne]; [exfalso; auto|].
  rewrite IH; auto.
Qed.

Lemma dict_update_fresh (other d : dict) :
  NoDup (dict_keys d ++ dict_keys other) ->
  dict_update d other = (d ++ other)%list.
Proof.
  unfold dict_update. revert d.
  induction other as [|[k v] other IH]; intros d Hnd; simpl.
  - now rewrite app_nil_r.
  - simpl in Hnd. pose proof (NoDup_remove_2 _ _ _ Hnd) as Hk.
    rewrite dict_set_fresh by (intros Hin; apply Hk, in_or_app; auto).
    rewrite IH.
    + now rewrite <- app_assoc.
    + unfold dict_keys in *. rewrite map_app, <- app_assoc. exact Hnd.
Qed.

Lemma dict_update_empty (d : dict) : wf_dict d -> dict_update [] d = d.
Proof. intros H. now apply (dict_update_fresh d []). Qed.

Lemma flatten_entry_scalar (sep : string) (v : value) (new_key : string)
  (items : dict) :
  is_scalar v = true -> flatten_entry sep v new_key items = dict_set new_key v items.
Proof. destruct v; simpl; intros H; try reflexivity; discriminate. Qed.

Lemma flatten_entry_dict (sep : string) (d : dict) (new_key : string)
  (items : dict) :
  flatten_entry sep (VDict d) new_key items
  = dict_update items (_flatten_record d new_key sep).
Proof. reflexivity. Qed.

Lemma flatten_flat_from (sep : string) (record items : dict) :
  flat_record record ->
  fold_left
    (fun items kv => flatten_entry sep (snd kv) (new_key_of "" sep (fst kv)) items)
    record items
  = dict_update items record.
Proof.
  revert items. induction record as [|[k v] record IH]; intros items Hflat;
    [reflexivity|].
  inversion Hflat as [|? ? Hv Hrest]; subst. simpl in Hv.
  cbn [fold_left fst snd]. rewrite flatten_entry_scalar by assumption.
  rewrite IH by assumption. reflexivity.
Qed.

(** C8.  Flattening a record none of whose values is a mapping or a list
    gives the record back, keys, values and order. *)
Theorem flatten_flat_record (record : dict) (sep : string) :
  wf_dict record ->
  flat_record record ->
  _flatten_record record "" sep = record.
Proof.
  intros Hwf Hflat. unfold _flatten_record.
  rewrite flatten_flat_from by assumption.
  now apply dict_update_empty.
Qed.

Lemma flatten_flat_record_witness :
  _flatten_record
    [("filing_uuid", VStr "abc"); ("filing_year", VInt 2024);
     ("income", VNone); ("posted", VBool true)] "" "."
  = [("filing_uuid", VStr "abc"); ("filing_year", VInt 2024);
     ("income", VNone); ("posted", VBool true)].
Proof.
  apply (flatten_flat_record
           [("filing_uuid", VStr "abc"); ("filing_year", VInt 2024);
            ("income", VNone); ("posted", VBool true)] ".").
  - unfold wf_dict. simpl.
    repeat (constructor; [simpl; intuition discriminate|]). constructor.
  - repeat constructor.
Defined.

(** ** JSON text *)

Lemma append_assoc (a b c : string) : (a ++ b) ++ c = a ++ (b ++ c).
Proof. induction a as [|x a IH]; simpl; [reflexivity | now rewrite IH]. Qed.

Lemma append_nil_r (a : string) : a ++ "" = a.
Proof. induction a as [|x a IH]; simpl; [reflexivity | now rewrite IH]. Qed.

Lemma scanstring_escape_char (c : ascii) (tail : string) :
  scanstring (escape_char c ++ tail) = cons_char c (scanstring tail).
Proof. each_char c; reflexivity. Qed.

Lemma scanstring_escape (s rest : string) :
  scanstring (escape s ++ String quote rest) = Some (s, rest).
Proof.
  induction s as [|c s IH]; [reflexivity|].
  cbn [escape]. rewrite append_assoc, scanstring_escape_char, IH. reflexivity.
Qed.

Lemma scan_once_string (fuel : nat) (s rest : string) :
  scan_once (S fuel) (dumps_str s ++ rest) = Some (VStr s, rest).
Proof.
  unfold dumps_str. cbn [append scan_once].
  replace (Ascii.eqb quote quote) with true by reflexivity.
  rewrite append_assoc. cbn [char_str append].
  now rewrite scanstring_escape.
Qed.

Lemma closing_no_digit (rest : string) :
  closing rest ->
  match rest with
  | EmptyString => True
  | String c _ => digit_of c = None
  end.
Proof.
  destruct rest as [|c rest]; simpl; [auto|].
  intros [-> | [-> | ->]]; reflexivity.
Qed.

Lemma closing_no_float (rest : string) :
  closing rest -> starts_frac rest || starts_exp rest = false.
Proof.
  destruct rest as [|c rest]; simpl; [auto|].
  intros [-> | [-> | ->]]; destruct rest; reflexivity.
Qed.

Lemma scan_digits_uint (u : Decimal.uint) (rest : string) :
  closing rest ->
  scan_digits (NilEmpty.string_of_uint u ++ rest) = (u, rest).
Proof.
  intros Hc. induction u; cbn [NilEmpty.string_of_uint append scan_digits];
    try (rewrite IHu; reflexivity).
  apply closing_no_digit in Hc. destruct rest as [|c rest]; [reflexivity|].
  cbn [scan_digits]. now rewrite Hc.
Qed.

Lemma to_uint_no_leading_zero (p : positive) (u : Decimal.uint) :
  Pos.to_uint p <> Decimal.D0 u.
Proof.
  intros H.
  assert (Hn : Decimal.unorm (Pos.to_uint p) = Pos.to_uint p).
  { rewrite <- Unsigned.to_of, Unsigned.of_to. reflexivity. }
  rewrite H in Hn. unfold Decimal.unorm in Hn.
  rewrite DecimalFacts.nzhead_D0 in Hn.
  destruct (Decimal.nzhead u) eqn:E;
    try (apply (DecimalFacts.nzhead_nonzero u u); congruence).
  injection Hn as <-. now apply (Unsigned.to_uint_nonzero p).
Qed.

Lemma scan_int_to_uint (p : positive) (rest : string) :
  closing rest ->
  scan_int (NilZero.string_of_uint (Pos.to_uint p) ++ rest)
  = Some (Pos.to_uint p, rest)
  /\ exists c s, NilZero.string_of_uint (Pos.to_uint p) = String c s
                 /\ is_digit c = true /\ Ascii.eqb c "-" = false.
Proof.
  intros Hc.
  pose proof (Unsigned.to_uint_nonnil p) as Hnil.
  pose proof (to_uint_no_leading_zero p) as Hz.
  destruct (Pos.to_uint p) as [|u|u|u|u|u|u|u|u|u|u];
    try congruence; try (exfalso; apply (Hz u); reflexivity);
    (split; [| eexists; eexists; split; [reflexivity | split; reflexivity]]);
    cbn [NilZero.string_of_uint NilEmpty.string_of_uint append scan_int];
    cbn; rewrite scan_digits_uint by assumption; reflexivity.
Qed.

Lemma parse_number_str_of_Z (n : Z) (rest : string) :
  closing rest ->
  parse_number (str_of_Z n ++ rest) = Some (VInt n, rest)
  /\ exists c s, str_of_Z n = String c s /\ number_head c = true.
Proof.
  intros Hc. unfold str_of_Z. rewrite <- (DecimalZ.of_to n) at 2.
  destruct n as [|p|p]; cbn [Z.to_int NilZero.string_of_int].
  - split; [|eexists; eexists; split; reflexivity].
    cbn. now rewrite closing_no_float.
  - destruct (scan_int_to_uint p rest Hc) as (Hs & c & s & Hh & Hd & Hm).
    split.
    + unfold parse_number. rewrite Hh in *. cbn [append] in *. rewrite Hm, Hs.
      now rewrite closing_no_float.
    + exists c, s. split; [assumption|]. unfold number_head. now rewrite Hd.
  - destruct (scan_int_to_uint p rest Hc) as (Hs & c & s & Hh & Hd & Hm).
    split; [|eexists; eexists; split; reflexivity].
    unfold parse_number. cbn [append]. replace (Ascii.eqb "-" "-") with true by reflexivity.
    rewrite Hs. now rewrite closing_no_float.
Qed.

Lemma scan_once_number_head (fuel : nat) (c : ascii) (s : string) :
  number_head c = true ->
  scan_once (S fuel) (String c s) = parse_number (String c s).
Proof. each_char c; intros H; try discriminate H; reflexivity. Qed.

Lemma scan_once_int (fuel : nat) (n : Z) (rest : string) :
  closing rest ->
  scan_once (S fuel) (str_of_Z n ++ rest) = Some (VInt n, rest).
Proof.
  intros Hc. destruct (parse_number_str_of_Z n rest Hc) as (Hp & c & s & Hh & Hn).
  rewrite Hh in *. cbn [append] in *.
  now rewrite scan_once_number_head.
Qed.

Lemma value_induction (P : value -> Prop) :
  P VNone ->
  (forall b, P (VBool b)) ->
  (forall n, P (VInt n)) ->
  (forall s, P (VStr s)) ->
  (forall l, Forall P l -> P (VList l)) ->
  (forall d, Forall (fun kv => P (snd kv)) d -> P (VDict d)) ->
  forall v, P v.
Proof.
  intros HN HB HI HS HL HD.
  fix IH 1. intros [| b | n | s | l | d].
  - exact HN.
  - apply HB.
  - apply HI.
  - apply HS.
  - apply HL. revert l. fix IHl 1. intros [|x l]; constructor.
    + apply IH.
    + apply IHl.
  - apply HD. revert d. fix IHd 1. intros [|kv d]; constructor.
    + apply IH.
    + apply IHd.
Qed.

Lemma wf_value_list (l : list value) :
  wf_value (VList l) <-> Forall wf_value l.
Proof.
  induction l as [|x l IH].
  - split; [constructor | intros _; exact I].
  - change (wf_value (VList (x :: l))) with (wf_value x /\ wf_value (VList l)).
    rewrite IH. split.
    + intros [H1 H2]. now constructor.
    + intros H. inversion H. auto.
Qed.

Lemma wf_value_dict (d : dict) :
  wf_value (VDict d)
  <-> wf_dict d /\ Forall (fun kv => wf_value (snd kv)) d.
Proof.
  unfold wf_dict, dict_keys. cbn [wf_value].
  apply and_iff_compat_l.
  induction d as [|kv d IH].
  - split; [constructor | intros _; exact I].
  - rewrite IH. split.
    + intros [H1 H2]. now constructor.
    + intros H. inversion H. auto.
Qed.

Lemma number_head_plain (c : ascii) :
  number_head c = true -> is_json_ws c = false /\ Ascii.eqb c "]" = false.
Proof. each_char c; intros H; try discriminate H; split; reflexivity. Qed.

(** A value never starts with white space or with a closing bracket. *)
Lemma dumps_head (v : value) :
  exists c s, dumps v = String c s
              /\ is_json_ws c = false /\ Ascii.eqb c "]" = false.
Proof.
  destruct v as [| [|] | n | s | l | d];
    try (eexists; eexists; split; [reflexivity | split; reflexivity]).
  destruct (parse_number_str_of_Z n "" I) as (_ & c & s & Hh & Hn).
  exists c, s. split; [exact Hh | now apply number_head_plain].
Qed.

Lemma skip_ws_dumps (v : value) (rest : string) :
  skip_ws (dumps v ++ rest) = dumps v ++ rest.
Proof.
  destruct (dumps_head v) as (c & s & Hh & Hw & _).
  rewrite Hh. cbn [append skip_ws]. now rewrite Hw.
Qed.

Lemma join_cons (sep x y : string) (l : list string) :
  join sep (x :: y :: l) = x ++ sep ++ join sep (y :: l).
Proof. reflexivity. Qed.

Lemma skip_ws_join (y : value) (l : list value) (rest : string) :
  skip_ws (join ", " (map dumps (y :: l)) ++ rest)
  = join ", " (map dumps (y :: l)) ++ rest.
Proof.
  destruct l as [|z l]; cbn [map].
  - apply skip_ws_dumps.
  - rewrite join_cons, append_assoc. apply skip_ws_dumps.
Qed.

Lemma parse_elems_last (pv : string -> option (value * string)) (n : nat)
  (s : string) (v : value) (rest : string) :
  pv s = Some (v, String "]" rest) ->
  parse_elems pv (S n) s = Some ([v], rest).
Proof. intros H. cbn [parse_elems]. rewrite H. reflexivity. Qed.

Lemma parse_elems_more (pv : string -> option (value * string)) (n : nat)
  (s : string) (v : value) (rest : string) :
  pv s = Some (v, ", " ++ rest) ->
  parse_elems pv (S n) s
  = match parse_elems pv n (skip_ws rest) with
    | Some (vs, r) => Some (v :: vs, r)
    | None => None
    end.
Proof. intros H. cbn [parse_elems]. rewrite H. reflexivity. Qed.

Lemma parse_elems_dumps (fuel : nat) (l : list value) :
  forall (x : value) (n : nat) (rest : string),
    Forall reads_back (x :: l) ->
    Forall wf_value (x :: l) ->
    Forall (fun y => (weight y <= fuel)%nat) (x :: l) ->
    (length (x :: l) <= n)%nat ->
    parse_elems (scan_once fuel) n
      (join ", " (map dumps (x :: l)) ++ String "]" rest)
    = Some (x :: l, rest).
Proof.
  induction l as [|y l IH]; intros x n rest Hread Hwf Hfuel Hn;
    (destruct n as [|n]; [simpl in Hn; lia|]);
    inversion Hread as [|? ? Hx Hread']; inversion Hwf as [|? ? Wx Hwf'];
    inversion Hfuel as [|? ? Fx Hfuel']; subst.
  - apply parse_elems_last. cbn [map join String.concat].
    apply (Hx Wx); [assumption | simpl; auto].
  - cbn [map]. rewrite join_cons, !append_assoc.
    rewrite (parse_elems_more _ _ _ x
               (join ", " (map dumps (y :: l)) ++ String "]" rest)).
    + rewrite skip_ws_join, IH; auto. simpl in *. lia.
    + apply (Hx Wx); [assumption | simpl; auto].
Qed.

Lemma weight_elems (l : list value) (fuel : nat) :
  (weight (VList l) <= S fuel)%nat ->
  Forall (fun y => (weight y <= fuel)%nat) l /\ (length l <= fuel)%nat.
Proof.
  cbn [weight]. revert fuel. induction l as [|x l IH]; intros fuel H.
  - split; [constructor | simpl; lia].
  - cbn [fold_right] in H.
    assert (Hx : (1 <= weight x)%nat) by (destruct x; simpl; lia).
    destruct (IH (fuel - weight x)%nat) as [H1 H2]; [lia|].
    split; [constructor; [lia|] | simpl; lia].
    eapply Forall_impl; [|exact H1]. simpl. intros; lia.
Qed.

Lemma reads_back_list (l : list value) :
  Forall reads_back l -> reads_back (VList l).
Proof.
  intros Hread Hwf fuel rest Hfuel Hc.
  destruct fuel as [|fuel]; [simpl in Hfuel; lia|].
  apply wf_value_list in Hwf.
  destruct (weight_elems l fuel Hfuel) as [Hw Hlen].
  destruct l as [|x l]; [reflexivity|].
  cbn [dumps]. rewrite !append_assoc.
  change ("[" ++ ?s) with (String "[" s).
  cbn [append scan_once].
  replace (Ascii.eqb "[" quote) with false by reflexivity.
  replace (Ascii.eqb "[" "{") with false by reflexivity.
  replace (Ascii.eqb "[" "[") with true by reflexivity.
  rewrite skip_ws_join.
  destruct (dumps_head x) as (c & s & Hh & _ & Hb).
  assert (Hj : exists t, join ", " (map dumps (x :: l)) ++ String "]" rest
                         = String c t).
  { destruct l; cbn [map]; [|rewrite join_cons]; cbn [join String.concat];
      rewrite Hh; cbn [append]; eauto. }
  destruct Hj as [t Hj].
  change ("]" ++ rest) with (String "]" rest).
  pose proof (parse_elems_dumps fuel l x fuel rest Hread Hwf Hw Hlen) as Hp.
  rewrite Hj in *. rewrite Hb, Hp. reflexivity.
Qed.

Lemma members_text (kv : string * value) (d : dict) (rest : string) :
  join ", " (map member_text (kv :: d)) ++ String "}" rest
  = String quote (members_tail (fst kv) (snd kv) d rest).
Proof.
  revert kv. induction d as [|kv' d IH]; intros kv.
  - cbn [map join String.concat members_tail]. unfold member_text, dumps_str.
    cbn [append]. rewrite !append_assoc. reflexivity.
  - cbn [map]. rewrite join_cons, !append_assoc.
    change (map member_text d) with (map member_text d).
    specialize (IH kv'). cbn [map] in IH. rewrite IH.
    cbn [members_tail]. unfold member_text at 1, dumps_str.
    cbn [append]. rewrite !append_assoc. reflexivity.
Qed.

Lemma parse_members_last (pv : string -> option (value * string)) (n : nat)
  (k s1 : string) (v : value) (rest : string) :
  skip_ws s1 = s1 ->
  pv s1 = Some (v, String "}" rest) ->
  parse_members pv (S n) (escape k ++ String quote (": " ++ s1))
  = Some ([(k, v)], rest).
Proof.
  intros Hs H. cbn [parse_members]. rewrite scanstring_escape.
  simpl. rewrite Hs, H. reflexivity.
Qed.

Lemma parse_members_more (pv : string -> option (value * string)) (n : nat)
  (k s1 s2 : string) (v : value) :
  skip_ws s1 = s1 ->
  pv s1 = Some (v, ", " ++ String quote s2) ->
  parse_members pv (S n) (escape k ++ String quote (": " ++ s1))
  = match parse_members pv n s2 with
    | Some (kvs, r) => Some ((k, v) :: kvs, r)
    | None => None
    end.
Proof.
  intros Hs H. cbn [parse_members]. rewrite scanstring_escape.
  simpl. rewrite Hs, H. reflexivity.
Qed.

Lemma parse_members_dumps (fuel : nat) (d : dict) :
  forall (k : string) (v : value) (n : nat) (rest : string),
    Forall (fun kv => reads_back (snd kv)) ((k, v) :: d) ->
    Forall (fun kv => wf_value (snd kv)) ((k, v) :: d) ->
    Forall (fun kv => (weight (snd kv) <= fuel)%nat) ((k, v) :: d) ->
    (length ((k, v) :: d) <= n)%nat ->
    parse_members (scan_once fuel) n (members_tail k v d rest)
    = Some ((k, v) :: d, rest).
Proof.
  induction d as [|[k' v'] d IH]; intros k v n rest Hread Hwf Hfuel Hn;
    (destruct n as [|n]; [simpl in Hn; lia|]);
    inversion Hread as [|? ? Hx Hread']; inversion Hwf as [|? ? Wx Hwf'];
    inversion Hfuel as [|? ? Fx Hfuel']; subst; cbn [snd fst] in *.
  - cbn [members_tail]. apply parse_members_last.
    + apply skip_ws_dumps.
    + apply (Hx Wx); [assumption | simpl; auto].
  - cbn [members_tail fst snd].
    rewrite (parse_members_more _ _ _ _ (members_tail k' v' d rest) v).
    + rewrite IH; auto. simpl in *. lia.
    + apply skip_ws_dumps.
    + apply (Hx Wx); [assumption | simpl; auto].
Qed.

Lemma weight_members (d : dict) (fuel : nat) :
  (weight (VDict d) <= S fuel)%nat ->
  Forall (fun kv => (weight (snd kv) <= fuel)%nat) d /\ (length d <= fuel)%nat.
Proof.
  cbn [weight]. revert fuel. induction d as [|[k x] d IH]; intros fuel H.
  - split; [constructor | simpl; lia].
  - cbn [fold_right snd] in H.
    assert (Hx : (1 <= weight x)%nat) by (destruct x; simpl; lia).
    destruct (IH (fuel - weight x)%nat) as [H1 H2]; [lia|].
    split; [constructor; [simpl; lia|] | simpl; lia].
    eapply Forall_impl; [|exact H1]. simpl. intros; lia.
Qed.

Lemma reads_back_dict (d : dict) :
  Forall (fun kv => reads_back (snd kv)) d -> reads_back (VDict d).
Proof.
  intros Hread Hwf fuel rest Hfuel Hc.
  destruct fuel as [|fuel]; [simpl in Hfuel; lia|].
  apply wf_value_dict in Hwf. destruct Hwf as [Hkeys Hwf].
  destruct (weight_members d fuel Hfuel) as [Hw Hlen].
  destruct d as [|[k v] d]; [reflexivity|].
  cbn [dumps]. rewrite !append_assoc.
  change (fun kv : string * value => dumps_str (fst kv) ++ ": " ++ dumps (snd kv))
    with member_text.
  change ("}" ++ rest) with (String "}" rest).
  rewrite members_text.
  cbn [append scan_once fst snd].
  replace (Ascii.eqb "{" quote) with false by reflexivity.
  replace (Ascii.eqb "{" "{") with true by reflexivity.
  cbn [skip_ws]. replace (is_json_ws quote) with false by reflexivity.
  replace (Ascii.eqb quote "}") with false by reflexivity.
  replace (Ascii.eqb quote quote) with true by reflexivity.
  rewrite (parse_members_dumps fuel d k v fuel rest Hread Hwf Hw Hlen).
  now rewrite dict_update_empty.
Qed.

(** Every value of the model is read back from the text written for it. *)
Lemma scan_once_dumps (v : value) : reads_back v.
Proof.
  induction v as [| b | n | s | l IH | d IH] using value_induction.
  - intros _ [|fuel] rest Hfuel _; [simpl in Hfuel; lia | reflexivity].
  - intros _ [|fuel] rest Hfuel _; [simpl in Hfuel; lia|].
    destruct b; reflexivity.
  - intros _ [|fuel] rest Hfuel Hc; [simpl in Hfuel; lia|].
    now apply scan_once_int.
  - intros _ [|fuel] rest Hfuel _; [simpl in Hfuel; lia|].
    apply scan_once_string.
  - now apply reads_back_list.
  - now apply reads_back_dict.
Qed.

Lemma length_append (a b : string) :
  String.length (a ++ b) = (String.length a + String.length b)%nat.
Proof. induction a as [|x a IH]; simpl; [reflexivity | now rewrite IH]. Qed.

Lemma length_join_dumps (l : list value) :
  Forall (fun x => (weight x <= String.length (dumps x))%nat) l ->
  (fold_right (fun x n => (weight x + n)%nat) 0%nat l
   <= String.length (join ", " (map dumps l)))%nat.
Proof.
  induction l as [|x l IH]; intros H; [simpl; lia|].
  inversion H as [|? ? Hx Hl]; subst. specialize (IH Hl).
  destruct l as [|y l].
  - simpl in *. lia.
  - cbn [map fold_right] in *. rewrite join_cons, !length_append. lia.
Qed.

Lemma length_join_members (d : dict) :
  Forall (fun kv => (weight (snd kv) <= String.length (dumps (snd kv)))%nat) d ->
  (fold_right (fun kv n => (weight (snd kv) + n)%nat) 0%nat d
   <= String.length (join ", " (map member_text d)))%nat.
Proof.
  induction d as [|x d IH]; intros H; [simpl; lia|].
  inversion H as [|? ? Hx Hl]; subst. specialize (IH Hl).
  assert (Hm : (weight (snd x) <= String.length (member_text x))%nat).
  { unfold member_text. rewrite !length_append. lia. }
  destruct d as [|y d].
  - cbn [map join String.concat fold_right] in *. lia.
  - cbn [map fold_right] in *. rewrite join_cons, !length_append. lia.
Qed.

(** The text of a value has at least as many characters as the value has
    values in it. *)
Lemma weight_le_length (v : value) :
  (weight v <= String.length (dumps v))%nat.
Proof.
  induction v as [| b | n | s | l IH | d IH] using value_induction.
  - simpl; lia.
  - destruct b; simpl; lia.
  - destruct (parse_number_str_of_Z n "" I) as (_ & c & s & Hh & _).
    cbn [dumps weight]. rewrite Hh. simpl. lia.
  - simpl. lia.
  - cbn [dumps weight]. rewrite !length_append.
    pose proof (length_join_dumps l IH). simpl. lia.
  - cbn [dumps weight].
    change (fun kv : string * value => dumps_str (fst kv) ++ ": " ++ dumps (snd kv))
      with member_text.
    rewrite !length_append.
    pose proof (length_join_members d IH). simpl. lia.
Qed.

(** [json.loads] undoes [json.dumps] on every value of the model. *)
Lemma loads_dumps (v : value) : wf_value v -> loads (dumps v) = Some v.
Proof.
  intros Hwf. unfold loads.
  rewrite <- (append_nil_r (dumps v)) at 2.
  rewrite skip_ws_dumps, append_nil_r.
  rewrite <- (append_nil_r (dumps v)) at 2.
  rewrite (scan_once_dumps v Hwf _ "" (weight_le_length v) I).
  reflexivity.
Qed.

Lemma append_inj_l (a b c : string) : a ++ b = a ++ c -> b = c.
Proof.
  induction a as [|x a IH]; simpl; intros H; [assumption|].
  injection H as H. auto.
Qed.

Lemma new_key_of_inj (prefix sep k1 k2 : string) :
  new_key_of prefix sep k1 = new_key_of prefix sep k2 -> k1 = k2.
Proof.
  unfold new_key_of. destruct (truthy (VStr prefix)); [|auto].
  intros H. now apply append_inj_l in H; apply append_inj_l in H.
Qed.

Lemma dict_lookup_update_none (k : string) (other d : dict) :
  dict_lookup k other = None ->
  dict_lookup k (dict_update d other) = dict_lookup k d.
Proof.
  unfold dict_update. revert d.
  induction other as [|[k' v'] other IH]; intros d H; [reflexivity|].
  simpl in H. destruct (String.eqb_spec k k') as [->|Hne]; [discriminate|].
  cbn [fold_left fst snd]. rewrite IH by assumption.
  now apply dict_lookup_set_other.
Qed.

(** The entries that follow leave the dotted key alone when their own keys
    differ from [key] and no mapping among them flattens to it. *)
Lemma flatten_keeps_key (prefix sep key : string) (after : dict) :
  forall items,
    ~ In key (dict_keys after) ->
    (forall k d, In (k, VDict d) after ->
       dict_lookup (new_key_of prefix sep key)
         (_flatten_record d (new_key_of prefix sep k) sep) = None) ->
    dict_lookup (new_key_of prefix sep key)
      (fold_left
         (fun items kv =>
            flatten_entry sep (snd kv) (new_key_of prefix sep (fst kv)) items)
         after items)
    = dict_lookup (new_key_of prefix sep key) items.
Proof.
  induction after as [|[k v] after IH]; intros items Hkey Hfree; [reflexivity|].
  cbn [fold_left fst snd]. rewrite IH.
  - assert (Hne : new_key_of prefix sep key <> new_key_of prefix sep k).
    { intros H. apply new_key_of_inj in H. apply Hkey. simpl. auto. }
    destruct v as [| b | n | s | l | d];
      try (apply dict_lookup_set_other; exact Hne).
    rewrite flatten_entry_dict. apply dict_lookup_update_none.
    apply Hfree. simpl. auto.
  - intros H. apply Hkey. simpl. auto.
  - intros k' d' H. apply Hfree. simpl. auto.
Qed.

(** C6, as the code has it.  In a record, take a key whose value is a list,
    and suppose that no mapping that comes later in the record flattens to
    the dotted key of that key.  Then the flattened record holds at that
    dotted key a single string, the JSON text of the whole list, and parsing
    it gives the list back.  The list puts nothing else in the flattened
    record. *)
Theorem flatten_keeps_lists (before after : dict) (key : string)
  (l : list value) (prefix sep : string) :
  let record := (before ++ (key, VList l) :: after)%list in
  let dotted := new_key_of prefix sep key in
  wf_dict record ->
  wf_value (VList l) ->
  (forall k d, In (k, VDict d) after ->
     dict_lookup dotted (_flatten_record d (new_key_of prefix sep k) sep) = None) ->
  (exists s,
     dict_lookup dotted (_flatten_record record prefix sep) = Some (VStr s)
     /\ s = dumps (VList l)
     /\ loads s = Some (VList l))
  /\ (forall items,
        flatten_entry sep (VList l) dotted items
        = dict_set dotted (VStr (dumps (VList l))) items).
Proof.
  intros record dotted Hwf Hl Hfree. split; [|reflexivity].
  exists (dumps (VList l)). split; [|split; [reflexivity | now apply loads_dumps]].
  unfold _flatten_record, record. rewrite fold_left_app. cbn [fold_left fst snd].
  unfold dotted. rewrite flatten_keeps_key.
  - cbn [flatten_entry]. apply dict_lookup_set_same.
  - unfold wf_dict, dict_keys, record in Hwf.
    rewrite map_app in Hwf. cbn [map fst] in Hwf.
    apply NoDup_remove_2 in Hwf. intros H. apply Hwf, in_or_app. auto.
  - exact Hfree.
Qed.

Lemma flatten_keeps_lists_witness :
  exists s,
    dict_lookup "lobbying_activities" (_flatten_record with_list "" ".")
    = Some (VStr s)
    /\ loads s = dict_lookup "lobbying_activities" with_list.
Proof.
  destruct (flatten_keeps_lists
              [("filing_uuid", VStr "abc")]
              [("registrant", VDict [("name", VStr "R")])]
              "lobbying_activities"
              [VDict [("description", VStr "Tax [reform], \n 2024");
                      ("government_entities", VList [VDict [("id", VInt (-1))]])]]
              "" ".") as [(s & Hs & _ & Hload) _].
  - unfold wf_dict. simpl.
    repeat (constructor; [simpl; intuition discriminate|]). constructor.
  - simpl. repeat split;
      repeat (constructor; [simpl; intuition discriminate|]); constructor.
  - intros k d [H|[]]. injection H as <- <-. reflexivity.
  - exists s. split; [exact Hs | exact Hload].
Defined.

(** C6, counterexample: the list under ["a.b"] is overwritten by the
    member [b] of the mapping under ["a"], whose dotted key is the same. *)
Lemma shadowed_list_is_lost : ~ list_survives_flatten shadowed_list.
Proof.
  intros H.
  destruct (H ltac:(simpl; repeat split;
                    repeat (constructor; [simpl; intuition discriminate|]);
                    constructor)
              "a.b" [VInt 1] eq_refl) as (s & Hs & _).
  vm_compute in Hs. discriminate Hs.
Qed.

Lemma shadowed_list_flattened :
  _flatten_record shadowed_list "" "." = [("a.b", VInt 2)].
Proof. reflexivity. Qed.

(** ** Simplify *)

Lemma attr_get_field (v : value) (k : string) (x : value) :
  attr_get v k = Ok x -> x = field_of v k.
Proof. destruct v; simpl; intros H; try discriminate H. now injection H. Qed.

Lemma por_default_field (v : value) (k : string) (x : value) :
  attr_get (if truthy v then v else VDict []) k = Ok x -> x = field_of v k.
Proof.
  destruct v as [| [|] | n | s | l | d]; simpl; try discriminate;
    try (intros H; now injection H).
  - destruct (negb (n =? 0)); simpl; [discriminate | intros H; now injection H].
  - destruct (negb (String.eqb s "")); simpl;
      [discriminate | intros H; now injection H].
  - destruct l; simpl; [intros H; now injection H | discriminate].
  - destruct d; simpl; intros H; now injection H.
Qed.

(** What a row that [_simplified_row] returns was made of. *)
Lemma simplified_row_inv (record row : dict) :
  _simplified_row record = Ok row ->
  exists activities descriptions description cid,
    py_iter (dict_get_default "lobbying_activities" (VList []) record)
    = Ok activities
    /\ _unique (gen_descriptions activities) = Ok descriptions
    /\ join_values "; " descriptions = Ok description
    /\ dict_lookup "description" row = Some (VStr description)
    /\ por (client_id_of record) (Ok (client_fallback_id_of record)) = Ok cid
    /\ dict_lookup "senate_id" row
       = Some (format_senate_id (registrant_id_of record) cid)
    /\ dict_keys row = SIMPLE_CSV_FIELDS.
Proof.
  unfold _simplified_row, por, por_r. intros H.
  set (registrant := if truthy (dict_get "registrant" record)
                     then dict_get "registrant" record else VDict []) in *.
  set (client := if truthy (dict_get "client" record)
                 then dict_get "client" record else VDict []) in *.
  assert (Hr : (if truthy (dict_get "registrant" record)
                then Ok (dict_get "registrant" record) else Ok (VDict []))
               = Ok registrant).
  { unfold registrant. destruct (truthy (dict_get "registrant" record)); reflexivity. }
  assert (Hc : (if truthy (dict_get "client" record)
                then Ok (dict_get "client" record) else Ok (VDict []))
               = Ok client).
  { unfold client. destruct (truthy (dict_get "client" record)); reflexivity. }
  rewrite Hr in H. cbn [bind] in H. rewrite Hc in H. cbn [bind] in H.
  repeat inv_bind H.
  injection H as <-.
  exists a9, a11, a22, a13.
  apply por_default_field in E12. fold (registrant_id_of record) in E12.
  unfold bind in E13. destruct (attr_get client "client_id") as [x|] eqn:Ex;
    [|discriminate E13].
  apply por_default_field in Ex. fold (client_id_of record) in Ex. subst x a12.
  repeat (split; [first [reflexivity | assumption]|]).
  split; [|split; reflexivity].
  unfold por in E13. destruct (truthy (client_id_of record)); [assumption|].
  apply por_default_field in E13. now subst a13.
Qed.

Lemma format_senate_id_truthy (rid cid : value) :
  truthy rid = true -> truthy cid = true ->
  format_senate_id rid cid = VStr (py_str rid ++ "-" ++ py_str cid).
Proof. intros H1 H2. unfold format_senate_id. now rewrite H1, H2. Qed.

Lemma format_senate_id_falsy (rid cid : value) :
  truthy rid = false \/ truthy cid = false ->
  format_senate_id rid cid = VNone.
Proof.
  intros [H|H]; unfold format_senate_id; rewrite H;
    [reflexivity | now rewrite andb_false_r].
Qed.

(** C3, as the code has it.  In every row that [_simplified_row] returns,
    with [rid] for [registrant.id], [cid] for [client.client_id] and [cid']
    for [client.id]: [senate_id] is the string [rid-cid] when [rid] and [cid]
    are truthy (there, not null, not zero, not empty); it is [rid-cid'] when
    [rid] is truthy, [cid] is falsy and [cid'] is truthy; and it is [None]
    when [rid] is falsy or both [cid] and [cid'] are, in particular when they
    are missing.  Integers are written in decimal. *)
Theorem senate_id_composition (record row : dict) :
  _simplified_row record = Ok row ->
  let rid := registrant_id_of record in
  let cid := client_id_of record in
  let cid' := client_fallback_id_of record in
  (truthy rid = true -> truthy cid = true ->
   dict_lookup "senate_id" row = Some (VStr (py_str rid ++ "-" ++ py_str cid)))
  /\ (truthy rid = true -> truthy cid = false -> truthy cid' = true ->
      dict_lookup "senate_id" row = Some (VStr (py_str rid ++ "-" ++ py_str cid')))
  /\ (truthy rid = false \/ (truthy cid = false /\ truthy cid' = false) ->
      dict_lookup "senate_id" row = Some VNone)
  /\ (rid = VNone \/ (cid = VNone /\ cid' = VNone) ->
      dict_lookup "senate_id" row = Some VNone)
  /\ (forall r c, rid = VInt r -> r <> 0 -> cid = VInt c -> c <> 0 ->
      dict_lookup "senate_id" row
      = Some (VStr (str_of_Z r ++ "-" ++ str_of_Z c)))
  /\ (forall r c, rid = VInt r -> r <> 0 -> cid = VNone -> cid' = VInt c ->
      c <> 0 ->
      dict_lookup "senate_id" row
      = Some (VStr (str_of_Z r ++ "-" ++ str_of_Z c))).
Proof.
  intros Hrow rid cid cid'.
  destruct (simplified_row_inv record row Hrow)
    as (_ & _ & _ & c0 & _ & _ & _ & _ & Hc & Hs & _).
  fold rid in Hs. fold cid cid' in Hc. unfold por in Hc.
  assert (Htruthy : truthy rid = true -> truthy cid = true ->
            dict_lookup "senate_id" row
            = Some (VStr (py_str rid ++ "-" ++ py_str cid))).
  { intros H1 H2. rewrite H2 in Hc. injection Hc as <-.
    now rewrite Hs, format_senate_id_truthy. }
  assert (Hfallback : truthy rid = true -> truthy cid = false ->
            truthy cid' = true ->
            dict_lookup "senate_id" row
            = Some (VStr (py_str rid ++ "-" ++ py_str cid'))).
  { intros H1 H2 H3. rewrite H2 in Hc. injection Hc as <-.
    now rewrite Hs, format_senate_id_truthy. }
  assert (Hfalsy : truthy rid = false \/ (truthy cid = false /\ truthy cid' = false) ->
            dict_lookup "senate_id" row = Some VNone).
  { intros H. rewrite Hs, format_senate_id_falsy; [reflexivity|].
    destruct H as [H|[H1 H2]]; [now left|right].
    rewrite H1 in Hc. now injection Hc as <-. }
  repeat (split; [assumption|]). split; [|split].
  - intros [H|[H1 H2]]; apply Hfalsy; [left; now rewrite H|right].
    now rewrite H1, H2.
  - intros r c Hr Hr0 Hcid Hc0. rewrite (Htruthy); rewrite ?Hr, ?Hcid; simpl;
      try reflexivity; apply negb_true_iff, Z.eqb_neq; assumption.
  - intros r c Hr Hr0 Hcid Hcid' Hc0.
    rewrite (Hfallback); rewrite ?Hr, ?Hcid, ?Hcid'; simpl;
      try reflexivity; apply negb_true_iff, Z.eqb_neq; assumption.
Qed.

Lemma senate_id_composition_witness :
  (exists row,
     _simplified_row (ids_record [("id", VInt 12)] [("client_id", VInt 34)])
     = Ok row
     /\ dict_lookup "senate_id" row = Some (VStr "12-34"))
  /\ (exists row,
        _simplified_row (ids_record [("id", VInt 12)] [("id", VInt 34)]) = Ok row
        /\ dict_lookup "senate_id" row = Some (VStr "12-34"))
  /\ (exists row,
        _simplified_row (ids_record [] [("client_id", VInt 34)]) = Ok row
        /\ dict_lookup "senate_id" row = Some VNone).
Proof.
  split; [|split].
  - eexists. split; [vm_compute; reflexivity|].
    apply (senate_id_composition
             (ids_record [("id", VInt 12)] [("client_id", VInt 34)]) _ eq_refl);
      reflexivity.
  - eexists. split; [vm_compute; reflexivity|].
    apply (senate_id_composition
             (ids_record [("id", VInt 12)] [("id", VInt 34)]) _ eq_refl);
      reflexivity.
  - eexists. split; [vm_compute; reflexivity|].
    apply (senate_id_composition
             (ids_record [] [("client_id", VInt 34)]) _ eq_refl).
    left. reflexivity.
Defined.

(** C3, counterexample: [client.client_id] is there and is 0, so the code
    falls back on [client.id] and writes ["12-34"], not ["12-0"]. *)
Lemma zero_client_id_falls_back :
  ~ senate_id_from_present_ids
      (ids_record [("id", VInt 12)] [("client_id", VInt 0); ("id", VInt 34)]).
Proof.
  intros H.
  destruct (H _ eq_refl) as [H1 _].
  assert (Hp : forall n : Z, present (VInt n)) by (intros n; discriminate).
  specialize (H1 (Hp 12) (Hp 0)).
  vm_compute in H1. discriminate H1.
Qed.

Lemma zero_client_id_row :
  exists row,
    _simplified_row
      (ids_record [("id", VInt 12)] [("client_id", VInt 0); ("id", VInt 34)])
    = Ok row
    /\ dict_lookup "senate_id" row = Some (VStr "12-34").
Proof. eexists. split; [vm_compute; reflexivity | reflexivity]. Qed.

(** C5, as the code has it.  For the scenario record the row has the 15
    columns, in order; [registrant_name] is ["R"], [client_name] is ["C"],
    [filing_information] is ["2024"], [income] is 1000 and [filing_uuid] is
    ["abc"]; the address, the description and the government entities are the
    empty string; the seven other columns are [None], which the CSV writer
    writes as an empty cell. *)
Theorem scenario_row :
  exists row,
    _simplified_row scenario_record = Ok row
    /\ dict_keys row = SIMPLE_CSV_FIELDS
    /\ dict_lookup "registrant_name" row = Some (VStr "R")
    /\ dict_lookup "client_name" row = Some (VStr "C")
    /\ dict_lookup "filing_information" row = Some (VStr "2024")
    /\ dict_lookup "income" row = Some (VInt 1000)
    /\ dict_lookup "filing_uuid" row = Some (VStr "abc")
    /\ (forall column,
          In column ["registrant_address"; "description"; "government_entities"] ->
          dict_lookup column row = Some (VStr ""))
    /\ (forall column,
          In column ["registrant_contact"; "registrant_phone"; "senate_id";
                     "expenses"; "expenses_method"; "dt_posted";
                     "filing_document_url"] ->
          dict_lookup column row = Some VNone)
    /\ (exists cells,
          _dict_to_list simple_writer row = Ok cells
          /\ map csv_cell cells
             = ["R"; ""; ""; ""; ""; "C"; "2024"; "1000"; ""; ""; ""; ""; "";
                "abc"; ""]).
Proof.
  eexists. split; [vm_compute; reflexivity|].
  repeat (split; [reflexivity|]). split; [|split].
  - intros column H. simpl in H.
    repeat (destruct H as [<-|H]; [reflexivity|]). contradiction.
  - intros column H. simpl in H.
    repeat (destruct H as [<-|H]; [reflexivity|]). contradiction.
  - eexists. split; [vm_compute; reflexivity | reflexivity].
Qed.

(** C5, counterexample: [registrant_contact] is a column the record does
    not set, and the row holds [None] there, not the empty string. *)
Lemma unset_column_is_none :
  ~ unset_columns_are_empty_strings scenario_record.
Proof.
  intros (row & Hrow & Hcols).
  vm_compute in Hrow. injection Hrow as <-.
  specialize (Hcols "registrant_contact").
  assert (H : Some VNone = Some (VStr "")).
  { apply Hcols.
    - simpl. auto.
    - simpl. intuition discriminate. }
  discriminate H.
Qed.

Lemma unique_loop_stop (values : list value) (stop : option exn)
  (seen ordered result : list value) :
  unique_loop values stop seen ordered = Ok result -> stop = None.
Proof.
  revert seen ordered. induction values as [|v values IH]; intros seen ordered.
  - simpl. destruct stop; [discriminate | reflexivity].
  - cbn [unique_loop].
    destruct (negb (truthy v)); [apply IH|].
    destruct (negb (hashable v)); [discriminate|].
    destruct (set_mem v seen); apply IH.
Qed.

Lemma gen_descriptions_all (activities : list value) :
  snd (gen_descriptions activities) = None ->
  fst (gen_descriptions activities)
  = map (fun activity => VStr (_normalize_text (field_of activity "description")))
      activities.
Proof.
  induction activities as [|a activities IH]; [reflexivity|].
  cbn [gen_descriptions map].
  destruct (attr_get a "description") as [d|e] eqn:E; [|discriminate].
  apply attr_get_field in E. subst d.
  destruct (gen_descriptions activities) as [ys stop].
  cbn [fst snd] in *. intros H. now rewrite IH.
Qed.

Lemma set_mem_strings (x : string) (seen : list string) :
  set_mem (VStr x) (map VStr seen) = existsb (String.eqb x) seen.
Proof.
  unfold set_mem. induction seen as [|y seen IH]; [reflexivity|].
  cbn [map existsb py_eqb]. now rewrite IH.
Qed.

Lemma filter_filter {A : Type} (p q : A -> bool) (l : list A) :
  filter p (filter q l) = filter (fun x => q x && p x) l.
Proof.
  induction l as [|x l IH]; [reflexivity|]. simpl.
  destruct (q x); simpl; [destruct (p x)|]; now rewrite IH.
Qed.

(** The loop of [_unique] with its set of seen values computes the first
    occurrences of the non-empty strings it is given. *)
Lemma unique_loop_strings (ss : list string) :
  forall (seen : list string) (ordered : list value),
    unique_loop (map VStr ss) None (map VStr seen) ordered
    = Ok (ordered
          ++ map VStr
               (filter (fun x => negb (existsb (String.eqb x) seen))
                  (first_occurrences (filter is_nonempty ss))))%list.
Proof.
  induction ss as [|x ss IH]; intros seen ordered.
  - simpl. now rewrite app_nil_r.
  - cbn [map unique_loop truthy hashable negb filter].
    unfold is_nonempty at 1.
    destruct (negb (String.eqb x "")) eqn:Ex; cbn [negb].
    + rewrite set_mem_strings. cbn [first_occurrences filter].
      destruct (existsb (String.eqb x) seen) eqn:Es; cbn [negb].
      * rewrite IH. do 3 apply f_equal. rewrite filter_filter.
        apply filter_ext. intros y.
        destruct (String.eqb_spec x y) as [<-|Hne]; [|reflexivity].
        now rewrite Es.
      * change (VStr x :: map VStr seen) with (map VStr (x :: seen)).
        rewrite IH, <- app_assoc. cbn [app map]. do 4 apply f_equal.
        rewrite filter_filter. apply filter_ext. intros y.
        cbn [existsb]. rewrite (String.eqb_sym y x).
        now destruct (String.eqb x y).
    + apply IH.
Qed.

Lemma filter_all {A : Type} (l : list A) : filter (fun _ => true) l = l.
Proof. induction l as [|x l IH]; simpl; [reflexivity | now rewrite IH]. Qed.

Lemma unique_strings (ss : list string) :
  _unique (map VStr ss, None)
  = Ok (map VStr (first_occurrences (filter is_nonempty ss))).
Proof.
  unfold _unique. cbn [fst snd].
  change (@nil value) with (map VStr []) at 1.
  rewrite (unique_loop_strings ss [] []). cbn [app existsb negb].
  now rewrite filter_all.
Qed.

Lemma join_values_strings (sep : string) (ss : list string) :
  join_values sep (map VStr ss) = Ok (join sep ss).
Proof.
  unfold join_values.
  assert (H : strs_of (map VStr ss) = Ok ss).
  { induction ss as [|s ss IH]; [reflexivity|]. cbn [map strs_of].
    now rewrite IH. }
  now rewrite H.
Qed.

(** C7.  In every row that [_simplified_row] returns, [description] is the
    ["; "]-joined list of the whitespace-normalized descriptions of the
    lobbying activities, the empty ones left out and each kept once, at its
    first place.  For the descriptions ["A"], ["A"], ["B"], [""] it is
    ["A; B"]. *)
Theorem description_is_deduplicated :
  (forall record row,
     _simplified_row record = Ok row ->
     dict_lookup "description" row = Some (VStr (description_spec record)))
  /\ (exists row,
        _simplified_row repeated_descriptions = Ok row
        /\ dict_lookup "description" row = Some (VStr "A; B")).
Proof.
  split.
  - intros record row Hrow.
    destruct (simplified_row_inv record row Hrow)
      as (activities & descriptions & description & _ & Ha & Hu & Hj & Hd & _).
    rewrite Hd. do 2 f_equal.
    unfold description_spec, activities_of. rewrite Ha.
    pose proof Hu as Hstop. unfold _unique in Hstop.
    apply unique_loop_stop in Hstop.
    pose proof (gen_descriptions_all activities Hstop) as Hall.
    destruct (gen_descriptions activities) as [values stop].
    cbn [fst snd] in *. subst stop values.
    rewrite <- (map_map (fun activity => _normalize_text (field_of activity "description"))
                  VStr) in Hu.
    rewrite unique_strings in Hu. injection Hu as <-.
    rewrite join_values_strings in Hj. now injection Hj.
  - eexists. split; [vm_compute; reflexivity | reflexivity].
Qed.

Lemma description_is_deduplicated_witness :
  exists row,
    _simplified_row
      [("lobbying_activities",
        VList [activity (VStr " Tax   reform "); activity VNone;
               activity (VStr "Tax reform"); activity (VStr "Trade")])]
    = Ok row
    /\ dict_lookup "description" row = Some (VStr "Tax reform; Trade").
Proof.
  eexists. split; [vm_compute; reflexivity|].
  apply (proj1 description_is_deduplicated
           [("lobbying_activities",
             VList [activity (VStr " Tax   reform "); activity VNone;
                    activity (VStr "Tax reform"); activity (VStr "Trade")])]
           _ eq_refl).
Defined.

(** ** Exporters *)

Lemma dict_has_in (k : string) (d : dict) :
  dict_has k d = true <-> In k (dict_keys d).
Proof.
  unfold dict_has. pose proof (dict_lookup_none k d) as H.
  destruct (dict_lookup k d).
  - split; [intros _ | reflexivity].
    destruct (in_dec string_dec k (dict_keys d)) as [Hin|Hn]; [assumption|].
    apply H in Hn. discriminate Hn.
  - split; [discriminate|]. intros Hin. exfalso. now apply H.
Qed.

Lemma existsb_eqb_in (k : string) (names : list string) :
  existsb (String.eqb k) names = true <-> In k names.
Proof.
  rewrite existsb_exists. split.
  - intros (x & Hin & Heq). apply String.eqb_eq in Heq. now subst.
  - intros Hin. exists k. split; [assumption | apply String.eqb_refl].
Qed.

Lemma wrong_fields_within (self : DictWriter) (row : dict) :
  within (fieldnames self) row -> wrong_fields self row = [].
Proof.
  unfold wrong_fields, within. induction (dict_keys row) as [|k keys IH];
    intros H; [reflexivity|].
  cbn [filter].
  replace (existsb (String.eqb k) (fieldnames self)) with true
    by (symmetry; apply existsb_eqb_in, H; simpl; auto).
  cbn [negb]. apply IH. intros k' Hk'. apply H. simpl. auto.
Qed.

Lemma wrong_fields_extra (self : DictWriter) (row : dict) (k : string) :
  In k (dict_keys row) -> ~ In k (fieldnames self) ->
  wrong_fields self row <> [].
Proof.
  intros Hin Hout Hnil.
  assert (Hk : In k (wrong_fields self row)).
  { unfold wrong_fields. apply filter_In. split; [assumption|].
    destruct (existsb (String.eqb k) (fieldnames self)) eqn:E; [|reflexivity].
    apply existsb_eqb_in in E. contradiction. }
  rewrite Hnil in Hk. contradiction.
Qed.

Lemma writerow_within (names : list string) (action : extras_action)
  (row : dict) :
  within names row ->
  writerow {| fieldnames := names; restval := VStr ""; extrasaction := action |}
    row
  = Ok (row_line names row).
Proof.
  intros H. unfold writerow, _dict_to_list.
  rewrite wrong_fields_within by exact H. cbn [extrasaction fieldnames restval].
  destruct action; reflexivity.
Qed.

Lemma header_lookup (names : list string) (k : string) :
  forall d,
    dict_lookup k (dict_update d (map (fun k => (k, VStr k)) names))
    = if existsb (String.eqb k) names then Some (VStr k) else dict_lookup k d.
Proof.
  unfold dict_update.
  induction names as [|k0 names IH]; intros d; [reflexivity|].
  cbn [map fold_left fst snd existsb]. rewrite IH.
  destruct (existsb (String.eqb k) names); [now rewrite orb_true_r|].
  rewrite orb_false_r.
  destruct (String.eqb_spec k k0) as [->|Hne].
  - apply dict_lookup_set_same.
  - now apply dict_lookup_set_other.
Qed.

Lemma header_within (names : list string) :
  within names (dict_update [] (map (fun k => (k, VStr k)) names)).
Proof.
  intros k Hin. apply dict_has_in in Hin. unfold dict_has in Hin.
  rewrite header_lookup in Hin.
  destruct (existsb (String.eqb k) names) eqn:E; [|discriminate Hin].
  now apply existsb_eqb_in.
Qed.

(** The header line is the list of columns, as given. *)
Lemma writeheader_names (names : list string) (action : extras_action) :
  writeheader {| fieldnames := names; restval := VStr ""; extrasaction := action |}
  = Ok (csv_line (map VStr names)).
Proof.
  unfold writeheader. cbn [fieldnames].
  rewrite writerow_within by apply header_within.
  unfold row_line. do 2 f_equal. apply map_ext_in. intros k Hin.
  unfold dict_get_default. rewrite header_lookup.
  now replace (existsb (String.eqb k) names) with true
    by (symmetry; now apply existsb_eqb_in).
Qed.

Lemma write_rows_within (names : list string) (action : extras_action)
  (rows : list dict) :
  forall written,
    Forall (within names) rows ->
    write_rows {| fieldnames := names; restval := VStr ""; extrasaction := action |}
      rows written
    = (Ok tt,
       written ++ fold_right (fun row text => row_line names row ++ text) "" rows).
Proof.
  induction rows as [|row rows IH]; intros written H.
  - simpl. now rewrite append_nil_r.
  - inversion H as [|? ? Hrow Hrows]; subst. cbn [write_rows fold_right].
    rewrite writerow_within by assumption. rewrite IH by assumption.
    now rewrite append_assoc.
Qed.

(** With explicit columns and no key outside them, [_write_csv] writes the
    header as given and one line per row, a missing key giving an empty
    cell. *)
Lemma write_csv_within (path : string) (rows : list dict)
  (names : list string) (fs : FileSystem) :
  Forall (within names) rows ->
  _write_csv path rows (Some names) fs
  = (Ok tt, (path, table_text names rows) :: fs).
Proof.
  intros H. unfold _write_csv, write_table. cbn [resolve_fields].
  rewrite writeheader_names, write_rows_within by assumption. reflexivity.
Qed.

Lemma write_rows_extra_key (names : list string) (rows : list dict) :
  forall written,
    Exists (fun row => ~ within names row) rows ->
    exists msg text,
      write_rows {| fieldnames := names; restval := VStr "";
                    extrasaction := ExtrasRaise |} rows written
      = (Raise (ValueError msg), text).
Proof.
  induction rows as [|row rows IH]; intros written H; [inversion H|].
  cbn [write_rows]. unfold writerow, _dict_to_list.
  cbn [extrasaction].
  destruct (wrong_fields _ row) as [|k ks] eqn:E.
  - cbn [bind]. apply IH. inversion H as [? ? Hrow|]; subst; [|assumption].
    exfalso. apply Hrow. intros k Hin.
    destruct (in_dec string_dec k names) as [|Hout]; [assumption|].
    exfalso.
    now apply (wrong_fields_extra
                 {| fieldnames := names; restval := VStr "";
                    extrasaction := ExtrasRaise |} row k).
  - cbn [bind]. eauto.
Qed.

(** With explicit columns, a key outside them makes [_write_csv] raise
    [ValueError]; the file is left with what was written before. *)
Lemma write_csv_extra_key_raises (path : string) (rows : list dict)
  (names : list string) (fs : FileSystem) :
  Exists (fun row => ~ within names row) rows ->
  exists msg text,
    _write_csv path rows (Some names) fs
    = (Raise (ValueError msg), (path, text) :: fs).
Proof.
  intros H. unfold _write_csv, write_table. cbn [resolve_fields].
  rewrite writeheader_names.
  destruct (write_rows_extra_key names rows (csv_line (map VStr names)) H)
    as (msg & text & Hw).
  rewrite Hw. eauto.
Qed.

(** [build_csv], the same export in [streamlit_app.py], leaves out the keys
    outside the columns. *)
Lemma build_csv_ignores_extras (rows : list dict) (names : list string) :
  build_csv rows (Some names) = Ok (table_text names rows).
Proof.
  unfold build_csv, write_table. cbn [resolve_fields].
  rewrite writeheader_names.
  assert (H : forall written,
             write_rows {| fieldnames := names; restval := VStr "";
                           extrasaction := ExtrasIgnore |} rows written
             = (Ok tt,
                written
                ++ fold_right (fun row text => row_line names row ++ text) "" rows)).
  { induction rows as [|row rows IH]; intros written.
    - simpl. now rewrite append_nil_r.
    - cbn [write_rows fold_right]. unfold writerow, _dict_to_list.
      cbn [extrasaction bind fieldnames restval]. fold (row_line names row).
      rewrite IH. now rewrite append_assoc. }
  now rewrite H.
Qed.

(** C4 at the row [{"a": "1", "b": "2"}] with the columns [["a"]]:
    [_write_csv] writes the header and raises [ValueError] on the row, where
    the claim has the key [b] left out; [build_csv] writes the row without
    it. *)
Theorem write_csv_raises_on_extra_key :
  _write_csv "out.csv" [row_with_extra_key] (Some ["a"]) []
  = (Raise (ValueError "dict contains fields not in fieldnames: 'b'"),
     [("out.csv", "a" ++ CRLF)])
  /\ build_csv [row_with_extra_key] (Some ["a"])
     = Ok ("a" ++ CRLF ++ "1" ++ CRLF).
Proof. split; reflexivity. Qed.

(** ** Records [_simplified_row] refuses *)

(** A null [lobbying_activities] is not iterable: the default of
    [record.get] only covers the missing key. *)
Lemma simplified_row_null_activities :
  _simplified_row [("lobbying_activities", VNone)] = Raise TypeError.
Proof. reflexivity. Qed.

(** A registrant that is not a mapping has no [get]. *)
Lemma simplified_row_registrant_not_a_mapping :
  _simplified_row [("registrant", VStr "ACME")] = Raise AttributeError.
Proof. reflexivity. Qed.

(** * Further properties *)

(** ** Client construction and request URLs *)

Lemma drop_while_head (p : ascii -> bool) (l : list ascii) :
  match drop_while p l with
  | c :: _ => p c = false
  | [] => True
  end.
Proof.
  induction l as [|c l IH]; simpl; [exact I|].
  destruct (p c) eqn:E; [exact IH | exact E].
Qed.

Lemma lstrip_first_char (p : ascii -> bool) (s : string) (c : ascii) :
  first_char (lstrip_by p s) = Some c -> p c = false.
Proof.
  unfold lstrip_by. pose proof (drop_while_head p (list_ascii_of_string s)) as H.
  destruct (drop_while p (list_ascii_of_string s)) as [|c' l]; simpl;
    [discriminate|].
  intros E. injection E as <-. exact H.
Qed.

Lemma rstrip_last_char (p : ascii -> bool) (s : string) (c : ascii) :
  last_char (rstrip_by p s) = Some c -> p c = false.
Proof.
  unfold rstrip_by, last_char.
  rewrite list_ascii_of_string_of_list_ascii, rev_involutive.
  pose proof (drop_while_head p (rev (list_ascii_of_string s))) as H.
  destruct (drop_while p (rev (list_ascii_of_string s))) as [|c' l];
    [discriminate|].
  intros E. injection E as <-. exact H.
Qed.

Lemma drop_while_idem (p : ascii -> bool) (l : list ascii) :
  drop_while p (drop_while p l) = drop_while p l.
Proof.
  induction l as [|c l IH]; simpl; [reflexivity|].
  destruct (p c) eqn:E; [exact IH|]. simpl. now rewrite E.
Qed.

Lemma lstrip_slash_once (path : string) :
  lstrip_by is_slash (String "/" path) = lstrip_by is_slash path.
Proof. reflexivity. Qed.

(** X1.  A client is built exactly when the token is not empty.  Its
    requests go to the base URL without its trailing slashes, one slash,
    and the path without its leading slashes: the two pieces never meet in a
    double slash, and a leading slash of the path changes nothing. *)
Theorem client_urls (token base : string) (seconds : Z) :
  new_client "" base seconds = Raise (ValueError "API token is required.")
  /\ (token <> "" ->
      exists self,
        new_client token base seconds = Ok self
        /\ timeout self = seconds
        /\ (forall c, last_char (base_url self) = Some c -> c <> "/"%char)
        /\ forall path,
             request_url self path
             = rstrip_by is_slash base ++ "/" ++ lstrip_by is_slash path
             /\ (forall c, first_char (lstrip_by is_slash path) = Some c ->
                 c <> "/"%char)
             /\ request_url self (String "/" path) = request_url self path).
Proof.
  split; [reflexivity|]. intros Ht.
  unfold new_client. apply String.eqb_neq in Ht. rewrite Ht.
  eexists. split; [reflexivity|]. split; [reflexivity|]. split.
  - cbn [base_url]. intros c Hc E. subst c.
    apply rstrip_last_char in Hc. discriminate Hc.
  - intros path. split; [reflexivity|]. split; [|reflexivity].
    intros c Hc E. subst c. apply lstrip_first_char in Hc. discriminate Hc.
Qed.

Lemma client_urls_witness :
  exists self,
    new_client "t" "https://lda.senate.gov/api/v1//" 60 = Ok self
    /\ request_url self "//filings/" = "https://lda.senate.gov/api/v1/filings/".
Proof.
  destruct (client_urls "t" "https://lda.senate.gov/api/v1//" 60) as [_ H].
  destruct H as (self & Hnew & _ & _ & Hurl); [discriminate|].
  exists self. split; [exact Hnew|].
  destruct (Hurl "//filings/") as [-> _]. reflexivity.
Defined.

(** ** Entity search *)


(** ** The filter set *)

Lemma dict_lookup_update (k : string) (other d : dict) :
  wf_dict other ->
  dict_lookup k (dict_update d other)
  = match dict_lookup k other with
    | Some v => Some v
    | None => dict_lookup k d
    end.
Proof.
  unfold dict_update, wf_dict. revert d.
  induction other as [|[k' v'] other IH]; intros d Hwf; [reflexivity|].
  cbn [fold_left fst snd dict_lookup]. simpl in Hwf.
  inversion Hwf as [|? ? Hnotin Hwf']; subst.
  rewrite IH by assumption.
  destruct (String.eqb_spec k k') as [->|Hne].
  - apply dict_lookup_none in Hnotin. rewrite Hnotin.
    apply dict_lookup_set_same.
  - now rewrite dict_lookup_set_other.
Qed.

Lemma dict_keys_set (k : string) (v : value) (d : dict) :
  dict_keys (dict_set k v d)
  = if dict_has k d then dict_keys d else (dict_keys d ++ [k])%list.
Proof.
  unfold dict_has. induction d as [|[k' v'] d IH]; [reflexivity|].
  cbn [dict_set dict_lookup].
  destruct (String.eqb k k'); [reflexivity|].
  change (dict_keys ((k', v') :: dict_set k v d))
    with (k' :: dict_keys (dict_set k v d)).
  rewrite IH. now destruct (dict_lookup k d).
Qed.

Lemma dict_set_wf (k : string) (v : value) (d : dict) :
  wf_dict d -> wf_dict (dict_set k v d).
Proof.
  unfold wf_dict. intros H. rewrite dict_keys_set.
  destruct (dict_has k d) eqn:E; [assumption|].
  apply NoDup_app; [assumption | repeat constructor; auto |].
  intros x Hx [<-|[]]. apply dict_has_in in Hx. congruence.
Qed.

Lemma dict_update_wf (other d : dict) :
  wf_dict d -> wf_dict (dict_update d other).
Proof.
  unfold dict_update. revert d.
  induction other as [|[k v] other IH]; intros d H; [assumption|].
  cbn [fold_left fst snd]. apply IH. now apply dict_set_wf.
Qed.

Lemma lookup_set_if_not_none (k key : string) (v : option Z) (d : dict) :
  dict_lookup k (set_if_not_none key v d)
  = match v with
    | Some n => if String.eqb k key then Some (VInt n) else dict_lookup k d
    | None => dict_lookup k d
    end.
Proof.
  destruct v as [n|]; [|reflexivity]. cbn [set_if_not_none].
  destruct (String.eqb_spec k key) as [->|Hne].
  - apply dict_lookup_set_same.
  - now apply dict_lookup_set_other.
Qed.

Lemma lookup_set_if_truthy (k key : string) (v : option string) (d : dict) :
  dict_lookup k (set_if_truthy key v d)
  = match or_none v with
    | Some s => if String.eqb k key then Some (VStr s) else dict_lookup k d
    | None => dict_lookup k d
    end.
Proof.
  destruct v as [s|]; [|reflexivity]. cbn [set_if_truthy or_none].
  destruct (truthy (VStr s)); [|reflexivity].
  destruct (String.eqb_spec k key) as [->|Hne].
  - apply dict_lookup_set_same.
  - now apply dict_lookup_set_other.
Qed.

Lemma build_filters_wf (q : Filters) (page page_size : Z) :
  wf_dict (build_filters q page page_size).
Proof.
  unfold build_filters, update_if_truthy, set_if_truthy, set_if_not_none.
  assert (H0 : wf_dict [("page", VInt page); ("page_size", VInt page_size)]).
  { unfold wf_dict. simpl.
    repeat (constructor; [simpl; intuition discriminate|]). constructor. }
  repeat match goal with
         | |- wf_dict (match ?x with _ => _ end) => destruct x
         | |- wf_dict (dict_update _ _) => apply dict_update_wf
         | |- wf_dict (dict_set _ _ _) => apply dict_set_wf
         | |- wf_dict (if ?b then _ else _) => destruct b
         end; exact H0.
Qed.

(** X3.  A key of [additional_filters] wins: whatever the named parameters
    say, the request carries the caller's value for it.  This holds for
    [page] too, which the pager's own page number then no longer reaches. *)
Theorem extra_filters_win (q : Filters) (page page_size : Z) (other : dict)
  (key : string) (v : value) :
  additional_filters q = Some other ->
  wf_dict other ->
  dict_lookup key other = Some v ->
  dict_lookup key (build_filters q page page_size) = Some v.
Proof.
  intros Ho Hwf Hk. unfold build_filters. rewrite Ho.
  unfold update_if_truthy.
  destruct other as [|kv other]; [discriminate Hk|]. cbn [truthy].
  rewrite dict_lookup_update by assumption. now rewrite Hk.
Qed.

Lemma extra_filters_win_witness :
  dict_lookup "page"
    (build_filters
       {| client_id := Some 7; client_name := None; lobbyist_id := None;
          lobbyist_name := None;
          additional_filters := Some [("page", VInt 9); ("client_id", VInt 8)] |}
       4 25)
  = Some (VInt 9).
Proof.
  apply (extra_filters_win _ 4 25 [("page", VInt 9); ("client_id", VInt 8)]).
  - reflexivity.
  - unfold wf_dict. simpl.
    repeat (constructor; [simpl; intuition discriminate|]). constructor.
  - reflexivity.
Defined.

(** X4.  The filter set never holds a key twice.  For a key that
    [additional_filters] does not mention it holds what the named
    parameters say: the page and the page size always, an id when one is
    given (0 included), a name when one is given and is not empty, and
    nothing for any other key. *)
Theorem named_filters_reach_the_request (q : Filters) (page page_size : Z) :
  wf_dict (build_filters q page page_size)
  /\ forall key,
       extras_lack q key ->
       dict_lookup key (build_filters q page page_size)
       = named_filter q page page_size key.
Proof.
  split; [apply build_filters_wf|].
  intros key Hlack. unfold build_filters.
  assert (Hup : forall d, dict_lookup key (update_if_truthy (additional_filters q) d)
                          = dict_lookup key d).
  { intros d. unfold extras_lack in Hlack. unfold update_if_truthy.
    destruct (additional_filters q) as [other|]; [|reflexivity].
    destruct (truthy (VDict other)); [|reflexivity].
    now apply dict_lookup_update_none. }
  rewrite Hup, lookup_set_if_truthy, lookup_set_if_not_none,
    lookup_set_if_truthy, lookup_set_if_not_none.
  unfold named_filter. cbn [dict_lookup].
  destruct (String.eqb_spec key "page") as [->|H1]; cbn;
    [destruct (or_none (lobbyist_name q)), (lobbyist_id q),
       (or_none (client_name q)), (client_id q); reflexivity|].
  destruct (String.eqb_spec key "page_size") as [->|H2]; cbn;
    [destruct (or_none (lobbyist_name q)), (lobbyist_id q),
       (or_none (client_name q)), (client_id q); reflexivity|].
  destruct (String.eqb_spec key "client_id") as [->|H3]; cbn;
    [destruct (or_none (lobbyist_name q)), (lobbyist_id q),
       (or_none (client_name q)), (client_id q); reflexivity|].
  destruct (String.eqb_spec key "client_name") as [->|H4]; cbn;
    [destruct (or_none (lobbyist_name q)), (lobbyist_id q),
       (or_none (client_name q)), (client_id q); reflexivity|].
  destruct (String.eqb_spec key "lobbyist_id") as [->|H5]; cbn;
    [destruct (or_none (lobbyist_name q)), (lobbyist_id q),
       (or_none (client_name q)), (client_id q); reflexivity|].
  destruct (String.eqb_spec key "lobbyist_name") as [->|H6]; cbn;
    [destruct (or_none (lobbyist_name q)), (lobbyist_id q),
       (or_none (client_name q)), (client_id q); reflexivity|].
  apply String.eqb_neq in H1, H2, H3, H4, H5, H6.
  destruct (or_none (lobbyist_name q)), (lobbyist_id q),
    (or_none (client_name q)), (client_id q);
    rewrite ?H1, ?H2, ?H3, ?H4, ?H5, ?H6; reflexivity.
Qed.

Lemma named_filters_reach_the_request_witness :
  dict_lookup "client_id"
    (build_filters
       {| client_id := Some 0; client_name := Some ""; lobbyist_id := None;
          lobbyist_name := None;
          additional_filters := Some [("filing_year", VInt 2024)] |} 3 25)
  = Some (VInt 0)
  /\ dict_lookup "client_name"
       (build_filters
          {| client_id := Some 0; client_name := Some ""; lobbyist_id := None;
             lobbyist_name := None;
             additional_filters := Some [("filing_year", VInt 2024)] |} 3 25)
     = None.
Proof.
  destruct (named_filters_reach_the_request
              {| client_id := Some 0; client_name := Some ""; lobbyist_id := None;
                 lobbyist_name := None;
                 additional_filters := Some [("filing_year", VInt 2024)] |} 3 25)
    as [_ H].
  split; rewrite H; reflexivity.
Defined.

(** ** The pager: failures, pacing, endless cursors *)

Lemma list_filings_gate_open (self : LDAClient) (q : Filters)
  (page page_size : Z) (w : World) :
  names_filter q = true \/ page <= 1 ->
  list_filings self q page page_size w
  = _request self "filings/" (Some (build_filters q page page_size)) w.
Proof.
  intros Hg. unfold list_filings. rewrite has_filter_names.
  destruct Hg as [-> | Hp]; [now rewrite andb_false_r|].
  replace (page >? 1) with false; [reflexivity|].
  symmetry. rewrite Z.gtb_ltb. apply Z.ltb_ge. lia.
Qed.


Lemma pages_loop_fails (self : LDAClient) (q : Filters)
  (page_size pause_seconds : Z) (m : option Z) (o : outcome) (e : exn)
  (pages : list value) :
  forall (fuel : nat) (acc : list value) (first : option value) (page : Z)
         (w : World),
    keeps_going m page pages ->
    serves w pages ->
    net w (length (gets w) + length pages) = o ->
    o <> TimedOut ->
    settle self "filings/" o = Raise e ->
    names_filter q = true \/ (page <= 1 /\ pages = []) ->
    (length pages < fuel)%nat ->
    exists w',
      pages_loop fuel self q page_size pause_seconds m acc first page w
      = Some (Raise e, w')
      /\ requests w'
         = (requests w ++ page_requests q page_size page (S (length pages)))%list.
Proof.
  induction pages as [|p rest IH];
    intros fuel acc first page w Hgo Hserves Hnet Hnot Hsettle Hgate Hfuel;
    (destruct fuel as [|fuel]; [simpl in Hfuel; lia|]); cbn [pages_loop].
  - rewrite list_filings_gate_open by (destruct Hgate as [?|[? _]]; auto).
    destruct (request_unfold self "filings/"
                (Some (build_filters q page page_size)) w) as (w' & Hr & Ha).
    simpl in Hnet. rewrite Nat.add_0_r in Hnet. rewrite Hnet in Hr, Ha.
    assert (Hr' : _request self "filings/" (Some (build_filters q page page_size)) w
                  = Some (Raise e, w')).
    { rewrite Hr, <- Hsettle. destruct o; congruence. }
    rewrite Hr'. exists w'. split; [reflexivity|].
    apply (request_logged _ _ _ _ _ _ Hr').
  - destruct Hgo as (Hp & Hnext & Hcap & Hgo).
    destruct (Hserves 0%nat p eq_refl) as (r & Hr & He & Hj).
    rewrite Nat.add_0_r in Hr.
    assert (Hnames : names_filter q = true).
    { destruct Hgate as [?|[_ ?]]; [assumption | discriminate]. }
    destruct (list_filings_ok self q page page_size w r p)
      as (w1 & Hl & Ha); auto.
    rewrite Hl, (take_page_ok p acc Hp), Hcap, Hnext. cbn [negb].
    destruct Ha as (Hn1 & Hg1 & Hs1 & Hq1).
    destruct (requests_pause pause_seconds w1) as [Hqp Hgp].
    destruct (IH fuel (acc ++ results_of p)%list
                (Some match first with Some f => f | None => p end)
                (page + 1) (pause pause_seconds w1))
      as (w' & Hloop & Hq); auto.
    + eapply serves_next; [exact Hserves|]. repeat split; eassumption.
    + assert (Hnp : net (pause pause_seconds w1) = net w1).
      { unfold pause. destruct (pause_seconds >? 0); reflexivity. }
      rewrite Hnp, Hgp, Hn1, Hg1, length_app. simpl.
      rewrite <- Hnet. f_equal. simpl. lia.
    + simpl in Hfuel. lia.
    + exists w'. split; [exact Hloop|].
      rewrite Hq, Hqp, Hq1, <- app_assoc. reflexivity.
Qed.

(** X5.  A failure on a later page discards the pages before it.  When the
    pager goes past the pages [p1 .. pK] (each with [next] set, none at the
    cap) and the GET of the next page fails, with an exception of the
    network, an error status or a body that is not JSON, [list_all_filings]
    raises that error after [K + 1] requests: no aggregate of the pages
    already fetched is returned. *)
Theorem failure_discards_pages (self : LDAClient) (q : Filters)
  (page_size pause_seconds : Z) (max_pages : option Z) (pages : list value)
  (o : outcome) (e : exn) (w : World) (fuel : nat) :
  keeps_going max_pages 1 pages ->
  serves w pages ->
  net w (length (gets w) + length pages) = o ->
  o <> TimedOut ->
  settle self "filings/" o = Raise e ->
  names_filter q = true \/ pages = [] ->
  (length pages < fuel)%nat ->
  exists w',
    list_all_filings fuel self q page_size pause_seconds max_pages w
    = Some (Raise e, w')
    /\ requests w'
       = (requests w ++ page_requests q page_size 1 (S (length pages)))%list.
Proof.
  intros Hgo Hserves Hnet Hnot Hsettle Hgate Hfuel.
  unfold list_all_filings.
  apply (pages_loop_fails self q page_size pause_seconds max_pages o e pages);
    auto.
  destruct Hgate; [left | right]; auto. split; [lia | assumption].
Qed.

Lemma failure_discards_pages_witness :
  exists w',
    list_all_filings 5 test_client (by_client 7) 25 0 None
      (script [Responded (ok_response
                 (page_of (VStr "https://lda.senate.gov/api/v1/filings/?page=2")
                    [filing "a"]));
               Responded (ok_response
                 (page_of (VStr "https://lda.senate.gov/api/v1/filings/?page=3")
                    [filing "b"]));
               Responded bad_request])
    = Some (Raise (RuntimeError "Request failed: 400 bad page"), w')
    /\ length (requests w') = 3%nat.
Proof.
  destruct (failure_discards_pages test_client (by_client 7) 25 0 None
              [page_of (VStr "https://lda.senate.gov/api/v1/filings/?page=2")
                 [filing "a"];
               page_of (VStr "https://lda.senate.gov/api/v1/filings/?page=3")
                 [filing "b"]]
              (Responded bad_request)
              (RuntimeError "Request failed: 400 bad page")
              (script [Responded (ok_response
                 (page_of (VStr "https://lda.senate.gov/api/v1/filings/?page=2")
                    [filing "a"]));
               Responded (ok_response
                 (page_of (VStr "https://lda.senate.gov/api/v1/filings/?page=3")
                    [filing "b"]));
               Responded bad_request]) 5) as (w' & Hrun & Hq).
  - simpl. auto 10.
  - intros i body Hi. destruct i as [|[|i]]; simpl in Hi.
    + injection Hi as <-. eexists. repeat split.
    + injection Hi as <-. eexists. repeat split.
    + destruct i; discriminate Hi.
  - reflexivity.
  - discriminate.
  - reflexivity.
  - left. reflexivity.
  - simpl. lia.
  - exists w'. split; [exact Hrun|]. rewrite Hq. reflexivity.
Defined.

Lemma sleeps_pause (pause_seconds : Z) (w : World) :
  sleeps (pause pause_seconds w)
  = (sleeps w ++ if pause_seconds >? 0 then [pause_seconds] else [])%list
  /\ net (pause pause_seconds w) = net w.
Proof.
  unfold pause. destruct (pause_seconds >? 0); simpl; [auto|].
  now rewrite app_nil_r.
Qed.

Lemma pages_loop_sleeps (self : LDAClient) (q : Filters)
  (page_size pause_seconds : Z) (m : option Z) (pages : list value) :
  forall (fuel : nat) (acc : list value) (first : option value) (page : Z)
         (w : World),
    last_page_ends pages ->
    Forall is_page pages ->
    serves w pages ->
    (length (fetched m page pages) <= fuel)%nat ->
    names_filter q = true
    \/ (page <= 1 /\ length (fetched m page pages) = 1%nat) ->
    exists r w',
      pages_loop fuel self q page_size pause_seconds m acc first page w
      = Some (r, w')
      /\ sleeps w'
         = (sleeps w ++ pauses pause_seconds (length (fetched m page pages)))%list.
Proof.
  induction pages as [|p rest IH]; intros fuel acc first page w Hend Hpages
    Hserves Hfuel Hgate; [contradiction|].
  assert (Hp : is_page p) by (inversion Hpages; assumption).
  assert (Hrest : Forall is_page rest) by (inversion Hpages; assumption).
  destruct (Hserves 0%nat p eq_refl) as (r & Hr & He & Hj).
  rewrite Nat.add_0_r in Hr.
  destruct fuel as [|fuel]; [simpl in Hfuel; lia|].
  destruct (list_filings_ok self q page page_size w r p) as (w1 & Hl & Ha); auto.
  { destruct Hgate as [?|[? _]]; auto. }
  cbn [pages_loop]. rewrite Hl, (take_page_ok p acc Hp).
  assert (Hstop : negb (if reached_cap m page then false else truthy (next_of p))
                  = reached_cap m page || negb (truthy (next_of p))).
  { destruct (reached_cap m page); reflexivity. }
  rewrite Hstop. cbn [fetched] in *.
  destruct Ha as (Hnet & Hgets & Hsleeps & Hreqs).
  destruct (reached_cap m page || negb (truthy (next_of p))) eqn:Estop.
  - eexists. exists w1. split; [reflexivity|].
    rewrite Hsleeps. unfold pauses. cbn [length Nat.sub repeat].
    now destruct (pause_seconds >? 0).
  - apply orb_false_elim in Estop. destruct Estop as [Ecap Enext].
    apply negb_false_iff in Enext.
    assert (Hend' : last_page_ends rest).
    { destruct rest as [|p' rest']; simpl in Hend; [congruence|tauto]. }
    destruct rest as [|p' rest']; [contradiction|].
    destruct (fetched_nonempty m (page + 1) p' rest') as [tail Ht].
    assert (Hnames : names_filter q = true).
    { destruct Hgate as [?|[_ Hone]]; [assumption|].
      rewrite Ht in Hone. simpl in Hone. lia. }
    destruct (IH fuel (acc ++ results_of p)%list
                (Some match first with Some f => f | None => p end)
                (page + 1) (pause pause_seconds w1))
      as (r' & w' & Hloop & Hs); auto.
    + eapply serves_next; [exact Hserves|]. repeat split; eassumption.
    + cbn [length] in Hfuel. lia.
    + exists r', w'. split; [exact Hloop|].
      destruct (sleeps_pause pause_seconds w1) as [Hsp _].
      rewrite Hs, Hsp, Hsleeps, app_nil_r, <- app_assoc. f_equal.
      unfold pauses. rewrite Ht. cbn [length Nat.sub].
      destruct (pause_seconds >? 0); [|reflexivity].
      rewrite Nat.sub_0_r. reflexivity.
Qed.

(** X6.  Pacing.  On a run that fetches [k = min(N, max_pages)] pages the
    pager sleeps [k - 1] times, for [pause_seconds] each, once after every
    page but the last; with [pause_seconds <= 0] it does not sleep at all. *)
Theorem pager_sleeps_between_pages (self : LDAClient) (q : Filters)
  (page_size pause_seconds : Z) (max_pages : option Z) (pages : list value)
  (w : World) (fuel : nat) :
  last_page_ends pages ->
  Forall is_page pages ->
  serves w pages ->
  match max_pages with Some m => 1 <= m | None => True end ->
  let k := pages_to_fetch max_pages (length pages) in
  names_filter q = true \/ k = 1%nat ->
  (k <= fuel)%nat ->
  exists r w',
    list_all_filings fuel self q page_size pause_seconds max_pages w
    = Some (r, w')
    /\ sleeps w'
       = (sleeps w
          ++ if pause_seconds >? 0 then repeat pause_seconds (k - 1) else [])%list.
Proof.
  intros Hend Hpages Hserves Hm k Hgate Hfuel.
  assert (Hf : fetched max_pages 1 pages = firstn k pages)
    by (apply fetched_prefix; assumption).
  assert (Hk : length (firstn k pages) = k).
  { apply firstn_length_le. unfold k, pages_to_fetch. destruct max_pages; lia. }
  destruct (pages_loop_sleeps self q page_size pause_seconds max_pages pages
              fuel [] None 1 w) as (r & w' & Hloop & Hs); auto.
  - rewrite Hf, Hk. exact Hfuel.
  - rewrite Hf, Hk. destruct Hgate; [left|right]; auto. split; [lia|auto].
  - exists r, w'. split; [exact Hloop|]. rewrite Hs, Hf, Hk. reflexivity.
Qed.

Lemma pager_sleeps_between_pages_witness :
  exists r w',
    list_all_filings 4 test_client (by_client 7) 25 2 None (serve four_pages)
    = Some (r, w')
    /\ sleeps w' = [2; 2; 2].
Proof.
  destruct (pager_sleeps_between_pages test_client (by_client 7) 25 2 None
              four_pages (serve four_pages) 4 four_pages_end
              four_pages_are_pages (serves_serve four_pages) I
              (or_introl eq_refl) (le_n 4)) as (r & w' & Hrun & Hs).
  exists r, w'. split; [exact Hrun | exact Hs].
Defined.

Lemma pages_loop_endless (self : LDAClient) (q : Filters)
  (page_size pause_seconds : Z) (fuel : nat) :
  names_filter q = true ->
  forall (acc : list value) (first : option value) (page : Z) (w : World),
    endless w ->
    pages_loop fuel self q page_size pause_seconds None acc first page w = None.
Proof.
  intros Hnames. induction fuel as [|fuel IH]; intros acc first page w Hw;
    [reflexivity|].
  destruct (Hw (length (gets w))) as (r & p & Hr & He & Hj & Hp & Hnext).
  destruct (list_filings_ok self q page page_size w r p)
    as (w1 & Hl & Hn1 & _); auto.
  cbn [pages_loop]. rewrite Hl, (take_page_ok p acc Hp), Hnext.
  cbn [reached_cap negb]. apply IH.
  intros n. destruct (sleeps_pause pause_seconds w1) as [_ ->].
  rewrite Hn1. apply Hw.
Qed.

(** X7.  The pager has no bound of its own.  With an identifying filter, no
    [max_pages], and a transport whose every response is a page with [next]
    set, [list_all_filings] never returns: whatever the fuel, the model runs
    out of it. *)
Theorem endless_cursor_never_returns (self : LDAClient) (q : Filters)
  (page_size pause_seconds : Z) (w : World) (fuel : nat) :
  names_filter q = true ->
  endless w ->
  list_all_filings fuel self q page_size pause_seconds None w = None.
Proof.
  intros Hnames Hw. unfold list_all_filings.
  now apply pages_loop_endless.
Qed.

Lemma endless_cursor_never_returns_witness :
  list_all_filings 50 test_client (by_client 7) 25 0 None
    (serve_forever
       (page_of (VStr "https://lda.senate.gov/api/v1/filings/?page=2")
          [filing "a"]))
  = None.
Proof.
  apply (endless_cursor_never_returns test_client (by_client 7) 25 0
           (serve_forever
              (page_of (VStr "https://lda.senate.gov/api/v1/filings/?page=2")
                 [filing "a"])) 50).
  - reflexivity.
  - intros n. eexists. eexists. repeat split.
Defined.








(** ** The dashboard *)




(** ** Flatten: shape of the result *)

Lemma dict_set_flat (k : string) (v : value) (d : dict) :
  is_scalar v = true -> flat_record d -> flat_record (dict_set k v d).
Proof.
  intros Hv. induction d as [|[k' v'] d IH]; intros Hd.
  - repeat constructor. exact Hv.
  - inversion Hd as [|? ? Hx Hrest]; subst. cbn [dict_set].
    destruct (String.eqb k k'); constructor;
      first [exact Hv | exact Hx | exact Hrest | exact (IH Hrest)].
Qed.

Lemma dict_update_flat (other d : dict) :
  flat_record other -> flat_record d -> flat_record (dict_update d other).
Proof.
  unfold dict_update. revert d.
  induction other as [|[k v] other IH]; intros d Ho Hd; [assumption|].
  inversion Ho as [|? ? Hx Hrest]; subst. cbn [fold_left fst snd].
  apply IH; [assumption|]. now apply dict_set_flat.
Qed.

Lemma flatten_fold_flat (sep prefix : string) (d : dict) :
  Forall (fun kv => keeps_flat sep (snd kv)) d ->
  forall items,
    wf_dict items -> flat_record items ->
    wf_dict (fold_left
               (fun items kv =>
                  flatten_entry sep (snd kv) (new_key_of prefix sep (fst kv)) items)
               d items)
    /\ flat_record (fold_left
                      (fun items kv =>
                         flatten_entry sep (snd kv)
                           (new_key_of prefix sep (fst kv)) items)
                      d items).
Proof.
  induction d as [|kv d IH]; intros Hd items Hwf Hflat; [auto|].
  inversion Hd as [|? ? Hkv Hrest]; subst. cbn [fold_left].
  destruct (Hkv (new_key_of prefix sep (fst kv)) items Hwf Hflat) as [H1 H2].
  now apply IH.
Qed.

Lemma flatten_entry_keeps_flat (sep : string) (v : value) : keeps_flat sep v.
Proof.
  induction v as [| b | n | s | l IH | d IH] using value_induction;
    intros new_key items Hwf Hflat;
    try (split; [now apply dict_set_wf | now apply dict_set_flat]).
  rewrite flatten_entry_dict. unfold _flatten_record.
  destruct (flatten_fold_flat sep new_key d IH []) as [H1 H2];
    [constructor | constructor|].
  split; [now apply dict_update_wf | now apply dict_update_flat].
Qed.

Lemma flatten_record_flat (record : dict) (prefix sep : string) :
  wf_dict (_flatten_record record prefix sep)
  /\ flat_record (_flatten_record record prefix sep).
Proof.
  unfold _flatten_record. apply flatten_fold_flat; try constructor.
  apply Forall_forall. intros kv _. apply flatten_entry_keeps_flat.
Qed.

(** X10.  Whatever the record, the flattened record is flat and
    rectangular: its keys are pairwise distinct and none of its values is a
    mapping or a list.  Flattening it again changes nothing. *)
Theorem flatten_gives_flat_records (record : dict) (prefix sep : string) :
  wf_dict (_flatten_record record prefix sep)
  /\ flat_record (_flatten_record record prefix sep)
  /\ _flatten_record (_flatten_record record prefix sep) "" sep
     = _flatten_record record prefix sep.
Proof.
  destruct (flatten_record_flat record prefix sep) as [Hwf Hflat].
  split; [exact Hwf|]. split; [exact Hflat|].
  unfold _flatten_record at 1.
  rewrite flatten_flat_from by exact Hflat.
  now apply dict_update_empty.
Qed.

Lemma flatten_flat_under_prefix (sep prefix : string) (record items : dict) :
  flat_record record ->
  prefix <> "" ->
  fold_left
    (fun items kv => flatten_entry sep (snd kv) (new_key_of prefix sep (fst kv)) items)
    record items
  = dict_update items (dotted prefix sep record).
Proof.
  intros Hflat Hp. revert items.
  induction record as [|[k v] record IH]; intros items; [reflexivity|].
  inversion Hflat as [|? ? Hv Hrest]; subst. simpl in Hv.
  cbn [fold_left fst snd]. rewrite flatten_entry_scalar by assumption.
  rewrite IH by assumption. unfold new_key_of. cbn [truthy].
  apply String.eqb_neq in Hp. rewrite Hp. reflexivity.
Qed.

Lemma dotted_wf (prefix sep : string) (d : dict) :
  wf_dict d -> wf_dict (dotted prefix sep d).
Proof.
  unfold wf_dict, dict_keys, dotted. rewrite map_map. cbn [fst].
  induction d as [|[k v] d IH]; intros H; [constructor|].
  inversion H as [|? ? Hk Hd]; subst. cbn [map fst]. constructor; [|auto].
  intros Hin. apply in_map_iff in Hin. destruct Hin as ([k' v'] & E & Hin).
  cbn [fst] in E. apply append_inj_l in E. apply append_inj_l in E. subst k'.
  apply Hk. apply in_map_iff. exists (k, v'). auto.
Qed.

(** X11.  A nested mapping without structure of its own is flattened to its
    members under dotted keys, [outer.inner], in their order.  Under an
    empty outer key the members keep their bare names: the prefix is tested
    by truth value. *)
Theorem nested_mapping_gets_dotted_keys (outer sep : string) (d : dict) :
  wf_dict d ->
  flat_record d ->
  (outer <> "" ->
   _flatten_record [(outer, VDict d)] "" sep = dotted outer sep d)
  /\ _flatten_record [("", VDict d)] "" sep = d.
Proof.
  intros Hwf Hflat. split.
  - intros Ho. unfold _flatten_record at 1. cbn [fold_left fst snd].
    rewrite flatten_entry_dict. unfold _flatten_record.
    replace (new_key_of "" sep outer) with outer by reflexivity.
    rewrite flatten_flat_under_prefix by assumption.
    rewrite (dict_update_empty (dotted outer sep d)) by now apply dotted_wf.
    now apply dict_update_empty, dotted_wf.
  - unfold _flatten_record at 1. cbn [fold_left fst snd].
    rewrite flatten_entry_dict. unfold _flatten_record.
    replace (new_key_of "" sep "") with "" by reflexivity.
    rewrite flatten_flat_from by assumption.
    rewrite (dict_update_empty d) by assumption.
    now apply dict_update_empty.
Qed.

Lemma nested_mapping_gets_dotted_keys_witness :
  _flatten_record
    [("registrant", VDict [("name", VStr "R"); ("id", VInt 12)])] "" "."
  = [("registrant.name", VStr "R"); ("registrant.id", VInt 12)].
Proof.
  apply (nested_mapping_gets_dotted_keys "registrant" "."
           [("name", VStr "R"); ("id", VInt 12)]).
  - unfold wf_dict. simpl.
    repeat (constructor; [simpl; intuition discriminate|]). constructor.
  - repeat constructor.
  - discriminate.
Defined.

(** ** Exporters: inferred header, empty tables, the simplified export *)

Lemma ltb_flip (a b : string) :
  a <> b -> String.ltb a b = false -> String.ltb b a = true.
Proof.
  unfold String.ltb. intros Hne H.
  rewrite String.compare_antisym.
  destruct (String.compare a b) eqn:E; [|discriminate H|reflexivity].
  apply String.compare_eq_iff in E. contradiction.
Qed.

Lemma insert_sorted_head (k x : string) (l : list string) :
  String.ltb x k = true -> below_head x l -> below_head x (insert_sorted k l).
Proof.
  destruct l as [|y l]; simpl; intros Hk Hl; [exact Hk|].
  destruct (String.eqb k y); [exact Hl|].
  destruct (String.ltb k y); [exact Hk | exact Hl].
Qed.

Lemma insert_sorted_ascending (k : string) (l : list string) :
  ascending l -> ascending (insert_sorted k l).
Proof.
  induction l as [|y l IH]; intros H; [simpl; auto|].
  destruct H as [Hhead Hrest]. cbn [insert_sorted].
  destruct (String.eqb_spec k y) as [->|Hne]; [split; assumption|].
  destruct (String.ltb k y) eqn:E.
  - split; [exact E | split; assumption].
  - split; [|auto]. apply insert_sorted_head; [|assumption].
    now apply ltb_flip.
Qed.

Lemma insert_sorted_in (k x : string) (l : list string) :
  In x (insert_sorted k l) <-> x = k \/ In x l.
Proof.
  induction l as [|y l IH]; simpl; [intuition|].
  destruct (String.eqb_spec k y) as [->|Hne]; [simpl; intuition|].
  destruct (String.ltb k y); simpl; [intuition|].
  rewrite IH. intuition.
Qed.

Lemma insert_keys (keys : list string) :
  forall acc,
    (ascending acc -> ascending (fold_left (fun acc k => insert_sorted k acc) keys acc))
    /\ forall x,
         In x (fold_left (fun acc k => insert_sorted k acc) keys acc)
         <-> In x keys \/ In x acc.
Proof.
  induction keys as [|k keys IH]; intros acc; cbn [fold_left].
  - split; [auto | simpl; intuition].
  - destruct (IH (insert_sorted k acc)) as [H1 H2]. split.
    + intros H. apply H1. now apply insert_sorted_ascending.
    + intros x. rewrite H2, insert_sorted_in. simpl. intuition.
Qed.

Lemma sorted_keys_from (rows : list dict) :
  forall acc,
    (ascending acc ->
     ascending
       (fold_left
          (fun acc row => fold_left (fun acc k => insert_sorted k acc)
                            (dict_keys row) acc) rows acc))
    /\ forall x,
         In x (fold_left
                 (fun acc row => fold_left (fun acc k => insert_sorted k acc)
                                   (dict_keys row) acc) rows acc)
         <-> (exists row, In row rows /\ In x (dict_keys row)) \/ In x acc.
Proof.
  induction rows as [|row rows IH]; intros acc; cbn [fold_left].
  - split; [auto|]. intros x. split; [auto|].
    intros [(row & [] & _)|H]; exact H.
  - destruct (IH (fold_left (fun acc k => insert_sorted k acc) (dict_keys row) acc))
      as [H1 H2].
    destruct (insert_keys (dict_keys row) acc) as [K1 K2]. split.
    + intros H. apply H1, K1, H.
    + intros x. rewrite H2, K2. split.
      * intros [(r & Hr & Hx)|[Hx|Hx]]; [left; exists r; simpl; auto
                                         | left; exists row; simpl; auto
                                         | right; exact Hx].
      * intros [(r & [<-|Hr] & Hx)|Hx]; [right; left; exact Hx
                                         | left; exists r; auto
                                         | right; right; exact Hx].
Qed.

(** X12.  The header inferred from the rows is the union of their keys in
    strictly ascending order: a key is in it exactly when some row has it,
    and each key is below the next. *)
Theorem inferred_header_is_sorted_union (rows : list dict) :
  ascending (sorted_keys rows)
  /\ forall key,
       In key (sorted_keys rows)
       <-> exists row, In row rows /\ In key (dict_keys row).
Proof.
  destruct (sorted_keys_from rows []) as [H1 H2]. split.
  - apply H1. exact I.
  - intros key. unfold sorted_keys. rewrite H2. simpl. intuition.
Qed.






(** ** Deduplication of arbitrary values *)

Lemma py_eqb_sym (a b : value) : py_eqb a b = py_eqb b a.
Proof.
  destruct a as [| [|] | n | s | l | d], b as [| [|] | n' | s' | l' | d'];
    cbn [py_eqb as_number]; try reflexivity;
    first [apply Z.eqb_sym | apply String.eqb_sym].
Qed.

Lemma py_eqb_trans (a b c : value) :
  py_eqb a b = true -> py_eqb a c = py_eqb b c.
Proof.
  destruct a as [| [|] | n | s | l | d], b as [| [|] | n' | s' | l' | d'];
    cbn [py_eqb as_number]; try discriminate; try reflexivity; intros H;
    try (apply String.eqb_eq in H; subst; reflexivity);
    apply Z.eqb_eq in H;
    destruct c as [| [|] | n'' | s'' | l'' | d''];
    cbn [py_eqb as_number]; try reflexivity;
    first [rewrite H; reflexivity | rewrite <- H; reflexivity].
Qed.

Lemma set_mem_trans (x y : value) (seen : list value) :
  py_eqb x y = true -> set_mem y seen = set_mem x seen.
Proof.
  intros H. unfold set_mem. induction seen as [|s seen IH]; [reflexivity|].
  cbn [existsb]. now rewrite IH, (py_eqb_trans x y s H).
Qed.

Lemma unique_loop_values (values : list value) (stop : option exn) :
  (forall v, In v values -> truthy v = true -> hashable v = true) ->
  forall seen ordered,
    unique_loop values stop seen ordered
    = match stop with
      | Some e => Raise e
      | None =>
          Ok (ordered
              ++ filter (fun x => negb (set_mem x seen))
                   (first_values (filter truthy values)))%list
      end.
Proof.
  induction values as [|x values IH]; intros Hh seen ordered.
  - simpl. destruct stop; [reflexivity | now rewrite app_nil_r].
  - assert (Hh' : forall v, In v values -> truthy v = true -> hashable v = true)
      by (intros v Hv; apply Hh; simpl; auto).
    cbn [unique_loop filter].
    destruct (truthy x) eqn:Ex; cbn [negb]; [|now apply IH].
    rewrite (Hh x (or_introl eq_refl) Ex). cbn [negb first_values filter].
    destruct (set_mem x seen) eqn:Es; cbn [negb]; rewrite IH by assumption;
      (destruct stop; [reflexivity|]).
    + do 2 apply f_equal. rewrite filter_filter. apply filter_ext. intros y.
      destruct (py_eqb x y) eqn:Exy; [|reflexivity]. cbn [negb andb].
      now rewrite (set_mem_trans x y seen Exy), Es.
    + rewrite <- app_assoc. cbn [app]. do 3 apply f_equal.
      rewrite filter_filter. apply filter_ext. intros y.
      unfold set_mem. cbn [existsb]. rewrite (py_eqb_sym y x).
      now destruct (py_eqb x y).
Qed.

Lemma unique_loop_unhashable (pre post : list value) (bad : value)
  (stop : option exn) :
  (forall v, In v pre -> truthy v = true -> hashable v = true) ->
  truthy bad = true -> hashable bad = false ->
  forall seen ordered,
    unique_loop (pre ++ bad :: post) stop seen ordered = Raise TypeError.
Proof.
  intros Hpre Ht Hb. induction pre as [|x pre IH]; intros seen ordered.
  - cbn [app unique_loop]. now rewrite Ht, Hb.
  - assert (Hpre' : forall v, In v pre -> truthy v = true -> hashable v = true)
      by (intros v Hv; apply Hpre; simpl; auto).
    cbn [app unique_loop].
    destruct (truthy x) eqn:Ex; cbn [negb]; [|now apply IH].
    rewrite (Hpre x (or_introl eq_refl) Ex). cbn [negb].
    destruct (set_mem x seen); now apply IH.
Qed.

(** X15.  [_unique] on values of any kind.  When every truthy value can be
    hashed, it returns the truthy values without their repetitions under
    [==] (so [True] after [1] is a repetition), each at its first place, and
    an exception that stops the generator comes out at the end.  The first
    truthy value that cannot be hashed, a non-empty list or mapping, makes
    it raise [TypeError]. *)
Theorem unique_on_any_values (values : list value) :
  ((forall v, In v values -> truthy v = true -> hashable v = true) ->
   _unique (values, None) = Ok (first_values (filter truthy values))
   /\ forall e, _unique (values, Some e) = Raise e)
  /\ (forall pre bad post stop,
        values = (pre ++ bad :: post)%list ->
        (forall v, In v pre -> truthy v = true -> hashable v = true) ->
        truthy bad = true -> hashable bad = false ->
        _unique (values, stop) = Raise TypeError).
Proof.
  split.
  - intros Hh. unfold _unique. cbn [fst snd]. split.
    + rewrite (unique_loop_values values None Hh [] []).
      cbn [app set_mem existsb negb]. now rewrite filter_all.
    + intros e. now rewrite (unique_loop_values values (Some e) Hh [] []).
  - intros pre bad post stop -> Hpre Ht Hb. unfold _unique. cbn [fst snd].
    now apply unique_loop_unhashable.
Qed.

Lemma unique_on_any_values_witness :
  _unique ([VInt 1; VNone; VBool true; VStr "x"; VInt 0; VList []; VStr "x";
            VInt 2], None)
  = Ok [VInt 1; VStr "x"; VInt 2]
  /\ _unique ([VStr "x"; VList [VInt 1]; VStr "y"], None) = Raise TypeError.
Proof.
  split.
  - destruct (unique_on_any_values
                [VInt 1; VNone; VBool true; VStr "x"; VInt 0; VList [];
                 VStr "x"; VInt 2]) as [H _].
    destruct H as [H _]; [|exact H].
    intros v Hv Ht. simpl in Hv.
    repeat (destruct Hv as [<-|Hv]; [first [reflexivity | discriminate Ht]|]).
    contradiction.
  - destruct (unique_on_any_values [VStr "x"; VList [VInt 1]; VStr "y"])
      as [_ H].
    apply (H [VStr "x"] (VList [VInt 1]) [VStr "y"] None eq_refl);
      [|reflexivity|reflexivity].
    intros v [<-|[]] _. reflexivity.
Defined.

(** ** Text normalization *)

Lemma chars_append (a b : string) :
  list_ascii_of_string (a ++ b)
  = (list_ascii_of_string a ++ list_ascii_of_string b)%list.
Proof. induction a as [|c a IH]; simpl; [reflexivity | now rewrite IH]. Qed.

Lemma split_from_word (w : string) :
  forall cur s,
    Forall (fun c => isspace c = false) (list_ascii_of_string w) ->
    split_from cur (w ++ s)
    = split_from (rev (list_ascii_of_string w) ++ cur)%list s.
Proof.
  induction w as [|c w IH]; intros cur s H; [reflexivity|].
  inversion H as [|? ? Hc Hw]; subst.
  cbn [append split_from list_ascii_of_string rev]. rewrite Hc.
  rewrite IH by assumption. now rewrite <- app_assoc.
Qed.

Lemma flush_word (w : string) :
  w <> "" -> flush (rev (list_ascii_of_string w)) = [w].
Proof.
  intros Hw. unfold flush.
  destruct (rev (list_ascii_of_string w)) as [|c l] eqn:E.
  - apply (f_equal (@rev ascii)) in E. rewrite rev_involutive in E.
    simpl in E. apply (f_equal string_of_list_ascii) in E.
    rewrite string_of_list_ascii_of_string in E. simpl in E. contradiction.
  - rewrite <- E, rev_involutive, string_of_list_ascii_of_string. reflexivity.
Qed.

Lemma split_join_words (ws : list string) :
  Forall is_word ws -> split (join " " ws) = ws.
Proof.
  unfold split. induction ws as [|w ws IH]; intros H; [reflexivity|].
  inversion H as [|? ? [Hne Hw] Hws]; subst.
  destruct ws as [|w2 ws].
  - cbn [join String.concat]. rewrite <- (append_nil_r w) at 1.
    rewrite split_from_word by assumption. rewrite app_nil_r.
    cbn [split_from]. now apply flush_word.
  - rewrite join_cons. rewrite split_from_word by assumption.
    rewrite app_nil_r. cbn [append split_from].
    replace (isspace " ") with true by reflexivity.
    rewrite flush_word by assumption. rewrite IH by assumption. reflexivity.
Qed.

Lemma split_from_words (s : string) :
  forall cur,
    Forall (fun c => isspace c = false) cur ->
    Forall is_word (split_from cur s).
Proof.
  assert (Hflush : forall cur, Forall (fun c => isspace c = false) cur ->
                               Forall is_word (flush cur)).
  { intros cur H. destruct cur as [|c cur]; [constructor|].
    unfold flush. repeat constructor.
    - intros E. apply (f_equal list_ascii_of_string) in E.
      rewrite list_ascii_of_string_of_list_ascii in E. simpl in E.
      destruct (rev cur); discriminate E.
    - rewrite list_ascii_of_string_of_list_ascii.
      apply Forall_rev. exact H. }
  induction s as [|c s IH]; intros cur H; cbn [split_from]; [now apply Hflush|].
  destruct (isspace c) eqn:E.
  - apply Forall_app. split; [now apply Hflush | apply IH; constructor].
  - apply IH. now constructor.
Qed.

Lemma join_chars (ws : list string) (c : ascii) :
  In c (list_ascii_of_string (join " " ws)) ->
  c = " "%char \/ exists w, In w ws /\ In c (list_ascii_of_string w).
Proof.
  induction ws as [|w ws IH]; [simpl; contradiction|].
  destruct ws as [|w2 ws].
  - cbn [join String.concat]. intros H. right. exists w. simpl. auto.
  - rewrite join_cons, !chars_append. intros H.
    apply in_app_or in H. destruct H as [H|H].
    + right. exists w. simpl. auto.
    + apply in_app_or in H. destruct H as [H|H].
      * simpl in H. destruct H as [<-|[]]. now left.
      * destruct (IH H) as [?|(w' & Hw' & Hc)]; [now left|].
        right. exists w'. split; [now right | exact Hc].
Qed.

(** X16.  [_normalize_text] gives text that is already normal: normalizing
    it again changes nothing, and the only white space left in it is the
    plain space, between words.  [None] gives the empty text. *)
Theorem normalize_text_is_idempotent (v : value) :
  _normalize_text (VStr (_normalize_text v)) = _normalize_text v
  /\ (forall c,
        In c (list_ascii_of_string (_normalize_text v)) ->
        isspace c = true -> c = " "%char)
  /\ split (_normalize_text v)
     = match v with VNone => [] | _ => split (py_str v) end
  /\ _normalize_text VNone = "".
Proof.
  assert (Hw : forall s, Forall is_word (split s))
    by (intros s; apply split_from_words; constructor).
  assert (Hn : forall s, split (join " " (split s)) = split s)
    by (intros s; apply split_join_words, Hw).
  assert (Hc : forall s c, In c (list_ascii_of_string (join " " (split s))) ->
                           isspace c = true -> c = " "%char).
  { intros s c Hin Hsp. destruct (join_chars _ _ Hin) as [?|(w & Hin' & Hcw)];
      [assumption|].
    pose proof (Hw s) as Hall. rewrite Forall_forall in Hall.
    destruct (Hall w Hin') as [_ Hchars]. rewrite Forall_forall in Hchars.
    rewrite (Hchars c Hcw) in Hsp. discriminate Hsp. }
  split; [|split; [|split; [|reflexivity]]].
  - destruct v; cbn [_normalize_text py_str]; try reflexivity;
      now rewrite Hn.
  - destruct v; cbn [_normalize_text]; try (intros c []); apply Hc.
  - destruct v; cbn [_normalize_text]; try reflexivity; apply Hn.
Qed.

(** ** Addresses and person names *)

Lemma join_nonblank_skips (sep : string) (pre post : list value) (part : value) :
  blank part ->
  join_nonblank sep (pre ++ part :: post) = join_nonblank sep (pre ++ post).
Proof.
  intros Hb. unfold join_nonblank. rewrite !filter_app. cbn [filter].
  replace (truthy part && truthy (VStr (strip (py_str part)))) with false;
    [reflexivity|].
  destruct Hb as [-> | ->]; [reflexivity | now rewrite andb_false_r].
Qed.

(** X17.  A part that is missing, falsy or blank leaves no trace in an
    address or in a person name: no text and no separator.  A person of whom
    only a first and a last name are known is named ["First Last"]. *)
Theorem blank_parts_leave_no_trace :
  (forall pre post part,
     blank part ->
     _format_address (pre ++ part :: post) = _format_address (pre ++ post))
  /\ (forall parts, Forall blank parts -> _format_address parts = "")
  /\ (forall data first last,
        dict_lookup "first_name" data = Some (VStr first) ->
        dict_lookup "last_name" data = Some (VStr last) ->
        strip first <> "" -> strip last <> "" ->
        blank (dict_get "prefix_display" data) ->
        blank (dict_get "prefix" data) ->
        blank (dict_get "middle_name" data) ->
        blank (dict_get "suffix_display" data) ->
        blank (dict_get "suffix" data) ->
        _format_person_name data = strip first ++ " " ++ strip last).
Proof.
  split; [|split].
  - intros pre post part Hb. apply (join_nonblank_skips ", " pre post part Hb).
  - intros parts H. change (join_nonblank ", " parts = "").
    induction parts as [|p parts IH]; [reflexivity|].
    inversion H as [|? ? Hp Hrest]; subst.
    pose proof (join_nonblank_skips ", " [] parts p Hp) as E.
    cbn [app] in E. rewrite E. now apply IH.
  - intros data first last Hf Hl Hfs Hls Hpd Hp Hm Hsd Hs.
    unfold _format_person_name.
    assert (Hor : forall a b, blank a -> blank b -> blank (por_v a b)).
    { intros a b Ha Hb. unfold por_v. now destruct (truthy a). }
    match goal with
    | |- join_nonblank _ (?a :: ?rest) = _ =>
        pose proof (join_nonblank_skips " " [] rest a (Hor _ _ Hpd Hp)) as E1;
        cbn [app] in E1; rewrite E1
    end.
    match goal with
    | |- join_nonblank _ (?a :: ?b :: ?rest) = _ =>
        pose proof (join_nonblank_skips " " [a] rest b Hm) as E2;
        cbn [app] in E2; rewrite E2
    end.
    match goal with
    | |- join_nonblank _ [?a; ?b; ?c] = _ =>
        pose proof (join_nonblank_skips " " [a; b] [] c (Hor _ _ Hsd Hs)) as E3;
        cbn [app] in E3; rewrite E3
    end.
    unfold dict_get, dict_get_default. rewrite Hf, Hl.
    unfold join_nonblank. cbn [filter py_str truthy].
    assert (Hne : forall s, strip s <> "" -> negb (String.eqb s "") = true).
    { intros s Hs'. destruct s; [exfalso; apply Hs'; reflexivity | reflexivity]. }
    apply String.eqb_neq in Hfs as Hfs', Hls as Hls'.
    rewrite (Hne first Hfs), (Hne last Hls), Hfs', Hls'. reflexivity.
Qed.

Lemma blank_parts_leave_no_trace_witness :
  _format_address [VStr "1 Main St "; VNone; VStr "  "; VStr "DC"; VInt 0]
  = "1 Main St, DC"
  /\ _format_person_name
       [("first_name", VStr " Ada"); ("middle_name", VNone);
        ("last_name", VStr "Lovelace "); ("suffix", VStr "")]
     = "Ada Lovelace".
Proof.
  destruct blank_parts_leave_no_trace as (Hskip & _ & Hname).
  split.
  - pose proof (Hskip [VStr "1 Main St "] [VStr "  "; VStr "DC"; VInt 0] VNone
                    (or_introl eq_refl)) as E1.
    pose proof (Hskip [VStr "1 Main St "] [VStr "DC"; VInt 0] (VStr "  ")
                  (or_intror eq_refl)) as E2.
    pose proof (Hskip [VStr "1 Main St "; VStr "DC"] [] (VInt 0)
                  (or_introl eq_refl)) as E3.
    cbn [app] in E1, E2, E3. rewrite E1, E2, E3. reflexivity.
  - rewrite (Hname _ " Ada" "Lovelace "); try reflexivity;
      try (left; reflexivity); discriminate.
Defined.

(** ** The other columns of the simplified row *)

Lemma por_attr_field (raw x a : value) (k : string) :
  (if truthy x then Ok x
   else attr_get (if truthy raw then raw else VDict []) k) = Ok a ->
  a = por_v x (field_of raw k).
Proof.
  unfold por_v. destruct (truthy x); [intros H; now injection H|].
  apply por_default_field.
Qed.

Lemma por_r_attr_field (raw a : value) (k1 k2 : string) :
  (y <- attr_get (if truthy raw then raw else VDict []) k1 ;;
   por y (attr_get (if truthy raw then raw else VDict []) k2)) = Ok a ->
  a = por_v (field_of raw k1) (field_of raw k2).
Proof.
  unfold bind.
  destruct (attr_get (if truthy raw then raw else VDict []) k1) as [y|] eqn:E;
    [|discriminate].
  apply por_default_field in E. subst y. unfold por.
  apply (por_attr_field raw (field_of raw k1) a k2).
Qed.

Lemma por_por_r_attr_field (raw x a : value) (k1 k2 : string) :
  (if truthy x then Ok x
   else y <- attr_get (if truthy raw then raw else VDict []) k1 ;;
        por y (attr_get (if truthy raw then raw else VDict []) k2)) = Ok a ->
  a = por_v x (por_v (field_of raw k1) (field_of raw k2)).
Proof.
  unfold por_v at 1. destruct (truthy x); [intros H; now injection H|].
  apply por_r_attr_field.
Qed.

Lemma por_ok (x y a : value) :
  (if truthy x then Ok x else Ok y) = Ok a -> a = por_v x y.
Proof. unfold por_v. destruct (truthy x); intros H; now injection H. Qed.

(** Every column of a row that [_simplified_row] returns, by its source. *)
Lemma simplified_row_columns (record row : dict) :
  _simplified_row record = Ok row ->
  exists activities entities filing government,
    py_iter (dict_get_default "lobbying_activities" (VList []) record)
    = Ok activities
    /\ _unique (gen_entity_names activities) = Ok entities
    /\ join_values "; " entities = Ok government
    /\ join_values " | " (filter truthy (filing_parts record)) = Ok filing
    /\ dict_lookup "government_entities" row = Some (VStr government)
    /\ dict_lookup "filing_information" row = Some (VStr filing)
    /\ dict_lookup "registrant_address" row
       = Some (VStr (_format_address (address_parts record)))
    /\ dict_lookup "registrant_name" row
       = Some (field_of (dict_get "registrant" record) "name")
    /\ dict_lookup "registrant_contact" row
       = Some (field_of (dict_get "registrant" record) "contact_name")
    /\ dict_lookup "registrant_phone" row
       = Some (field_of (dict_get "registrant" record) "contact_telephone")
    /\ dict_lookup "client_name" row
       = Some (field_of (dict_get "client" record) "name")
    /\ dict_lookup "expenses_method" row
       = Some (por_v (dict_get "expenses_method_display" record)
                 (dict_get "expenses_method" record))
    /\ dict_lookup "income" row = Some (dict_get "income" record)
    /\ dict_lookup "expenses" row = Some (dict_get "expenses" record)
    /\ dict_lookup "dt_posted" row = Some (dict_get "dt_posted" record)
    /\ dict_lookup "filing_uuid" row = Some (dict_get "filing_uuid" record)
    /\ dict_lookup "filing_document_url" row
       = Some (dict_get "filing_document_url" record).
Proof.
  unfold _simplified_row, por, por_r. intros H.
  assert (Hr : (if truthy (dict_get "registrant" record)
                then Ok (dict_get "registrant" record) else Ok (VDict []))
               = Ok (if truthy (dict_get "registrant" record)
                     then dict_get "registrant" record else VDict []))
    by (destruct (truthy (dict_get "registrant" record)); reflexivity).
  assert (Hc : (if truthy (dict_get "client" record)
                then Ok (dict_get "client" record) else Ok (VDict []))
               = Ok (if truthy (dict_get "client" record)
                     then dict_get "client" record else VDict []))
    by (destruct (truthy (dict_get "client" record)); reflexivity).
  rewrite Hr in H. cbn [bind] in H. rewrite Hc in H. cbn [bind] in H.
  repeat inv_bind H.
  injection H as <-.
  apply por_attr_field in E, E0, E1, E3.
  apply por_por_r_attr_field in E2, E4.
  apply por_default_field in E14, E15, E16, E17.
  apply por_ok in E18, E19, E21.
  subst.
  exists a9, a10, a20, a23.
  repeat (split; [first [reflexivity | assumption]|]). reflexivity.
Qed.

(** X18.  The columns that are read straight from the record.  In every row
    that [_simplified_row] returns, [income], [expenses], [dt_posted],
    [filing_uuid] and [filing_document_url] are the record's own values
    ([None] when missing); the registrant's name, contact and phone and the
    client's name are read from the nested mappings ([None] when the mapping
    or the key is missing); [expenses_method] is the display form when that
    is truthy and the raw code otherwise. *)
Theorem passthrough_columns (record row : dict) :
  _simplified_row record = Ok row ->
  (forall column,
     In column ["income"; "expenses"; "dt_posted"; "filing_uuid";
                "filing_document_url"] ->
     dict_lookup column row = Some (dict_get column record))
  /\ dict_lookup "registrant_name" row
     = Some (field_of (dict_get "registrant" record) "name")
  /\ dict_lookup "registrant_contact" row
     = Some (field_of (dict_get "registrant" record) "contact_name")
  /\ dict_lookup "registrant_phone" row
     = Some (field_of (dict_get "registrant" record) "contact_telephone")
  /\ dict_lookup "client_name" row
     = Some (field_of (dict_get "client" record) "name")
  /\ dict_lookup "expenses_method" row
     = Some (if truthy (dict_get "expenses_method_display" record)
             then dict_get "expenses_method_display" record
             else dict_get "expenses_method" record).
Proof.
  intros H.
  destruct (simplified_row_columns record row H)
    as (_ & _ & _ & _ & _ & _ & _ & _ & _ & _ & _ & Hn & Hc & Hp & Hcl & Hm
        & Hi & He & Hd & Hu & Hurl).
  split; [|auto 10].
  intros column Hin. simpl in Hin.
  destruct Hin as [<-|[<-|[<-|[<-|[<-|[]]]]]]; assumption.
Qed.

Lemma passthrough_columns_witness :
  exists row,
    _simplified_row
      [("income", VStr "50000.00"); ("expenses_method", VStr "A");
       ("expenses_method_display", VStr "Method A");
       ("registrant", VDict [("name", VStr "R"); ("contact_name", VStr "Kim")])]
    = Ok row
    /\ dict_lookup "income" row = Some (VStr "50000.00")
    /\ dict_lookup "registrant_contact" row = Some (VStr "Kim")
    /\ dict_lookup "client_name" row = Some VNone
    /\ dict_lookup "expenses_method" row = Some (VStr "Method A").
Proof.
  eexists. split; [vm_compute; reflexivity|].
  destruct (passthrough_columns
              [("income", VStr "50000.00"); ("expenses_method", VStr "A");
               ("expenses_method_display", VStr "Method A");
               ("registrant",
                VDict [("name", VStr "R"); ("contact_name", VStr "Kim")])]
              _ eq_refl) as (Hpass & _ & Hcontact & _ & Hclient & Hmethod).
  split; [apply (Hpass "income"); simpl; auto|].
  split; [exact Hcontact|]. split; [exact Hclient | exact Hmethod].
Defined.

(** X19.  The registrant's address.  In every row that [_simplified_row]
    returns it is made of six parts, address line 1, line 2, city, state,
    postal code and country, joined by [", "] with the blank ones left out;
    each part is the record's own field when that is truthy and the field of
    the [registrant] mapping otherwise, the display form of state and
    country before the code. *)
Theorem registrant_address_precedence (record row : dict) :
  _simplified_row record = Ok row ->
  dict_lookup "registrant_address" row
  = Some (VStr (_format_address (address_parts record)))
  /\ (Forall (fun key => truthy (dict_get key record) = true)
        ["registrant_address_1"; "registrant_address_2"; "registrant_city";
         "registrant_state"; "registrant_zip"; "registrant_country"] ->
      dict_lookup "registrant_address" row
      = Some (VStr (_format_address
                      (map (fun key => dict_get key record)
                         ["registrant_address_1"; "registrant_address_2";
                          "registrant_city"; "registrant_state";
                          "registrant_zip"; "registrant_country"]))))
  /\ (Forall (fun key => truthy (dict_get key record) = false)
        ["registrant_address_1"; "registrant_address_2"; "registrant_city";
         "registrant_state"; "registrant_zip"; "registrant_country"] ->
      truthy (field_of (dict_get "registrant" record) "state_display") = true ->
      truthy (field_of (dict_get "registrant" record) "country_display") = true ->
      dict_lookup "registrant_address" row
      = Some (VStr (_format_address
                      (map (field_of (dict_get "registrant" record))
                         ["address_1"; "address_2"; "city"; "state_display";
                          "zip"; "country_display"])))).
Proof.
  intros H.
  destruct (simplified_row_columns record row H)
    as (_ & _ & _ & _ & _ & _ & _ & _ & _ & _ & Ha & _).
  split; [exact Ha|]. split.
  - intros Hall. rewrite Ha. unfold address_parts, por_v. cbn [map].
    repeat match goal with
           | Hf : Forall _ (_ :: _) |- _ =>
               let Hx := fresh "Hx" in
               inversion Hf as [|? ? Hx ?]; subst; clear Hf; rewrite Hx
           end.
    reflexivity.
  - intros Hall Hs Hc. rewrite Ha. unfold address_parts, por_v. cbn [map].
    repeat match goal with
           | Hf : Forall _ (_ :: _) |- _ =>
               let Hx := fresh "Hx" in
               inversion Hf as [|? ? Hx ?]; subst; clear Hf; rewrite Hx
           end.
    rewrite Hs, Hc. reflexivity.
Qed.

Lemma registrant_address_precedence_witness :
  exists row,
    _simplified_row
      [("registrant_city", VStr "Austin");
       ("registrant",
        VDict [("address_1", VStr "1 Main St"); ("city", VStr "Dallas");
               ("state", VStr "TX"); ("state_display", VStr "Texas")])]
    = Ok row
    /\ dict_lookup "registrant_address" row
       = Some (VStr "1 Main St, Austin, Texas").
Proof.
  eexists. split; [vm_compute; reflexivity|].
  destruct (registrant_address_precedence
              [("registrant_city", VStr "Austin");
               ("registrant",
                VDict [("address_1", VStr "1 Main St"); ("city", VStr "Dallas");
                       ("state", VStr "TX"); ("state_display", VStr "Texas")])]
              _ eq_refl) as [Ha _].
  exact Ha.
Defined.

Lemma strs_of_map (parts : list value) (ss : list string) :
  strs_of parts = Ok ss -> parts = map VStr ss.
Proof.
  revert ss. induction parts as [|p parts IH]; intros ss H.
  - simpl in H. now injection H as <-.
  - destruct p; try discriminate H. cbn [strs_of] in H.
    destruct (strs_of parts) as [ss'|] eqn:E; [|discriminate H].
    cbn [bind] in H. injection H as <-. cbn [map]. now rewrite (IH ss').
Qed.

Lemma join_values_map (sep : string) (parts : list value) (text : string) :
  join_values sep parts = Ok text ->
  exists ss, parts = map VStr ss /\ text = join sep ss.
Proof.
  unfold join_values, bind. destruct (strs_of parts) as [ss|] eqn:E;
    [|discriminate].
  intros H. injection H as <-. exists ss. split; [|reflexivity].
  now apply strs_of_map.
Qed.

(** X20.  [filing_information].  In every row that [_simplified_row]
    returns it is the [" | "]-joined list of the truthy ones among the text
    of the filing year, the filing period and the filing type, display forms
    first.  The year goes through [str] before it is tested: for a record
    without [filing_year] the column starts with the text [None]. *)
Theorem filing_information_parts (record row : dict) :
  _simplified_row record = Ok row ->
  (exists ss,
     filter truthy (filing_parts record) = map VStr ss
     /\ dict_lookup "filing_information" row = Some (VStr (join " | " ss)))
  /\ (dict_get "filing_year" record = VNone ->
      exists text,
        dict_lookup "filing_information" row = Some (VStr text)
        /\ starts_with "None" text).
Proof.
  intros H.
  destruct (simplified_row_columns record row H)
    as (_ & _ & filing & _ & _ & _ & _ & Hj & _ & Hf & _).
  destruct (join_values_map _ _ _ Hj) as (ss & Hss & ->).
  split; [exists ss; auto|].
  intros Hy. exists (join " | " ss). split; [exact Hf|].
  unfold filing_parts in Hss. rewrite Hy in Hss. cbn [filter py_str py_repr truthy] in Hss.
  replace (negb (String.eqb "None" "")) with true in Hss by reflexivity.
  destruct ss as [|s ss]; [discriminate Hss|].
  cbn [map] in Hss. injection Hss as <- _.
  destruct ss as [|s2 ss].
  - exists "". cbn [join String.concat]. now rewrite append_nil_r.
  - rewrite join_cons. eexists. reflexivity.
Qed.

Lemma filing_information_parts_witness :
  exists row,
    _simplified_row
      [("filing_period", VStr "first_quarter");
       ("filing_period_display", VStr "1st Quarter")]
    = Ok row
    /\ dict_lookup "filing_information" row = Some (VStr "None | 1st Quarter").
Proof.
  eexists. split; [vm_compute; reflexivity|].
  match goal with
  | |- dict_lookup _ ?r = _ =>
      destruct (filing_information_parts
                  [("filing_period", VStr "first_quarter");
                   ("filing_period_display", VStr "1st Quarter")] r eq_refl)
        as [(ss & Hss & Hf) _]
  end.
  rewrite Hf. destruct ss as [|a [|b [|c ss]]]; try discriminate Hss.
  injection Hss as <- <-. reflexivity.
Defined.

(** ** The government entities column *)

Lemma gen_names_all (entities : list value) :
  snd (gen_names entities) = None ->
  fst (gen_names entities) = map (fun entity => field_of entity "name") entities.
Proof.
  induction entities as [|x entities IH]; [reflexivity|].
  cbn [gen_names map].
  destruct (attr_get x "name") as [name|e] eqn:E; [|discriminate].
  apply attr_get_field in E. subst name.
  destruct (gen_names entities) as [ys stop]. cbn [fst snd] in *.
  intros H. now rewrite IH.
Qed.

Lemma gen_entity_names_all (activities : list value) :
  snd (gen_entity_names activities) = None ->
  fst (gen_entity_names activities)
  = flat_map
      (fun activity =>
         match py_iter (field_of activity "government_entities") with
         | Ok entities => map (fun entity => field_of entity "name") entities
         | Raise _ => []
         end)
      activities.
Proof.
  induction activities as [|a activities IH]; [reflexivity|].
  cbn [gen_entity_names flat_map].
  destruct a as [| b | n | s | l | d]; try discriminate.
  cbn [attr_get_default bind field_of].
  unfold dict_get, dict_get_default.
  destruct (dict_lookup "government_entities" d) as [v|].
  - destruct (py_iter v) as [entities|e]; [|discriminate].
    pose proof (gen_names_all entities) as Hn.
    destruct (gen_names entities) as [ys [e|]]; [discriminate|].
    cbn [fst snd] in Hn. rewrite (Hn eq_refl).
    destruct (gen_entity_names activities) as [zs stop]. cbn [fst snd] in *.
    intros H. now rewrite IH.
  - cbn [py_iter gen_names app].
    destruct (gen_entity_names activities) as [zs stop]. cbn [fst snd] in *.
    intros H. now rewrite IH.
Qed.

Lemma unique_loop_prefix (values : list value) :
  forall seen ordered result,
    unique_loop values None seen ordered = Ok result ->
    exists tail, result = (ordered ++ tail)%list.
Proof.
  induction values as [|x values IH]; intros seen ordered result H.
  - simpl in H. injection H as <-. exists []. now rewrite app_nil_r.
  - cbn [unique_loop] in H.
    destruct (negb (truthy x)); [now apply (IH seen)|].
    destruct (negb (hashable x)); [discriminate H|].
    destruct (set_mem x seen); [now apply (IH seen)|].
    destruct (IH _ _ _ H) as [tail ->].
    exists (x :: tail). now rewrite <- app_assoc.
Qed.

Lemma py_eqb_str (x : value) (s : string) :
  py_eqb x (VStr s) = true -> is_str x.
Proof. destruct x as [| [|] | | t | |]; try discriminate. intros _. now exists t. Qed.

Lemma unique_loop_all_strings (values : list value) :
  forall seen ordered result,
    unique_loop values None seen ordered = Ok result ->
    Forall is_str result ->
    Forall is_str seen ->
    forall v, In v values -> truthy v = true -> is_str v.
Proof.
  induction values as [|x values IH]; intros seen ordered result H Hres Hseen v Hv Ht;
    [contradiction|].
  cbn [unique_loop] in H.
  destruct (truthy x) eqn:Ex; cbn [negb] in H.
  - destruct (negb (hashable x)); [discriminate H|].
    destruct (set_mem x seen) eqn:Es.
    + destruct Hv as [<-|Hv]; [|now apply (IH _ _ _ H Hres Hseen)].
      unfold set_mem in Es. apply existsb_exists in Es.
      destruct Es as (s & Hs & Heq). rewrite Forall_forall in Hseen.
      destruct (Hseen s Hs) as [t ->]. now apply (py_eqb_str x t).
    + assert (Hx : is_str x).
      { destruct (unique_loop_prefix _ _ _ _ H) as [tail ->].
        rewrite Forall_forall in Hres. apply Hres.
        apply in_or_app. left. apply in_or_app. right. simpl. auto. }
      destruct Hv as [<-|Hv]; [exact Hx|].
      apply (IH _ _ _ H Hres); auto.
  - destruct Hv as [<-|Hv]; [congruence|].
    now apply (IH _ _ _ H Hres Hseen).
Qed.

Lemma filter_map_str (s : string) (l : list string) :
  filter (fun y => negb (py_eqb (VStr s) y)) (map VStr l)
  = map VStr (filter (fun t => negb (String.eqb s t)) l).
Proof.
  induction l as [|t l IH]; [reflexivity|]. cbn [map filter].
  change (py_eqb (VStr s) (VStr t)) with (String.eqb s t).
  destruct (String.eqb s t); cbn [negb map]; now rewrite IH.
Qed.

Lemma first_values_strings (values : list value) :
  (forall v, In v values -> truthy v = true -> is_str v) ->
  first_values (filter truthy values)
  = map VStr (first_occurrences (filter is_nonempty (map text_of values))).
Proof.
  induction values as [|x values IH]; intros H; [reflexivity|].
  assert (H' : forall v, In v values -> truthy v = true -> is_str v)
    by (intros v Hv; apply H; simpl; auto).
  cbn [filter map].
  destruct (truthy x) eqn:Ex.
  - destruct (H x (or_introl eq_refl) Ex) as [s ->]. cbn [text_of].
    unfold is_nonempty at 1. cbn [truthy] in Ex. rewrite Ex.
    cbn [first_values first_occurrences map].
    rewrite IH by assumption. now rewrite filter_map_str.
  - replace (is_nonempty (text_of x)) with false; [now apply IH|].
    destruct x; try reflexivity. cbn [truthy] in Ex. symmetry. exact Ex.
Qed.

Lemma map_VStr_inj (l ss : list string) : map VStr l = map VStr ss -> l = ss.
Proof.
  revert ss. induction l as [|a l IH]; intros [|s ss] E; try discriminate E;
    [reflexivity|].
  cbn [map] in E. injection E as -> E. now rewrite (IH ss).
Qed.

(** X21.  The government entities column.  In every row that
    [_simplified_row] returns it is the ["; "]-joined list of the names of
    the government entities of all lobbying activities, in order, the
    missing and empty names left out and each name kept once, at its first
    place; and every name that is not falsy is a string. *)
Theorem government_entities_are_deduplicated (record row : dict) :
  _simplified_row record = Ok row ->
  dict_lookup "government_entities" row
  = Some (VStr (government_entities_spec record))
  /\ forall name,
       In name (entity_names record) -> truthy name = true -> is_str name.
Proof.
  intros H.
  destruct (simplified_row_columns record row H)
    as (activities & entities & _ & government & Ha & Hu & Hj & _ & Hg & _).
  destruct (join_values_map _ _ _ Hj) as (ss & Hss & ->).
  pose proof Hu as Hstop. unfold _unique in Hstop.
  apply unique_loop_stop in Hstop.
  pose proof (gen_entity_names_all activities Hstop) as Hall.
  assert (Hnames : entity_names record = fst (gen_entity_names activities)).
  { unfold entity_names, activities_of. rewrite Ha. now rewrite Hall. }
  unfold _unique in Hu. rewrite Hstop, <- Hnames in Hu.
  assert (Hstr : forall v, In v (entity_names record) -> truthy v = true ->
                           is_str v).
  { apply (unique_loop_all_strings _ [] [] entities Hu); [|constructor].
    rewrite Hss. apply Forall_forall. intros v Hv.
    apply in_map_iff in Hv. destruct Hv as (s & <- & _). now exists s. }
  split; [|exact Hstr].
  rewrite (unique_loop_values (entity_names record) None) in Hu.
  - cbn [app set_mem existsb negb] in Hu. rewrite filter_all in Hu.
    injection Hu as Hu. rewrite first_values_strings in Hu by exact Hstr.
    rewrite Hss in Hu.
    assert (Heq : first_occurrences
                    (filter is_nonempty (map text_of (entity_names record)))
                  = ss).
    { now apply map_VStr_inj. }
    rewrite Hg. unfold government_entities_spec. now rewrite Heq.
  - intros v Hv Ht. destruct (Hstr v Hv Ht) as [s ->]. reflexivity.
Qed.

Lemma government_entities_are_deduplicated_witness :
  exists row,
    _simplified_row
      [("lobbying_activities",
        VList [VDict [("government_entities",
                       VList [VDict [("id", VInt 1); ("name", VStr "SENATE")];
                              VDict [("id", VInt 2); ("name", VStr "HOUSE")]])];
               VDict [("description", VStr "no entities")];
               VDict [("government_entities",
                       VList [VDict [("name", VStr "SENATE")];
                              VDict [("name", VNone)];
                              VDict [("name", VStr "Treasury")]])]])]
    = Ok row
    /\ dict_lookup "government_entities" row
       = Some (VStr "SENATE; HOUSE; Treasury").
Proof.
  eexists. split; [vm_compute; reflexivity|].
  match goal with
  | |- dict_lookup _ ?r = _ =>
      destruct (government_entities_are_deduplicated
                  [("lobbying_activities",
                    VList [VDict [("government_entities",
                                   VList [VDict [("id", VInt 1);
                                                 ("name", VStr "SENATE")];
                                          VDict [("id", VInt 2);
                                                 ("name", VStr "HOUSE")]])];
                           VDict [("description", VStr "no entities")];
                           VDict [("government_entities",
                                   VList [VDict [("name", VStr "SENATE")];
                                          VDict [("name", VNone)];
                                          VDict [("name", VStr "Treasury")]])]])]
                  r eq_refl) as [Hg _]
  end.
  rewrite Hg. reflexivity.
Defined.

(** ** The cap on an endless cursor *)

Lemma pages_loop_capped (self : LDAClient) (q : Filters)
  (page_size pause_seconds : Z) (m : Z) (count : nat) :
  names_filter q = true ->
  forall (fuel : nat) (acc : list value) (first : option value) (page : Z)
         (w : World),
    endless w ->
    Z.of_nat (S count) = m - page + 1 ->
    (S count <= fuel)%nat ->
    match first with Some f => is_page f | None => True end ->
    exists merged w',
      pages_loop fuel self q page_size pause_seconds (Some m) acc first page w
      = Some (Ok (VDict merged), w')
      /\ dict_lookup "fetched_pages" merged = Some (VInt m)
      /\ requests w'
         = (requests w ++ page_requests q page_size page (S count))%list.
Proof.
  intros Hnames. induction count as [|count IH];
    intros fuel acc first page w Hw Hm Hfuel Hfirst;
    (destruct fuel as [|fuel]; [lia|]);
    destruct (Hw (length (gets w))) as (r & p & Hr & He & Hj & Hp & Hnext);
    destruct (list_filings_ok self q page page_size w r p)
      as (w1 & Hl & Hn1 & Hg1 & Hs1 & Hq1); auto;
    cbn [pages_loop]; rewrite Hl, (take_page_ok p acc Hp); cbn [reached_cap].
  - replace (page >=? m) with true by (symmetry; apply Z.geb_le; lia).
    cbn [negb].
    assert (Hf : is_page match first with Some f => f | None => p end)
      by (destruct first; assumption).
    destruct (match first with Some f => f | None => p end) as [| | | | |d];
      try contradiction.
    destruct (aggregate_lookup d (acc ++ results_of p)%list page)
      as (merged & Hagg & _ & Hcount & _).
    exists merged, w1. rewrite merge_result_ok by assumption. rewrite Hagg.
    split; [reflexivity|]. split; [|exact Hq1].
    rewrite Hcount. do 2 f_equal. lia.
  - replace (page >=? m) with false
      by (symmetry; rewrite Z.geb_leb; apply Z.leb_gt; lia).
    rewrite Hnext. cbn [negb].
    destruct (IH fuel (acc ++ results_of p)%list
                (Some match first with Some f => f | None => p end)
                (page + 1) (pause pause_seconds w1))
      as (merged & w' & Hloop & Hcount & Hq).
    + intros n. destruct (sleeps_pause pause_seconds w1) as [_ ->].
      rewrite Hn1. apply Hw.
    + lia.
    + lia.
    + destruct first; assumption.
    + exists merged, w'. split; [exact Hloop|]. split; [exact Hcount|].
      destruct (requests_pause pause_seconds w1) as [Hqp _].
      rewrite Hq, Hqp, Hq1, <- app_assoc. reflexivity.
Qed.

(** X22.  The cap is what stops the pager on a cursor that does not end.
    With an identifying filter, [max_pages = m >= 1] and a transport whose
    every response is a page with [next] set, [list_all_filings] makes
    exactly [m] requests, for the pages 1 to [m], and returns with
    [fetched_pages] equal to [m]. *)
Theorem cap_stops_endless_cursor (self : LDAClient) (q : Filters)
  (page_size pause_seconds : Z) (m : Z) (w : World) (fuel : nat) :
  names_filter q = true ->
  endless w ->
  1 <= m ->
  (Z.to_nat m <= fuel)%nat ->
  exists merged w',
    list_all_filings fuel self q page_size pause_seconds (Some m) w
    = Some (Ok (VDict merged), w')
    /\ dict_lookup "fetched_pages" merged = Some (VInt m)
    /\ requests w'
       = (requests w ++ page_requests q page_size 1 (Z.to_nat m))%list.
Proof.
  intros Hnames Hw Hm Hfuel. unfold list_all_filings.
  destruct (Z.to_nat m) as [|count] eqn:E; [lia|].
  apply (pages_loop_capped self q page_size pause_seconds m count Hnames);
    auto; lia.
Qed.

Lemma cap_stops_endless_cursor_witness :
  exists merged w',
    list_all_filings 3 test_client (by_client 7) 25 0 (Some 3)
      (serve_forever
         (page_of (VStr "https://lda.senate.gov/api/v1/filings/?page=2")
            [filing "a"]))
    = Some (Ok (VDict merged), w')
    /\ dict_lookup "fetched_pages" merged = Some (VInt 3)
    /\ length (requests w') = 3%nat.
Proof.
  destruct (cap_stops_endless_cursor test_client (by_client 7) 25 0 3
              (serve_forever
                 (page_of (VStr "https://lda.senate.gov/api/v1/filings/?page=2")
                    [filing "a"])) 3) as (merged & w' & Hrun & Hcount & Hq).
  - reflexivity.
  - intros n. eexists. eexists. repeat split.
  - lia.
  - simpl. lia.
  - exists merged, w'. split; [exact Hrun|]. split; [exact Hcount|].
    rewrite Hq. reflexivity.
Defined.
